(** * The application controller of the admission tool

    A shallow embedding of [backend/controllers/applicationController.ts]
    (handlers [getApplicationById], [getApplications], [postApplication] and
    [wipeAdmissionData]) together with the enumerations of [utils/enums.ts].

    Conventions.
    - A collection is the list of its documents in natural (insertion) order.
    - A handler returns a [Completion]: [Normal (status, body)] stands for
      [res.status(status).json(body)], and [Throw e] for [next(e)], since every
      handler wraps its body in [try { ... } catch (error) { return next(error) }].
    - Reads of the in-memory store succeed; the failures of writes that the
      handlers react to are supplied by an explicit [Driver] argument.
    - Loops that mutate the array they walk are run on fuel; each is shown to
      finish within the fuel its caller provides.
    - A string is held as its UTF-8 bytes and read as characters where the
      code does so; a number is a double, the arithmetic on integers
      rounding to the nearest double. *)

From Stdlib Require Import ZArith List String Ascii Bool Lia.
Import ListNotations.

Local Open Scope string_scope.
Local Open Scope list_scope.
Local Open Scope Z_scope.

(* ------------------------------------------------------------------ *)
(** ** utils/enums.ts *)

Module Enums.

Inductive MembershipType :=
| leader | deputy_leader | cashier | board_member
| deputy_board_member | volunteer | member.

Inductive StatusTypes :=
| PENDING | INVITED_TO_INTERVIEW | INTERVIEW_DECLINED | INTERVIEW_COMPLETED
| OFFER_GIVEN | OFFER_DECLINED | ACCEPTED | REJECTED.

Inductive SortTypes := NAME_ASC | NAME_DESC | DATE_ASC | DATE_DESC.

(** The string each member of the string enum [StatusTypes] denotes. *)
Definition StatusTypes_value (s : StatusTypes) : string :=
  match s with
  | PENDING => "Pending"
  | INVITED_TO_INTERVIEW => "Invited to interview"
  | INTERVIEW_DECLINED => "Interview declined"
  | INTERVIEW_COMPLETED => "Interview completed"
  | OFFER_GIVEN => "Offer given"
  | OFFER_DECLINED => "Offer declined"
  | ACCEPTED => "Accepted"
  | REJECTED => "Rejected"
  end.

End Enums.
Import Enums.

(* ------------------------------------------------------------------ *)
(** ** Errors and completions *)

Inductive Error :=
| CustomError (message : string) (status : Z)
| UnauthorizedUserError
| TypeError
| MongoError.

(** [Unmodelled] marks an input that leaves the fragment of the platform
    described here (a numeral beyond [JS.Number], a regular expression beyond
    [Regex.compile]). *)
Inductive Completion (A : Type) :=
| Normal (a : A)
| Throw (e : Error)
| OutOfFuel
| Unmodelled.

Arguments Normal {A} a.
Arguments Throw {A} e.
Arguments OutOfFuel {A}.
Arguments Unmodelled {A}.

Definition bind {A B : Type} (m : Completion A) (k : A -> Completion B)
  : Completion B :=
  match m with
  | Normal a => k a
  | Throw e => Throw e
  | OutOfFuel => OutOfFuel
  | Unmodelled => Unmodelled
  end.

(** [promise.catch(() => { throw e })]. *)
Definition catch {A : Type} (m : Completion A) (e : Error) : Completion A :=
  match m with
  | Throw _ => Throw e
  | _ => m
  end.

Notation "x <- m ;; k" := (bind m (fun x => k))
  (at level 61, m at next level, right associativity).
Notation "' p <- m ;; k" := (bind m (fun x => let p := x in k))
  (at level 61, p pattern, m at next level, right associativity).

(** Modelled from the spec: the centralized error responder, which is not
    part of the controller, maps an error to its HTTP status ([Unauthorized]
    for a missing caller identity, [Internal] for an unexpected failure). *)
Definition httpStatus {B : Type} (r : Completion (Z * B)) : option Z :=
  match r with
  | Normal (status, _) => Some status
  | Throw (CustomError _ status) => Some status
  | Throw UnauthorizedUserError => Some 401
  | Throw TypeError => Some 500
  | Throw MongoError => Some 500
  | OutOfFuel => None
  | Unmodelled => None
  end.

(* ------------------------------------------------------------------ *)
(** ** The fragment of JavaScript the controller relies on *)

Module JS.

(** Truthiness. A string is truthy unless empty, [undefined] is falsy, a
    number is falsy when it is [0] (or [NaN]), and every object, arrays
    included, is truthy whatever it holds. *)
Definition truthy_string (s : option string) : bool :=
  match s with
  | None => false
  | Some s => negb (String.eqb s "")
  end.

Definition truthy_number (n : option Z) : bool :=
  match n with
  | None => false
  | Some z => negb (z =? 0)
  end.

Definition truthy_array {A : Type} (l : list A) : bool := true.

(** The string a truthy [string | undefined] holds. *)
Definition text (s : option string) : string :=
  match s with
  | Some s => s
  | None => ""
  end.

(** [Array.prototype.includes] on an array of numbers. *)
Definition includes (l : list Z) (x : Z) : bool := existsb (Z.eqb x) l.

(** [l[i]]: [undefined] outside [0 .. l.length - 1]. *)
Definition get {A : Type} (l : list A) (i : Z) : option A :=
  if i <? 0 then None else nth_error l (Z.to_nat i).

Definition length {A : Type} (l : list A) : Z := Z.of_nat (List.length l).

(** [l.splice(start, deleteCount)], as the array it leaves behind. *)
Definition splice {A : Type} (start deleteCount : Z) (l : list A) : list A :=
  let len := length l in
  let actualStart :=
    if start <? 0 then Z.max (len + start) 0 else Z.min start len in
  let actualDeleteCount := Z.min (Z.max deleteCount 0) (len - actualStart) in
  firstn (Z.to_nat actualStart) l
    ++ skipn (Z.to_nat (actualStart + actualDeleteCount)) l.

(** *** Strings

    A string is held as the bytes of its UTF-8 encoding; [codePoints] reads
    its characters. A byte that starts no well-formed sequence is read as a
    value above every code point: it is neither white space, nor a digit,
    nor a character a pattern may hold. *)
Definition byte (c : ascii) : Z := Z.of_N (N_of_ascii c).

Definition continuation (c : ascii) : option Z :=
  let b := byte c in
  if (128 <=? b) && (b <? 192) then Some (b - 128) else None.

Definition stray (b : Z) : Z := 1114112 + b.

Definition isSurrogate (c : Z) : bool := (55296 <=? c) && (c <=? 57343).

(** The character that starts with the byte [b0], followed by [s1], and
    the number of bytes of [s1] it takes. *)
Definition readCharacter (b0 : Z) (s1 : string) : option (Z * nat) :=
  if b0 <? 128 then Some (b0, 0%nat)
  else
    match s1 with
    | String c1 s2 =>
        match continuation c1 with
        | Some x1 =>
            if (194 <=? b0) && (b0 <? 224)
            then Some ((b0 - 192) * 64 + x1, 1%nat)
            else
              match s2 with
              | String c2 s3 =>
                  match continuation c2 with
                  | Some x2 =>
                      if (224 <=? b0) && (b0 <? 240) then
                        let c := ((b0 - 224) * 64 + x1) * 64 + x2 in
                        if (2048 <=? c) && negb (isSurrogate c)
                        then Some (c, 2%nat)
                        else None
                      else
                        match s3 with
                        | String c3 _ =>
                            match continuation c3 with
                            | Some x3 =>
                                let c :=
                                  (((b0 - 240) * 64 + x1) * 64 + x2) * 64 + x3 in
                                if (240 <=? b0) && (b0 <? 245)
                                   && (65536 <=? c) && (c <? 1114112)
                                then Some (c, 3%nat)
                                else None
                            | None => None
                            end
                        | EmptyString => None
                        end
                  | None => None
                  end
              | EmptyString => None
              end
        | None => None
        end
    | EmptyString => None
    end.

(** The characters of [s] once its first [taken] bytes, which belong to
    the character before, are passed. *)
Fixpoint codePointsAfter (taken : nat) (s : string) : list Z :=
  match s with
  | EmptyString => []
  | String c0 s1 =>
      match taken with
      | S taken' => codePointsAfter taken' s1
      | O =>
          match readCharacter (byte c0) s1 with
          | Some (c, n) => c :: codePointsAfter n s1
          | None => stray (byte c0) :: codePointsAfter 0 s1
          end
      end
  end.

Definition codePoints (s : string) : list Z := codePointsAfter 0 s.

(** *** Numbers

    Numbers are doubles. Only integers, the infinities and [NaN] arise
    here; [Int z] is the double of value [z], the sign of zero being left
    out. *)
Inductive number := NaN | Int (z : Z) | Infinity (negative : bool).

(** The double nearest to an integer, ties going to the even significand:
    every integer up to 2^53 in magnitude is a double, beyond that a double
    has 53 significant bits. *)
Definition roundToDouble (z : Z) : Z :=
  let m := Z.abs z in
  if m <=? 2 ^ 53 then z
  else
    let ulp := 2 ^ (Z.log2 m - 52) in
    let q := m / ulp in
    let r := m mod ulp in
    let q' :=
      if (ulp <? 2 * r) || ((2 * r =? ulp) && Z.odd q) then q + 1 else q in
    Z.sgn z * (q' * ulp).

(** The number an exact integer result is rounded to. *)
Definition ofInteger (z : Z) : number :=
  let r := roundToDouble z in
  if Z.abs r <? 2 ^ 1024 then Int r else Infinity (z <? 0).

(** [a - b] and [a * b]. *)
Definition sub (a b : number) : number :=
  match a, b with
  | Int x, Int y => ofInteger (x - y)
  | Int _, Infinity n => Infinity (negb n)
  | Infinity n, Int _ => Infinity n
  | Infinity n, Infinity n' => if Bool.eqb n n' then NaN else Infinity n
  | _, _ => NaN
  end.

Definition mul (a b : number) : number :=
  match a, b with
  | Int x, Int y => ofInteger (x * y)
  | Int x, Infinity n | Infinity n, Int x =>
      if x =? 0 then NaN else Infinity (xorb n (x <? 0))
  | Infinity n, Infinity n' => Infinity (xorb n n')
  | _, _ => NaN
  end.

(** White space and line terminators, which [parseInt] skips and [Number]
    trims. *)
Definition isWhiteSpace (c : Z) : bool :=
  existsb (Z.eqb c)
    [9; 10; 11; 12; 13; 32; 160; 5760; 8232; 8233; 8239; 8287; 12288; 65279]
  || ((8192 <=? c) && (c <=? 8202)).

Definition digit (c : Z) : option Z :=
  if (48 <=? c) && (c <=? 57) then Some (c - 48) else None.

Fixpoint skipWhiteSpace (s : list Z) : list Z :=
  match s with
  | c :: s' => if isWhiteSpace c then skipWhiteSpace s' else s
  | [] => s
  end.

(** The longest prefix of decimal digits, read with accumulator [acc];
    [seen] records whether a digit has been read. *)
Fixpoint digits (s : list Z) (seen : bool) (acc : Z) : option Z * list Z :=
  match s with
  | c :: s' =>
      match digit c with
      | Some d => digits s' true (10 * acc + d)
      | None => (if seen then Some acc else None, s)
      end
  | [] => (if seen then Some acc else None, s)
  end.

(** A leading [-] or [+]. *)
Definition signed (s : list Z) : Z * list Z :=
  match s with
  | c :: s' =>
      if c =? 45 then (-1, s') else if c =? 43 then (1, s') else (1, s)
  | [] => (1, s)
  end.

(** [parseInt(s, 10)]: the integer spelled by the digits that follow the
    leading white space and sign, rounded to a double with every digit
    taken into account, as Node does; [NaN] without a digit. *)
Definition parseInt (s : string) : number :=
  let '(sign, s1) := signed (skipWhiteSpace (codePoints s)) in
  match fst (digits s1 false 0) with
  | Some z => ofInteger (sign * z)
  | None => NaN
  end.

(** [Number(s)] for the strings that spell, in decimal, an integer of at
    most 2^53 in magnitude, possibly signed and surrounded by white space,
    and for the blank string: such an integer is a double, and is the value
    of [Number(s)]. The other numerals (a fraction, an exponent, another
    radix, [Infinity], a larger integer, which [Number] rounds) and the
    strings that are no numeral are left out. *)
Definition Number (s : string) : Completion number :=
  let t := skipWhiteSpace (codePoints s) in
  match t with
  | [] => Normal (Int 0)
  | _ =>
      let '(sign, s1) := signed t in
      match digits s1 false 0 with
      | (Some z, rest) =>
          match skipWhiteSpace rest with
          | [] => if z <=? 2 ^ 53 then Normal (Int (sign * z))
                  else Unmodelled
          | _ => Unmodelled
          end
      | (None, _) => Unmodelled
      end
  end.

(** The character of a decimal digit. *)
Definition digitChar (d : Z) : ascii := ascii_of_nat (48 + Z.to_nat d).

(** The decimal digits of a non-negative integer, most significant first,
    put in front of [acc]. *)
Fixpoint decimalDigits (fuel : nat) (n : Z) (acc : string) : string :=
  match fuel with
  | O => acc
  | S fuel' =>
      let acc' := String (digitChar (n mod 10)) acc in
      if n / 10 =? 0 then acc' else decimalDigits fuel' (n / 10) acc'
  end.

(** The template literal [`${n}`] of an integer of at most 2^53 in
    magnitude: its decimal digits, after a minus sign when negative. For a
    larger double JavaScript writes the shortest digits that read back as
    it, and from 10^21 on an exponent; both are left out. *)
Definition toString (n : Z) : Completion string :=
  if Z.abs n <=? 2 ^ 53 then
    Normal (if n <? 0 then String "-" (decimalDigits 16 (- n) "")
            else decimalDigits 16 n "")
  else Unmodelled.

End JS.

(* ------------------------------------------------------------------ *)
(** ** Data model *)

Definition ObjectId := string.

Module Committee.
Record t := mk
  { _id : Z; name : string; slug : string; accepts_admissions : bool }.

(** A committee as populated with [select: 'name slug']. *)
Record populated := mkPopulated
  { p_id : Z; p_name : string; p_slug : string }.

Definition populate (c : t) : populated :=
  mkPopulated (_id c) (name c) (slug c).
End Committee.

Module Status.
Record t := mk { _id : ObjectId; committee : Z; value : StatusTypes }.

(** The only field of a status the list projection keeps. *)
Record projected := mkProjected { pr_committee : Z }.

(** A status as populated by get-by-id: its committee is replaced by the
    committee's id and name, or by [null] when there is no such committee. *)
Record populated := mkPopulated
  { p_id : ObjectId; p_committee : option (Z * string); p_value : StatusTypes }.
End Status.

Module Application.
(** [C] and [S] are what the [committees] and [statuses] arrays hold:
    references in the stored document, documents once joined. *)
Record t (C S : Type) := mk
  { _id : ObjectId;
    name : string;
    submitted_date : Z;
    committees : list C;
    statuses : list S }.

Arguments mk {C S}.
Arguments _id {C S}.
Arguments name {C S}.
Arguments submitted_date {C S}.
Arguments committees {C S}.
Arguments statuses {C S}.

Definition with_arrays {C S C' S' : Type} (a : t C S)
    (cs : list C') (ss : list S') : t C' S' :=
  mk (_id a) (name a) (submitted_date a) cs ss.
End Application.

Definition IApplication := Application.t Z ObjectId.

Module User.
Record membership := mkMembership { committee : Z; role : MembershipType }.
Record t := mk { _id : Z; committees : list membership }.
End User.

Module AdmissionPeriod.
Record t := mk { start_date : Z; end_date : Z }.
End AdmissionPeriod.

Record Store := mkStore
  { Applications : list IApplication;
    Statuses : list Status.t;
    Users : list User.t;
    AdmissionPeriods : list AdmissionPeriod.t;
    Committees : list Committee.t }.

(** Response bodies: a payload under its key, or [{ message }]. *)
Inductive Body (A : Type) :=
| Payload (a : A)
| Message (message : string).

Arguments Payload {A} a.
Arguments Message {A} message.

Definition IPopulatedApplication :=
  Application.t Committee.populated Status.populated.

(* ------------------------------------------------------------------ *)
(** ** frontend/src/components/FilterSearch.tsx *)

Module FilterSearch.

(** An entry of the data of a select: [{ value, label }]. *)
Record SelectData := mkSelectData { value : string; label : string }.

(** Lines 183-189: one entry per committee, in order, its value the id
    written as a string; of the frontend's [ICommittee] only [_id] and
    [name] are read. *)
Fixpoint mapCommitteesToMultiselectData (committees : list Committee.t)
  : Completion (list SelectData) :=
  match committees with
  | [] => Normal []
  | committee :: rest =>
      value <- JS.toString (Committee._id committee) ;;
      dataList <- mapCommitteesToMultiselectData rest ;;
      Normal (mkSelectData value (Committee.name committee) :: dataList)
  end.

End FilterSearch.

(* ------------------------------------------------------------------ *)
(** ** Requests *)

(** A query parameter that may be repeated: [string | string[]]. *)
Inductive QueryValue :=
| QString (s : string)
| QArray (l : list string).

Module Query.
Record t := mk
  { page : option string;
    name : option string;
    committee : option QueryValue;
    status : option string;
    sort : option SortTypes }.
End Query.

(** The request of the list endpoint. [validationErrors] is
    [validationResult(req).formatWith(errorFormatter).array()], computed by
    the validation middleware that runs before the handler. *)
Record ListRequest := mkListRequest
  { ntnuiNo : option Z;
    validationErrors : list string;
    query : Query.t }.

Module Submission.
(** [req.body] of the submit endpoint, without the form-specific fields. *)
Record t := mk { name : string; committees : list Z }.
End Submission.

Inductive SaveOutcome :=
| Saved
| ValidationError (message : string)
| SaveFailure.

(** What the database driver decides during a submission: the identifiers and
    the date it assigns, whether [insertMany] rejects (after having written
    that many documents, the insert being ordered), and how [save] ends. *)
Record Driver := mkDriver
  { statusId : nat -> ObjectId;
    insertManyRejectsAfter : option nat;
    applicationId : ObjectId;
    now : Z;
    saveOutcome : SaveOutcome }.

(* ------------------------------------------------------------------ *)
(** ** Regular expressions of the name filter

    The fragment of the regular expressions MongoDB evaluates for [$regex]
    that is described here: a pattern is a sequence of ordinary characters,
    each matching itself, and of dots, each matching any one character but
    a line feed. A pattern holding another metacharacter is left out.
    Patterns and subjects are sequences of characters, as the server, which
    matches UTF-8 text, takes them.

    Under option [i] two characters match when the engine folds them to the
    same character. The folding belongs to the engine's tables, not to the
    repository, and is a parameter [fold]. *)

Module Regex.

Inductive atom := AnyChar | Literal (c : Z).

(** [. * + ? ( ) [ ] { } | ^ $ \] *)
Definition isMeta (c : Z) : bool :=
  existsb (Z.eqb c) [46; 42; 43; 63; 40; 41; 91; 93; 123; 125; 124; 94; 36; 92].

(** An ordinary character: it stands for itself in a pattern. *)
Definition ordinary (c : Z) : bool :=
  (0 <? c) && (c <? 1114112) && negb (isMeta c).

Fixpoint compile (pattern : list Z) : option (list atom) :=
  match pattern with
  | [] => Some []
  | c :: rest =>
      match compile rest with
      | Some atoms =>
          if c =? 46 then Some (AnyChar :: atoms)
          else if ordinary c then Some (Literal c :: atoms)
          else None
      | None => None
      end
  end.

Definition matchAtom (fold : Z -> Z) (a : atom) (c : Z) : bool :=
  match a with
  | AnyChar => negb (c =? 10)
  | Literal l => fold l =? fold c
  end.

(** The pattern matches a prefix of the subject. *)
Fixpoint matchHere (fold : Z -> Z) (atoms : list atom) (subject : list Z)
  : bool :=
  match atoms, subject with
  | [], _ => true
  | a :: atoms', c :: subject' =>
      matchAtom fold a c && matchHere fold atoms' subject'
  | _ :: _, [] => false
  end.

(** An unanchored pattern matches anywhere in the subject. *)
Fixpoint search (fold : Z -> Z) (atoms : list atom) (subject : list Z)
  : bool :=
  matchHere fold atoms subject
  || match subject with
     | _ :: subject' => search fold atoms subject'
     | [] => false
     end.

(** Case-insensitive containment, the reading of the name filter as a
    plain substring search: the folded subject holds the folded needle. *)
Definition containsIgnoringCase (fold : Z -> Z) (needle subject : list Z)
  : Prop :=
  exists before after : list Z,
    map fold subject = before ++ map fold needle ++ after.

(** What an atom stands for. *)
Definition stands (fold : Z -> Z) (a : atom) (c : Z) : Prop :=
  match a with
  | AnyChar => c <> 10
  | Literal l => fold l = fold c
  end.

(** Containment of a run of characters that the atoms stand for, one by
    one. *)
Definition containsRun (fold : Z -> Z) (atoms : list atom) (subject : list Z)
  : Prop :=
  exists before run after : list Z,
    subject = before ++ run ++ after /\ Forall2 (stands fold) atoms run.

(** A pattern made of ordinary characters only, or of ordinary characters
    and dots, and what a character of such a pattern denotes. *)
Definition literal (pattern : list Z) : bool := forallb ordinary pattern.

Definition simple (pattern : list Z) : bool :=
  forallb (fun c => (c =? 46) || ordinary c) pattern.

Definition atomOf (c : Z) : atom := if c =? 46 then AnyChar else Literal c.

End Regex.

(* ------------------------------------------------------------------ *)
(** ** MongoDB operators used by the aggregation *)

Module Mongo.

(** [{ field: { $ne: value } }] for an array field of numbers and an array
    [value]: the field differs from [value] (no element of the field, a
    number, can equal the array). *)
Definition ne (field value : list Z) : bool :=
  if list_eq_dec Z.eq_dec field value then false else true.

Definition number_eqb (v : JS.number) (x : Z) : bool :=
  match v with
  | JS.Int z => z =? x
  | JS.NaN | JS.Infinity _ => false
  end.

(** [{ $in: values }] on a number. *)
Definition in_values (values : list JS.number) (x : Z) : bool :=
  existsb (fun v => number_eqb v x) values.

(** [{ field: { $in: values } }] for an array field of numbers: some
    element of the field is among the values. *)
Definition in_ (field : list Z) (values : list JS.number) : bool :=
  existsb (in_values values) field.

(** [{ field: { $elemMatch: q } }]. *)
Definition elemMatch {A : Type} (q : A -> bool) (field : list A) : bool :=
  existsb q field.

(** [$lookup] with an array as local field: the documents of the foreign
    collection, in its natural order, whose key is among the references. *)
Definition lookup {K D : Type} (eqb : K -> K -> bool) (key : D -> K)
    (from : list D) (localField : list K) : list D :=
  filter (fun d => existsb (eqb (key d)) localField) from.

(** [$skip]: rejected unless the argument is a non-negative integer of 64
    bits. *)
Definition skip {A : Type} (n : JS.number) (docs : list A)
  : Completion (list A) :=
  match n with
  | JS.Int z =>
      if (z <? 0) || (2 ^ 63 <=? z) then Throw MongoError
      else Normal (skipn (Z.to_nat z) docs)
  | JS.NaN | JS.Infinity _ => Throw MongoError
  end.

Definition limit {A : Type} (n : Z) (docs : list A) : list A :=
  firstn (Z.to_nat n) docs.

(** [$count]: one document holding the number of inputs, none when there
    is no input. *)
Definition count {A : Type} (docs : list A) : list Z :=
  match docs with
  | [] => []
  | _ => [JS.length docs]
  end.

(** [{ $ceil: { $divide: [a, b] } }] on an integer [a] and a positive power
    of two [b]: [$divide] takes [a] as a double, after which the division
    and the ceiling are exact. *)
Definition ceil_divide (a b : Z) : Z := - ((- JS.roundToDouble a) / b).

(** [{ $arrayElemAt: [array, 0] }]: missing when the array is empty. *)
Definition arrayElemAt0 {A : Type} (l : list A) : option A := hd_error l.

(** [deleteMany(q)] and [updateMany({}, u)] on a collection. *)
Definition deleteMany {A : Type} (q : A -> bool) (docs : list A) : list A :=
  filter (fun d => negb (q d)) docs.

Definition updateMany {A : Type} (u : A -> A) (docs : list A) : list A :=
  map u docs.

End Mongo.

(** The documents of the aggregation, stage after stage. *)
Definition WithStatuses := Application.t Z Status.t.
Definition Joined := Application.t Committee.t Status.t.
Definition Projected := Application.t Committee.populated Status.projected.

Module Pagination.
(** The document of the [pagination] facet. *)
Record counted := mkCounted
  { total : Z; c_currentPage : JS.number; c_numberOfPages : Z }.

(** The flat object of the response; a field is absent when the facet
    produced no document. *)
Record t := mk
  { currentPage : option JS.number; numberOfPages : option Z }.
End Pagination.

Record Facet := mkFacet
  { f_applications : list Joined;
    f_pagination : list Pagination.counted }.

Record IApplicationResponse := mkResponse
  { applications : list Projected;
    pagination : Pagination.t }.

(** Bodies of the list endpoint. *)
Inductive ListBody :=
| Listing (applicationRes : IApplicationResponse)
| ListMessage (message : string)
| ListMessages (messages : list string).

(* ------------------------------------------------------------------ *)
(** ** A small organisation, used to exercise the statements *)

Module Example.

(** Sentinel ids, a storage-order [$sort], and admission open on day 100. *)
Definition electionCommittee : Z := 1.
Definition mainBoard : Z := 2.

Definition storageOrder (_ : SortTypes) (docs : list Joined) : list Joined :=
  docs.

(** A case folding that identifies the letters [A] to [Z] with [a] to [z],
    and no other character with another. *)
Definition lowerCase (c : Z) : Z :=
  if (65 <=? c) && (c <=? 90) then c + 32 else c.

Definition activeOnDay100 (periods : list AdmissionPeriod.t) : bool :=
  existsb (fun p => (AdmissionPeriod.start_date p <=? 100)
                    && (100 <=? AdmissionPeriod.end_date p)) periods.

Definition committees : list Committee.t :=
  [ Committee.mk 1 "Election committee" "valg" true;
    Committee.mk 2 "Main board" "hovedstyret" true;
    Committee.mk 7 "Swimming" "svomming" true;
    Committee.mk 9 "Dance" "dans" false ].

Definition users : list User.t :=
  [ User.mk 10 [User.mkMembership 2 leader];
    User.mk 11 [User.mkMembership 7 member];
    User.mk 12 [];
    User.mk 13 [User.mkMembership 1 board_member] ].

Definition statuses : list Status.t :=
  [ Status.mk "s1" 7 PENDING;
    Status.mk "s2" 2 PENDING;
    Status.mk "s3" 2 PENDING;
    Status.mk "s4" 7 PENDING;
    Status.mk "s5" 9 ACCEPTED ].

Definition ada : IApplication :=
  Application.mk "a1" "Ada Lovelace" 10 [7; 2] ["s1"; "s2"].
Definition alan : IApplication :=
  Application.mk "a2" "Alan Turing" 20 [2] ["s3"].
Definition abc : IApplication :=
  Application.mk "a3" "abc" 30 [7; 9] ["s4"; "s5"].

(** An applicant whose name holds a letter outside ASCII, in no store. *)
Definition bjorn : IApplication :=
  Application.mk "a8" "Bjørn Dæhlie" 80 [7] [].

Definition db : Store :=
  mkStore [ada; alan; abc] statuses users
          [AdmissionPeriod.mk 0 200] committees.

(** The same store outside any admission period. *)
Definition closedSeason : Store :=
  mkStore [ada; alan; abc] statuses users [] committees.

Definition noFilter : Query.t := Query.mk None None None None None.

Definition driver : Driver :=
  mkDriver (fun i => String (ascii_of_nat (97 + i)) "-new") None "a4" 40 Saved.

Definition rejectingDriver : Driver :=
  mkDriver (fun i => String (ascii_of_nat (97 + i)) "-new") (Some 1%nat)
           "a4" 40 Saved.

(** Populated and projected applications addressed to Swimming, the Main
    Board and Dance, in this order. *)
Definition swimming : Committee.populated :=
  Committee.mkPopulated 7 "Swimming" "svomming".
Definition board : Committee.populated :=
  Committee.mkPopulated 2 "Main board" "hovedstyret".
Definition dance : Committee.populated :=
  Committee.mkPopulated 9 "Dance" "dans".

Definition populatedThree : Application.t Committee.populated StatusTypes :=
  Application.mk "a5" "Grace Hopper" 50 [swimming; board; dance]
    [PENDING; ACCEPTED; REJECTED].

Definition projectedThree : Projected :=
  Application.mk "a5" "Grace Hopper" 50 [swimming; board; dance]
    [Status.mkProjected 7; Status.mkProjected 2; Status.mkProjected 9].

(** An application addressed to the Main Board alone, and one addressed to
    no committee. *)
Definition boardOnly : Application.t Committee.populated StatusTypes :=
  Application.mk "a6" "Edsger Dijkstra" 60 [board] [PENDING].
Definition nobody : Application.t Committee.populated StatusTypes :=
  Application.mk "a7" "Tony Hoare" 70 [] [].

(** Ten joined applications. *)
Definition joined (i : nat) : Joined :=
  Application.mk (String (ascii_of_nat (97 + i)) "") "applicant" (Z.of_nat i)
    [] [].
Definition tenJoined : list Joined := map joined (seq 0 10).

End Example.

(* ------------------------------------------------------------------ *)
(** ** The controller *)

Section Controller.

(** [utils/constants.ts] is not among the sources: the two sentinel
    committee ids are parameters of the development. *)
Variable ELECTION_COMMITTEE_ID : Z.
Variable MAIN_BOARD_ID : Z.

(** *** getUserCommitteeIdsByUserId (lines 15-27) *)

Definition getUserCommitteeIdsByUserId (db : Store) (userId : Z) : list Z :=
  match find (fun user => User._id user =? userId) (Users db) with
  | Some user => map User.committee (User.committees user)
  | None => []
  end.

(** *** getApplicationById (lines 39-114) *)

(** Mongoose population of an array of references: the documents found, in
    the order of the references; a dangling reference leaves no entry. *)
Definition populateCommitteesById (db : Store) (ids : list Z)
  : list Committee.populated :=
  flat_map
    (fun id =>
       match find (fun c => Committee._id c =? id) (Committees db) with
       | Some c => [Committee.populate c]
       | None => []
       end) ids.

Definition populateStatus (db : Store) (s : Status.t) : Status.populated :=
  Status.mkPopulated
    (Status._id s)
    (match find (fun c => Committee._id c =? Status.committee s)
                (Committees db) with
     | Some c => Some (Committee._id c, Committee.name c)
     | None => None
     end)
    (Status.value s).

Definition populateStatusesById (db : Store) (ids : list ObjectId)
  : list Status.populated :=
  flat_map
    (fun id =>
       match find (fun s => String.eqb (Status._id s) id) (Statuses db) with
       | Some s => [populateStatus db s]
       | None => []
       end) ids.

(** Lines 57-67: [findById] followed by the two [populate] calls. *)
Definition findApplicationById (db : Store) (application_id : ObjectId)
  : option IPopulatedApplication :=
  match find (fun a => String.eqb (Application._id a) application_id)
             (Applications db) with
  | Some a =>
      Some (Application.with_arrays a
              (populateCommitteesById db (Application.committees a))
              (populateStatusesById db (Application.statuses a)))
  | None => None
  end.

(** Lines 78-84: the Main Board loop. [applicationCommittees] aliases
    [application.committees], so both arrays of the application are the
    state of the loop; a [break] ends it. *)
Fixpoint mainBoardLoop {S : Type} (fuel : nat) (i : Z)
    (applicationCommittees : list Committee.populated) (statuses : list S)
  : Completion (list Committee.populated * list S) :=
  match fuel with
  | O => OutOfFuel
  | Datatypes.S fuel' =>
      if i <? JS.length applicationCommittees then
        match JS.get applicationCommittees i with
        | None => Throw TypeError
        | Some c =>
            if Committee.p_id c =? MAIN_BOARD_ID then
              Normal (JS.splice i 1 applicationCommittees,
                      JS.splice i 1 statuses)
            else mainBoardLoop fuel' (i + 1) applicationCommittees statuses
        end
      else Normal (applicationCommittees, statuses)
  end.

(** Lines 96-106: the loop of an ordinary committee. *)
Fixpoint ordinaryLoop {S : Type} (userCommitteeIds : list Z) (fuel : nat)
    (id : Z) (applicationCommittees : list Committee.populated)
    (statuses : list S) (authorized : bool)
  : Completion (list Committee.populated * list S * bool) :=
  match fuel with
  | O => OutOfFuel
  | Datatypes.S fuel' =>
      if id <? JS.length applicationCommittees then
        match JS.get applicationCommittees id with
        | None => Throw TypeError
        | Some c =>
            let appCommitteeId := Committee.p_id c in
            if JS.includes userCommitteeIds appCommitteeId then
              ordinaryLoop userCommitteeIds fuel' (id + 1)
                applicationCommittees statuses true
            else if appCommitteeId =? MAIN_BOARD_ID then
              ordinaryLoop userCommitteeIds fuel' (id - 1 + 1)
                (JS.splice id 1 applicationCommittees)
                (JS.splice id 1 statuses) authorized
            else
              ordinaryLoop userCommitteeIds fuel' (id + 1)
                applicationCommittees statuses authorized
        end
      else Normal (applicationCommittees, statuses, authorized)
  end.

(** Lines 70-110: what the handler does with the caller's committee ids and
    the application it found. *)
Definition respondWithApplication {S : Type} (userCommitteeIds : list Z)
    (application : Application.t Committee.populated S)
  : Completion (Z * Body (Application.t Committee.populated S)) :=
  if JS.includes userCommitteeIds ELECTION_COMMITTEE_ID then
    Normal (200, Payload application)
  else
    let applicationCommittees := Application.committees application in
    let fuel := Datatypes.S (List.length applicationCommittees) in
    if JS.includes userCommitteeIds MAIN_BOARD_ID then
      '(cs, ss) <- mainBoardLoop fuel 0 applicationCommittees
                     (Application.statuses application) ;;
      if JS.length cs >? 0 then
        Normal (200, Payload (Application.with_arrays application cs ss))
      else
        Normal (403, Message "You do not have access to this application")
    else
      '(cs, ss, authorized) <-
         ordinaryLoop userCommitteeIds fuel 0 applicationCommittees
           (Application.statuses application) false ;;
      if authorized then
        Normal (200, Payload (Application.with_arrays application cs ss))
      else
        Throw (CustomError "You do not have access to this application" 403).

Definition getApplicationById (db : Store) (ntnuiNo : option Z)
    (application_id : ObjectId)
  : Completion (Z * Body IPopulatedApplication) :=
  match ntnuiNo with
  | Some userId =>
      if negb (JS.truthy_number ntnuiNo) then Throw UnauthorizedUserError
      else
        let userCommitteeIds := getUserCommitteeIdsByUserId db userId in
        if negb (JS.truthy_array userCommitteeIds) then
          Normal (403, Message "The user is not member of any committee")
        else
          match findApplicationById db application_id with
          | None => Throw (CustomError "Could not find application" 404)
          | Some application =>
              respondWithApplication userCommitteeIds application
          end
  | None => Throw UnauthorizedUserError
  end.

(** *** getApplications (lines 116-349) *)

(** [getSortTypeValue] and with it the order the [$sort] stage produces
    belong to [utils/applicationQueryMiddleware], which is not among the
    sources: the stage is a parameter. *)
Variable sortStage : SortTypes -> list Joined -> list Joined.

(** Lines 152-174: the scope stage. *)
Definition userAuthorizedCommittees (userCommitteeIds : list Z)
    (docs : list IApplication) : list IApplication :=
  if JS.includes userCommitteeIds ELECTION_COMMITTEE_ID then docs
  else if JS.includes userCommitteeIds MAIN_BOARD_ID then
    filter (fun a => Mongo.ne (Application.committees a) [MAIN_BOARD_ID]) docs
  else
    filter (fun a => Mongo.in_ (Application.committees a)
                       (map JS.Int userCommitteeIds)) docs.

(** The case folding of the server's regular-expression engine, by which
    option [i] compares characters, is not part of the repository: it is a
    parameter. *)
Variable caseFold : Z -> Z.

(** Lines 175-184: the name stage, pushed when [name] is truthy. *)
Definition queryName (name : option string) (docs : list IApplication)
  : Completion (list IApplication) :=
  if JS.truthy_string name then
    match Regex.compile (JS.codePoints (JS.text name)) with
    | Some atoms =>
        Normal
          (filter
             (fun a =>
                Regex.search caseFold atoms
                  (JS.codePoints (Application.name a)))
             docs)
    | None => Unmodelled
    end
  else Normal docs.

(** Lines 187-195. *)
Definition populateStatusStage (db : Store) (docs : list IApplication)
  : list WithStatuses :=
  map (fun a =>
         Application.with_arrays a (Application.committees a)
           (Mongo.lookup String.eqb Status._id (Statuses db)
              (Application.statuses a))) docs.

(** Lines 198-206. *)
Definition truthy_committee (committee : option QueryValue) : bool :=
  match committee with
  | Some (QArray ids) => JS.truthy_array ids
  | Some (QString id) => JS.truthy_string (Some id)
  | None => false
  end.

Definition committeeIds (committee : option QueryValue) : list JS.number :=
  if truthy_committee committee then
    match committee with
    | Some (QArray ids) => map JS.parseInt ids
    | Some (QString id) => [JS.parseInt id]
    | None => []
    end
  else [].

(** Lines 209-221. *)
Definition statusForCommittee (ids : list JS.number) (status : string)
    (a : WithStatuses) : bool :=
  Mongo.elemMatch
    (fun s => Mongo.in_values ids (Status.committee s)
              && String.eqb (StatusTypes_value (Status.value s)) status)
    (Application.statuses a).

(** Lines 224-233. *)
Definition filterStatus (status : string) (a : WithStatuses) : bool :=
  Mongo.elemMatch
    (fun s => String.eqb (StatusTypes_value (Status.value s)) status)
    (Application.statuses a).

(** Lines 236-243. *)
Definition filterCommittee (ids : list JS.number) (a : WithStatuses) : bool :=
  Mongo.in_ (Application.committees a) ids.

(** Lines 207-244: the one filter stage pushed, if any. *)
Definition statusCommitteeStage (q : Query.t) (docs : list WithStatuses)
  : list WithStatuses :=
  let status := Query.status q in
  let committee := Query.committee q in
  let ids := committeeIds committee in
  if JS.truthy_string status && truthy_committee committee
  then filter (statusForCommittee ids (JS.text status)) docs
  else if JS.truthy_string status
  then filter (filterStatus (JS.text status)) docs
  else if truthy_committee committee
  then filter (filterCommittee ids) docs
  else docs.

(** Lines 247-255. *)
Definition populateCommittees (db : Store) (docs : list WithStatuses)
  : list Joined :=
  map (fun a =>
         Application.with_arrays a
           (Mongo.lookup Z.eqb Committee._id (Committees db)
              (Application.committees a))
           (Application.statuses a)) docs.

(** Lines 258-261. *)
Definition sort (sortparam : option SortTypes) (docs : list Joined)
  : list Joined :=
  match sortparam with
  | Some s => sortStage s docs
  | None => docs
  end.

(** Lines 264-280: the pagination facet. *)
Definition LIMIT : Z := 4.

Definition startIndex (page : option string) : Completion JS.number :=
  if JS.truthy_string page
  then number <- JS.Number (JS.text page) ;;
       Normal (JS.mul (JS.sub number (JS.Int 1)) (JS.Int LIMIT))
  else Normal (JS.Int 0).

Definition currentPageOf (page : option string) : Completion JS.number :=
  if JS.truthy_string page then JS.Number (JS.text page) else Normal (JS.Int 0).

Definition paginationStage (page : option string) (docs : list Joined)
  : Completion Facet :=
  start <- startIndex page ;;
  current <- currentPageOf page ;;
  skipped <- Mongo.skip start docs ;;
  Normal
    (mkFacet
       (Mongo.limit LIMIT skipped)
       (map (fun total =>
               Pagination.mkCounted total current
                 (Mongo.ceil_divide total LIMIT))
            (Mongo.count docs))).

(** Lines 283-310. *)
Definition projectApplication (a : Joined) : Projected :=
  Application.with_arrays a
    (map Committee.populate (Application.committees a))
    (map (fun s => Status.mkProjected (Status.committee s))
         (Application.statuses a)).

Definition projection (facet : Facet) : IApplicationResponse :=
  mkResponse
    (map projectApplication (f_applications facet))
    (Pagination.mk
       (Mongo.arrayElemAt0 (map Pagination.c_currentPage (f_pagination facet)))
       (Mongo.arrayElemAt0 (map Pagination.c_numberOfPages (f_pagination facet)))).

(** The input of the pagination facet: every stage before it, in the
    order it is pushed. *)
Definition matchedApplications (db : Store) (userCommitteeIds : list Z)
    (q : Query.t) : Completion (list Joined) :=
  named <- queryName (Query.name q)
             (userAuthorizedCommittees userCommitteeIds (Applications db)) ;;
  Normal
    (sort (Query.sort q)
       (populateCommittees db
          (statusCommitteeStage q (populateStatusStage db named)))).

(** [ApplicationModel.aggregate(aggregationPipeline).exec()]: the single
    document the facet produces, projected. *)
Definition paginate (page : option string) (docs : list Joined)
  : Completion IApplicationResponse :=
  facet <- paginationStage page docs ;;
  Normal (projection facet).

Definition aggregate (db : Store) (userCommitteeIds : list Z) (q : Query.t)
  : Completion IApplicationResponse :=
  matched <- matchedApplications db userCommitteeIds q ;;
  paginate (Query.page q) matched.

(** Lines 322-326: the handler of the resolved aggregation. *)
Definition emptyResponse : IApplicationResponse :=
  mkResponse [] (Pagination.mk (Some (JS.Int 1)) (Some 0)).

Definition orEmptyResponse (appRes0 : IApplicationResponse)
  : IApplicationResponse :=
  if negb (JS.length (applications appRes0) =? 0) then appRes0
  else emptyResponse.

(** Lines 331-343: Main Board entries are filtered out of each array on
    its own key. *)
Definition hideMainBoard (a : Projected) : Projected :=
  Application.with_arrays a
    (filter (fun com => negb (Committee.p_id com =? MAIN_BOARD_ID))
            (Application.committees a))
    (filter (fun stat => negb (Status.pr_committee stat =? MAIN_BOARD_ID))
            (Application.statuses a)).

Definition redactResponse (userCommitteeIds : list Z)
    (applicationRes : IApplicationResponse) : IApplicationResponse :=
  if JS.truthy_array (applications applicationRes)
     && negb (JS.includes userCommitteeIds ELECTION_COMMITTEE_ID)
  then mkResponse (map hideMainBoard (applications applicationRes))
                  (pagination applicationRes)
  else applicationRes.

Definition getApplications (db : Store) (req : ListRequest)
  : Completion (Z * ListBody) :=
  match ntnuiNo req with
  | Some userId =>
      if negb (JS.truthy_number (ntnuiNo req)) then Throw UnauthorizedUserError
      else
        let userCommitteeIds := getUserCommitteeIdsByUserId db userId in
        if negb (JS.truthy_array userCommitteeIds) then
          Normal (403, ListMessage "The user is not member of any committee")
        else
          match validationErrors req with
          | _ :: _ => Normal (400, ListMessages (validationErrors req))
          | [] =>
              applicationRes <-
                catch
                  (appRes0 <- aggregate db userCommitteeIds (query req) ;;
                   Normal (orEmptyResponse appRes0))
                  (CustomError "Something went wrong retrieving applications" 500) ;;
              Normal (200, Listing (redactResponse userCommitteeIds applicationRes))
          end
  | None => Throw UnauthorizedUserError
  end.

(** *** postApplication (lines 351-400) *)

(** [utils/isAdmissionPeriodActive] is not among the sources: whether the
    stored periods cover the present moment is a parameter. *)
Variable isAdmissionPeriodActive : list AdmissionPeriod.t -> bool.

(** Lines 361-364: [CommitteeModel.findOne]. *)
Definition closedCommittees (db : Store) (committees : list Z)
  : option Committee.t :=
  find (fun c => Mongo.in_values (map JS.Int committees) (Committee._id c)
                 && Bool.eqb (Committee.accepts_admissions c) false)
       (Committees db).

(** Lines 371-374, as the documents the Status model builds from them: one
    per addressed committee, with the identifier the driver assigns and the
    value [Pending]. *)
Definition newStatuses (driver : Driver) (committees : list Z)
  : list Status.t :=
  map (fun ic => Status.mk (statusId driver (fst ic)) (snd ic) PENDING)
      (combine (seq 0 (List.length committees)) committees).

Definition setStatuses (db : Store) (l : list Status.t) : Store :=
  mkStore (Applications db) l (Users db) (AdmissionPeriods db) (Committees db).

Definition setApplications (db : Store) (l : list IApplication) : Store :=
  mkStore l (Statuses db) (Users db) (AdmissionPeriods db) (Committees db).

(** Lines 376-382: [StatusModel.insertMany(statuses, { ordered: true })]. *)
Definition insertMany (driver : Driver) (db : Store) (docs : list Status.t)
  : Completion (list Status.t) * Store :=
  match insertManyRejectsAfter driver with
  | Some written =>
      (Throw (CustomError "Something went wrong creating statuses" 500),
       setStatuses db (Statuses db ++ firstn written docs))
  | None => (Normal docs, setStatuses db (Statuses db ++ docs))
  end.

Definition postApplication (driver : Driver) (db : Store) (body : Submission.t)
  : Completion (Z * Body IApplication) * Store :=
  if negb (isAdmissionPeriodActive (AdmissionPeriods db)) then
    (Throw (CustomError "Admission period is not active" 403), db)
  else
    match closedCommittees db (Submission.committees body) with
    | Some _ =>
        (Normal (400, Message "A committee the application was sent to is closed"),
         db)
    | None =>
        let statuses := newStatuses driver (Submission.committees body) in
        match insertMany driver db statuses with
        | (Normal insertedStatuses, db1) =>
            let statusIds := map Status._id insertedStatuses in
            let application : IApplication :=
              Application.mk (applicationId driver) (Submission.name body)
                (now driver) (Submission.committees body) statusIds in
            match saveOutcome driver with
            | Saved =>
                (Normal (200, Payload application),
                 setApplications db1 (Applications db1 ++ [application]))
            | ValidationError message => (Normal (400, Message message), db1)
            | SaveFailure =>
                (Normal (500, Message "Unable to save application"), db1)
            end
        | (Throw e, db1) => (Throw e, db1)
        | (OutOfFuel, db1) => (OutOfFuel, db1)
        | (Unmodelled, db1) => (Unmodelled, db1)
        end
    end.

(** *** wipeAdmissionData (lines 402-424) *)

Definition closeCommittee (c : Committee.t) : Committee.t :=
  Committee.mk (Committee._id c) (Committee.name c) (Committee.slug c) false.

Definition wipeAdmissionData (db : Store) (ntnuiNo : option Z)
  : Completion (Z * Body unit) * Store :=
  match ntnuiNo with
  | Some userId =>
      if negb (JS.truthy_number ntnuiNo) then (Throw UnauthorizedUserError, db)
      else
        let committeeIds := getUserCommitteeIdsByUserId db userId in
        if negb (JS.includes committeeIds MAIN_BOARD_ID) then
          (Throw (CustomError "You do not have access to this resource" 403), db)
        else
          (Normal (200, Message "Admission data successfully wiped"),
           mkStore
             (Mongo.deleteMany (fun _ => true) (Applications db))
             (Mongo.deleteMany (fun _ => true) (Statuses db))
             (Mongo.deleteMany (fun u => negb (User._id u =? userId)) (Users db))
             (Mongo.deleteMany (fun _ => true) (AdmissionPeriods db))
             (Mongo.updateMany closeCommittee (Committees db)))
  | None => (Throw UnauthorizedUserError, db)
  end.

(** *** Reference descriptions used in the statements *)

Definition isMainBoard (c : Committee.populated) : bool :=
  Committee.p_id c =? MAIN_BOARD_ID.

(** The list without the first element satisfying [p]. *)
Fixpoint removeFirst {A : Type} (p : A -> bool) (l : list A) : list A :=
  match l with
  | [] => []
  | x :: l' => if p x then l' else x :: removeFirst p l'
  end.

(** Redaction described on (committee, status) pairs: a Main Board member
    loses the first Main Board pair, any other caller every one. *)
Definition redactPairs {S : Type} (userCommitteeIds : list Z)
    (pairs : list (Committee.populated * S)) : list (Committee.populated * S) :=
  if JS.includes userCommitteeIds MAIN_BOARD_ID
  then removeFirst (fun p => isMainBoard (fst p)) pairs
  else filter (fun p => negb (isMainBoard (fst p))) pairs.

Definition intersects (U A : list Z) : Prop := exists x, In x U /\ In x A.

(** The visibility rule in the words of the specification. *)
Definition seesAsStated (U A : list Z) : Prop :=
  In ELECTION_COMMITTEE_ID U
  \/ (In MAIN_BOARD_ID U /\ A <> [MAIN_BOARD_ID])
  \/ intersects U A.

(** Whether an ordinary caller's loop keeps a committee entry. *)
Definition keeps (userCommitteeIds : list Z) (c : Committee.populated) : bool :=
  JS.includes userCommitteeIds (Committee.p_id c) || negb (isMainBoard c).

Definition memberOf (userCommitteeIds : list Z) (c : Committee.populated) : bool :=
  JS.includes userCommitteeIds (Committee.p_id c).

(** The ids of the committees a populated application is addressed to. *)
Definition addressed {S : Type} (application : Application.t Committee.populated S)
  : list Z :=
  map Committee.p_id (Application.committees application).

(** In a listed application, the status at each index belongs to the
    committee at that index. *)
Definition aligned (a : Projected) : Prop :=
  map Status.pr_committee (Application.statuses a)
  = map Committee.p_id (Application.committees a).

(** A stored application as the two joins of the list endpoint present
    it. *)
Definition joinApplication (db : Store) (a : IApplication) : Joined :=
  Application.with_arrays a
    (Mongo.lookup Z.eqb Committee._id (Committees db) (Application.committees a))
    (Mongo.lookup String.eqb Status._id (Statuses db) (Application.statuses a)).

(** The applications of page [n] of the matches [docs], the page being
    asked for by the decimal spelling of its number; none when the request
    does not complete. *)
Definition pageNumbered (n : Z) (docs : list Joined) : list Projected :=
  match JS.toString n with
  | Normal page =>
      match paginate (Some page) docs with
      | Normal r => applications r
      | _ => []
      end
  | _ => []
  end.

(** *** JavaScript arrays *)

Lemma includes_In (l : list Z) (x : Z) : JS.includes l x = true <-> In x l.
Proof.
  unfold JS.includes. rewrite existsb_exists. split.
  - intros [y [Hy Heq]]. apply Z.eqb_eq in Heq. now subst.
  - intros H. exists x. split; [exact H | apply Z.eqb_refl].
Qed.

Lemma includes_false (l : list Z) (x : Z) :
  JS.includes l x = false <-> ~ In x l.
Proof.
  rewrite <- includes_In. destruct (JS.includes l x); split; congruence.
Qed.

Lemma get_middle {A : Type} (pre post : list A) (x : A) :
  JS.get (pre ++ x :: post) (Z.of_nat (List.length pre)) = Some x.
Proof.
  unfold JS.get.
  destruct (Z.ltb_spec (Z.of_nat (List.length pre)) 0) as [H | _]; [lia |].
  rewrite Nat2Z.id, nth_error_app2 by lia.
  now rewrite Nat.sub_diag.
Qed.

Lemma splice_middle {A : Type} (pre post : list A) (x : A) :
  JS.splice (Z.of_nat (List.length pre)) 1 (pre ++ x :: post) = pre ++ post.
Proof.
  unfold JS.splice, JS.length. rewrite length_app. cbn [List.length].
  destruct (Z.ltb_spec (Z.of_nat (List.length pre)) 0) as [H | _]; [lia |].
  rewrite Z.min_l by lia.
  replace (Z.min (Z.max 1 0) _) with 1 by lia.
  rewrite Nat2Z.id.
  replace (Z.to_nat (Z.of_nat (List.length pre) + 1))
    with (Datatypes.S (List.length pre)) by lia.
  rewrite firstn_app, Nat.sub_diag, firstn_all. cbn [firstn].
  rewrite app_nil_r. f_equal.
  change (pre ++ x :: post) with (pre ++ [x] ++ post).
  rewrite app_assoc.
  rewrite skipn_app.
  rewrite skipn_all2 by (rewrite length_app; cbn; lia).
  rewrite length_app. cbn [List.length].
  replace (Datatypes.S (List.length pre) - (List.length pre + 1))%nat
    with 0%nat by lia.
  reflexivity.
Qed.

Lemma splice_short {A : Type} (i : nat) (l : list A) :
  (List.length l <= i)%nat -> JS.splice (Z.of_nat i) 1 l = l.
Proof.
  intros H. unfold JS.splice, JS.length.
  destruct (Z.ltb_spec (Z.of_nat i) 0) as [H0 | _]; [lia |].
  rewrite Z.min_r by lia.
  replace (Z.min (Z.max 1 0) _) with 0 by lia.
  rewrite Z.add_0_r, Nat2Z.id, firstn_all, skipn_all.
  apply app_nil_r.
Qed.

Lemma in_middle_lt {A : Type} (pre post : list A) (x : A) :
  (Z.of_nat (List.length pre) <? JS.length (pre ++ x :: post)) = true.
Proof.
  unfold JS.length. rewrite length_app. cbn [List.length].
  apply Z.ltb_lt. lia.
Qed.

Lemma at_end_lt {A : Type} (pre : list A) :
  (Z.of_nat (List.length pre) <? JS.length (pre ++ [])) = false.
Proof.
  unfold JS.length. rewrite app_nil_r. apply Z.ltb_ge. lia.
Qed.

Lemma map_fst_combine {A B : Type} (l : list A) :
  forall l' : list B,
    List.length l = List.length l' -> map fst (combine l l') = l.
Proof.
  induction l as [| x l IH]; intros [| y l'] H; try discriminate; cbn.
  - reflexivity.
  - f_equal. apply IH. now injection H.
Qed.

Lemma map_snd_combine {A B : Type} (l : list A) :
  forall l' : list B,
    List.length l = List.length l' -> map snd (combine l l') = l'.
Proof.
  induction l as [| x l IH]; intros [| y l'] H; try discriminate; cbn.
  - reflexivity.
  - f_equal. apply IH. now injection H.
Qed.

(** *** The two loops of getApplicationById *)

(** The Main Board loop started at index [length pre], with no Main Board
    entry before that index, removes the first Main Board entry of the rest
    and the status at the same index. *)
Lemma mainBoardLoop_spec {S : Type} (rest pre : list Committee.populated) :
  forall (ss : list S) (fuel : nat),
    (List.length rest < fuel)%nat ->
    exists ss',
      mainBoardLoop fuel (Z.of_nat (List.length pre)) (pre ++ rest) ss
      = Normal (pre ++ removeFirst isMainBoard rest, ss')
      /\ forall spre srest,
          ss = spre ++ srest ->
          List.length spre = List.length pre ->
          List.length srest = List.length rest ->
          ss' = spre ++ map snd (removeFirst (fun p => isMainBoard (fst p))
                                   (combine rest srest)).
Proof.
  revert pre. induction rest as [| c rest IH]; intros pre ss fuel Hfuel.
  - destruct fuel as [| fuel]; [cbn in Hfuel; lia |].
    exists ss. cbn [mainBoardLoop]. rewrite at_end_lt. split; [reflexivity |].
    intros spre srest -> _ Hlen. destruct srest; [| discriminate].
    reflexivity.
  - destruct fuel as [| fuel]; [cbn in Hfuel; lia |].
    cbn [mainBoardLoop]. rewrite in_middle_lt, get_middle.
    cbn [removeFirst]. unfold isMainBoard at 1.
    destruct (Committee.p_id c =? MAIN_BOARD_ID) eqn:Hc.
    + exists (JS.splice (Z.of_nat (List.length pre)) 1 ss).
      rewrite splice_middle. split; [reflexivity |].
      intros spre srest -> Hpre Hlen.
      destruct srest as [| s srest]; [discriminate |].
      rewrite <- Hpre, splice_middle. cbn [combine removeFirst fst].
      unfold isMainBoard. rewrite Hc.
      rewrite map_snd_combine; [reflexivity |].
      cbn in Hlen. lia.
    + specialize (IH (pre ++ [c]) ss fuel).
      rewrite length_app in IH. cbn [List.length] in IH.
      rewrite <- !app_assoc in IH. cbn [app] in IH.
      replace (Z.of_nat (List.length pre) + 1)
        with (Z.of_nat (List.length pre + 1)) by lia.
      destruct IH as [ss' [Hrun Hss]]; [cbn in Hfuel; lia |].
      exists ss'. split; [exact Hrun |].
      intros spre srest -> Hpre Hlen.
      destruct srest as [| s srest]; [discriminate |].
      cbn [combine removeFirst fst]. unfold isMainBoard at 1. rewrite Hc.
      cbn [map snd].
      rewrite (Hss (spre ++ [s]) srest).
      * now rewrite <- app_assoc.
      * now rewrite <- app_assoc.
      * rewrite length_app. cbn. lia.
      * cbn in Hlen. lia.
Qed.

Lemma ordinaryLoop_spec {S : Type} (U : list Z)
    (rest pre : list Committee.populated) :
  forall (ss : list S) (fuel : nat) (authorized : bool),
    (List.length rest < fuel)%nat ->
    exists ss',
      ordinaryLoop U fuel (Z.of_nat (List.length pre)) (pre ++ rest) ss authorized
      = Normal (pre ++ filter (keeps U) rest, ss',
                authorized || existsb (memberOf U) rest)
      /\ forall spre srest,
          ss = spre ++ srest ->
          List.length spre = List.length pre ->
          List.length srest = List.length rest ->
          ss' = spre ++ map snd (filter (fun p => keeps U (fst p))
                                   (combine rest srest)).
Proof.
  revert pre. induction rest as [| c rest IH]; intros pre ss fuel authorized Hfuel.
  - destruct fuel as [| fuel]; [cbn in Hfuel; lia |].
    exists ss. cbn [ordinaryLoop]. rewrite at_end_lt. cbn [filter existsb].
    rewrite orb_false_r. split; [reflexivity |].
    intros spre srest -> _ Hlen. destruct srest; [| discriminate].
    reflexivity.
  - destruct fuel as [| fuel]; [cbn in Hfuel; lia |].
    cbn [ordinaryLoop]. rewrite in_middle_lt, get_middle.
    cbn [filter existsb]. unfold keeps at 1, memberOf at 1, isMainBoard at 1.
    cbv zeta.
    assert (Hnext : forall auth,
      exists ss',
        ordinaryLoop U fuel (Z.of_nat (List.length pre) + 1)
          (pre ++ c :: rest) ss auth
        = Normal (pre ++ c :: filter (keeps U) rest, ss',
                  auth || existsb (memberOf U) rest)
        /\ forall spre srest,
            ss = spre ++ srest ->
            List.length spre = List.length pre ->
            List.length srest = List.length (c :: rest) ->
            ss' = spre ++ map snd
                    (match srest with
                     | [] => []
                     | s :: srest' =>
                         (c, s) :: filter (fun p => keeps U (fst p))
                                     (combine rest srest')
                     end)).
    { intros auth.
      specialize (IH (pre ++ [c]) ss fuel auth).
      rewrite length_app in IH. cbn [List.length] in IH.
      rewrite <- !app_assoc in IH. cbn [app] in IH.
      replace (Z.of_nat (List.length pre) + 1)
        with (Z.of_nat (List.length pre + 1)) by lia.
      destruct IH as [ss' [Hrun Hss]]; [cbn in Hfuel; lia |].
      exists ss'. split; [exact Hrun |].
      intros spre srest -> Hpre Hlen.
      destruct srest as [| s srest]; [discriminate |].
      cbn [map snd].
      rewrite (Hss (spre ++ [s]) srest).
      - now rewrite <- app_assoc.
      - now rewrite <- app_assoc.
      - rewrite length_app. cbn. lia.
      - cbn in Hlen. lia. }
    destruct (JS.includes U (Committee.p_id c)) eqn:Hin.
    + cbn [orb]. destruct (Hnext true) as [ss' [Hrun Hss]].
      exists ss'. rewrite Hrun, orb_true_r. split; [reflexivity |].
      intros spre srest Hs Hpre Hlen. rewrite (Hss spre srest Hs Hpre Hlen).
      destruct srest as [| s srest]; [discriminate |].
      cbn [combine filter fst]. unfold keeps at 2. now rewrite Hin.
    + cbn [orb]. destruct (Committee.p_id c =? MAIN_BOARD_ID) eqn:Hc.
      * cbn [negb].
        replace (Z.of_nat (List.length pre) - 1 + 1)
          with (Z.of_nat (List.length pre)) by lia.
        rewrite splice_middle.
        destruct (IH pre (JS.splice (Z.of_nat (List.length pre)) 1 ss)
                    fuel authorized) as [ss' [Hrun Hss]]; [cbn in Hfuel; lia |].
        exists ss'. split; [exact Hrun |].
        intros spre srest -> Hpre Hlen.
        destruct srest as [| s srest]; [discriminate |].
        cbn [combine filter fst]. unfold keeps at 1, isMainBoard.
        rewrite Hin, Hc. cbn [orb negb].
        apply Hss; [| exact Hpre | cbn in Hlen; lia].
        now rewrite <- Hpre, splice_middle.
      * cbn [negb]. destruct (Hnext authorized) as [ss' [Hrun Hss]].
        exists ss'. rewrite Hrun. split; [reflexivity |].
        intros spre srest Hs Hpre Hlen. rewrite (Hss spre srest Hs Hpre Hlen).
        destruct srest as [| s srest]; [discriminate |].
        cbn [combine filter fst]. unfold keeps at 2, isMainBoard.
        now rewrite Hin, Hc.
Qed.

(** *** Visibility *)

Lemma length_gt0 {A : Type} (l : list A) :
  (JS.length l >? 0) = true <-> l <> [].
Proof.
  unfold JS.length. rewrite Z.gtb_lt. destruct l; cbn [List.length].
  - split; [lia | intros H; now elim H].
  - split; [discriminate | lia].
Qed.

Lemma removeFirst_nonempty (cs : list Committee.populated) :
  (JS.length (removeFirst isMainBoard cs) >? 0) = true
  <-> map Committee.p_id cs <> [] /\ map Committee.p_id cs <> [MAIN_BOARD_ID].
Proof.
  rewrite length_gt0.
  destruct cs as [| c cs]; cbn [removeFirst map].
  - split; [intros H; now elim H | intros [H _]; now elim H].
  - unfold isMainBoard.
    destruct (Z.eqb_spec (Committee.p_id c) MAIN_BOARD_ID) as [E | E].
    + rewrite E. destruct cs as [| c' cs]; cbn [map].
      * split; [intros H; now elim H | intros [_ H]; now elim H].
      * split; [intros _; split; discriminate | intros _; discriminate].
    + split; [| intros _; discriminate].
      intros _. split; [discriminate |].
      intros H. injection H as H _. contradiction.
Qed.

Lemma existsb_memberOf (U : list Z) (cs : list Committee.populated) :
  existsb (memberOf U) cs = true <-> intersects U (map Committee.p_id cs).
Proof.
  rewrite existsb_exists. unfold memberOf, intersects. split.
  - intros [c [Hc Hin]]. apply includes_In in Hin.
    exists (Committee.p_id c). split; [exact Hin | now apply in_map].
  - intros [x [HU HA]]. apply in_map_iff in HA. destruct HA as [c [<- Hc]].
    exists c. split; [exact Hc | now apply includes_In].
Qed.

Lemma ne_spec (field value : list Z) :
  Mongo.ne field value = true <-> field <> value.
Proof.
  unfold Mongo.ne. destruct (list_eq_dec Z.eq_dec field value) as [E | E].
  - split; [discriminate | intros H; now elim H].
  - split; [intros _; exact E | reflexivity].
Qed.

Lemma in_values_Int (U : list Z) (x : Z) :
  Mongo.in_values (map JS.Int U) x = true <-> In x U.
Proof.
  unfold Mongo.in_values. rewrite existsb_exists. split.
  - intros [v [Hv Heq]]. apply in_map_iff in Hv. destruct Hv as [z [<- Hz]].
    cbn in Heq. apply Z.eqb_eq in Heq. now subst.
  - intros H. exists (JS.Int x). split; [now apply in_map | apply Z.eqb_refl].
Qed.

Lemma in_intersects (A U : list Z) :
  Mongo.in_ A (map JS.Int U) = true <-> intersects U A.
Proof.
  unfold Mongo.in_, intersects. rewrite existsb_exists. split.
  - intros [x [HA HU]]. apply in_values_Int in HU. now exists x.
  - intros [x [HU HA]]. exists x. split; [exact HA | now apply in_values_Int].
Qed.

(** What getApplicationById answers to a caller who is not in the Election
    Committee, in terms of the two loops' results. *)
Lemma respondWithApplication_mainBoard {S : Type} (U : list Z)
    (application : Application.t Committee.populated S) :
  JS.includes U ELECTION_COMMITTEE_ID = false ->
  JS.includes U MAIN_BOARD_ID = true ->
  exists ss',
    respondWithApplication U application
    = (let cs := removeFirst isMainBoard (Application.committees application) in
       if JS.length cs >? 0
       then Normal (200, Payload (Application.with_arrays application cs ss'))
       else Normal (403, Message "You do not have access to this application"))
    /\ (List.length (Application.statuses application)
        = List.length (Application.committees application) ->
        ss' = map snd (removeFirst (fun p => isMainBoard (fst p))
                         (combine (Application.committees application)
                                  (Application.statuses application)))).
Proof.
  intros HE HM. unfold respondWithApplication. rewrite HE, HM.
  destruct (mainBoardLoop_spec (Application.committees application) []
              (Application.statuses application)
              (Datatypes.S (List.length (Application.committees application))))
    as [ss' [Hrun Hss]]; [lia |].
  cbn [List.length app Z.of_nat] in Hrun. rewrite Hrun. cbn [bind].
  exists ss'. split; [reflexivity |].
  intros Hlen. apply (Hss [] (Application.statuses application)); auto.
Qed.

Lemma respondWithApplication_ordinary {S : Type} (U : list Z)
    (application : Application.t Committee.populated S) :
  JS.includes U ELECTION_COMMITTEE_ID = false ->
  JS.includes U MAIN_BOARD_ID = false ->
  exists ss',
    respondWithApplication U application
    = (if existsb (memberOf U) (Application.committees application)
       then Normal (200, Payload
                      (Application.with_arrays application
                         (filter (keeps U) (Application.committees application))
                         ss'))
       else Throw (CustomError "You do not have access to this application" 403))
    /\ (List.length (Application.statuses application)
        = List.length (Application.committees application) ->
        ss' = map snd (filter (fun p => keeps U (fst p))
                         (combine (Application.committees application)
                                  (Application.statuses application)))).
Proof.
  intros HE HM. unfold respondWithApplication. rewrite HE, HM.
  destruct (ordinaryLoop_spec U (Application.committees application) []
              (Application.statuses application)
              (Datatypes.S (List.length (Application.committees application)))
              false)
    as [ss' [Hrun Hss]]; [lia |].
  cbn [List.length app Z.of_nat orb] in Hrun. rewrite Hrun. cbn [bind].
  exists ss'. split; [reflexivity |].
  intros Hlen. apply (Hss [] (Application.statuses application)); auto.
Qed.

(** For an identified caller and an application that exists, the endpoint
    is [respondWithApplication] on the caller's committee ids. *)
Lemma getApplicationById_found (db : Store) (userId : Z)
    (application_id : ObjectId) (application : IPopulatedApplication) :
  userId <> 0 ->
  findApplicationById db application_id = Some application ->
  getApplicationById db (Some userId) application_id
  = respondWithApplication (getUserCommitteeIdsByUserId db userId) application.
Proof.
  intros H0 Hfound. apply Z.eqb_neq in H0.
  unfold getApplicationById. cbn [JS.truthy_number JS.truthy_array].
  now rewrite H0, Hfound.
Qed.

(** C1 (amended). The caller sees an application exactly when the caller is
    in the Election Committee, or is in the Main Board and the application is
    not addressed to the Main Board alone, or is not in the Main Board and
    belongs to an addressed committee. The get-by-id endpoint answers 200 in
    these cases and 403 otherwise, and moreover refuses a Main Board member
    an application addressed to no committee; the scope stage of the list
    endpoint admits the applications of these cases. *)
Theorem visibility_policy (U : list Z) :
  (forall (S : Type) (application : Application.t Committee.populated S),
      (httpStatus (respondWithApplication U application) = Some 200
       \/ httpStatus (respondWithApplication U application) = Some 403)
      /\ (httpStatus (respondWithApplication U application) = Some 200
          <-> In ELECTION_COMMITTEE_ID U
              \/ (In MAIN_BOARD_ID U
                  /\ addressed application <> []
                  /\ addressed application <> [MAIN_BOARD_ID])
              \/ (~ In MAIN_BOARD_ID U
                  /\ intersects U (addressed application))))
  /\ (forall (docs : list IApplication) (a : IApplication),
         In a (userAuthorizedCommittees U docs)
         <-> In a docs
             /\ (In ELECTION_COMMITTEE_ID U
                 \/ (In MAIN_BOARD_ID U
                     /\ Application.committees a <> [MAIN_BOARD_ID])
                 \/ (~ In MAIN_BOARD_ID U
                     /\ intersects U (Application.committees a)))).
Proof.
  split.
  - intros S application.
    destruct (JS.includes U ELECTION_COMMITTEE_ID) eqn:HE.
    + unfold respondWithApplication. rewrite HE. cbn.
      apply includes_In in HE. split; [now left |]. split; auto.
    + assert (HE' := proj1 (includes_false _ _) HE).
      destruct (JS.includes U MAIN_BOARD_ID) eqn:HM.
      * destruct (respondWithApplication_mainBoard U application HE HM)
          as [ss' [-> _]].
        cbv zeta. assert (Hne := removeFirst_nonempty (Application.committees application)).
        fold (addressed application) in Hne.
        apply includes_In in HM.
        destruct (JS.length (removeFirst isMainBoard
                               (Application.committees application)) >? 0); cbn.
        -- split; [now left |]. split; [| reflexivity].
           intros _. right. left. split; [exact HM | now apply Hne].
        -- split; [now right |]. split; [discriminate |].
           intros [H | [[_ H] | [H _]]]; [contradiction | | contradiction].
           apply Hne in H. discriminate.
      * destruct (respondWithApplication_ordinary U application HE HM)
          as [ss' [-> _]].
        assert (Hex := existsb_memberOf U (Application.committees application)).
        fold (addressed application) in Hex.
        assert (HM' := proj1 (includes_false _ _) HM).
        destruct (existsb (memberOf U) (Application.committees application)); cbn.
        -- split; [now left |]. split; [| reflexivity].
           intros _. right. right. split; [exact HM' | now apply Hex].
        -- split; [now right |]. split; [discriminate |].
           intros [H | [[H _] | [_ H]]]; [contradiction | contradiction |].
           apply Hex in H. discriminate.
  - intros docs a. unfold userAuthorizedCommittees.
    destruct (JS.includes U ELECTION_COMMITTEE_ID) eqn:HE.
    + apply includes_In in HE. split; [intros H; split; auto | now intros [H _]].
    + assert (HE' := proj1 (includes_false _ _) HE).
      destruct (JS.includes U MAIN_BOARD_ID) eqn:HM.
      * apply includes_In in HM. rewrite filter_In, ne_spec. split.
        -- intros [Hin Hne]. split; [exact Hin |]. right. left. now split.
        -- intros [Hin [H | [[_ H] | [H _]]]];
             [contradiction | now split | contradiction].
      * assert (HM' := proj1 (includes_false _ _) HM).
        rewrite filter_In, in_intersects. split.
        -- intros [Hin Hx]. split; [exact Hin |]. right. right. now split.
        -- intros [Hin [H | [[H _] | [_ H]]]];
             [contradiction | contradiction | now split].
Qed.

(** *** Redaction *)

Lemma fst_filter_combine {A B : Type} (p : A -> bool) (l : list A) :
  forall l' : list B,
    List.length l' = List.length l ->
    map fst (filter (fun x => p (fst x)) (combine l l')) = filter p l.
Proof.
  induction l as [| x l IH]; intros [| y l'] H; try discriminate; cbn.
  - reflexivity.
  - injection H as H. destruct (p x); cbn; now rewrite IH.
Qed.

Lemma fst_removeFirst_combine {A B : Type} (p : A -> bool) (l : list A) :
  forall l' : list B,
    List.length l' = List.length l ->
    map fst (removeFirst (fun x => p (fst x)) (combine l l')) = removeFirst p l.
Proof.
  induction l as [| x l IH]; intros [| y l'] H; try discriminate; cbn.
  - reflexivity.
  - injection H as H. destruct (p x); cbn.
    + now apply map_fst_combine.
    + now rewrite IH.
Qed.

Lemma keeps_ordinary (U : list Z) (c : Committee.populated) :
  JS.includes U MAIN_BOARD_ID = false -> keeps U c = negb (isMainBoard c).
Proof.
  intros HM. unfold keeps, isMainBoard.
  destruct (Z.eqb_spec (Committee.p_id c) MAIN_BOARD_ID) as [-> | _].
  - now rewrite HM.
  - apply orb_true_r.
Qed.

Lemma snd_filter_aligned (cs : list Committee.populated) :
  forall ss : list Status.projected,
    map Status.pr_committee ss = map Committee.p_id cs ->
    map snd (filter (fun p => negb (isMainBoard (fst p))) (combine cs ss))
    = filter (fun stat => negb (Status.pr_committee stat =? MAIN_BOARD_ID)) ss.
Proof.
  induction cs as [| c cs IH]; intros [| s ss] H; try discriminate; cbn.
  - reflexivity.
  - injection H as Hhd Htl. unfold isMainBoard at 1. rewrite Hhd.
    destruct (Committee.p_id c =? MAIN_BOARD_ID); cbn; now rewrite IH.
Qed.

Lemma getById_redaction (U : list Z) (S : Type)
    (application : Application.t Committee.populated S) :
  JS.includes U ELECTION_COMMITTEE_ID = false ->
  List.length (Application.statuses application)
  = List.length (Application.committees application) ->
  let pairs :=
    redactPairs U (combine (Application.committees application)
                           (Application.statuses application)) in
  respondWithApplication U application
  = Normal (200, Payload (Application.with_arrays application
                            (map fst pairs) (map snd pairs)))
  \/ httpStatus (respondWithApplication U application) = Some 403.
Proof.
  intros HE Hlen. unfold redactPairs.
  destruct (JS.includes U MAIN_BOARD_ID) eqn:HM.
  - destruct (respondWithApplication_mainBoard U application HE HM)
      as [ss' [-> Hss]].
    cbv zeta. rewrite fst_removeFirst_combine by exact Hlen.
    rewrite <- (Hss Hlen).
    destruct (JS.length _ >? 0); [now left | now right].
  - destruct (respondWithApplication_ordinary U application HE HM)
      as [ss' [-> Hss]].
    cbv zeta.
    assert (Hk : forall p : Committee.populated * S,
               keeps U (fst p) = negb (isMainBoard (fst p)))
      by (intros p; now apply keeps_ordinary).
    rewrite <- (filter_ext _ _ Hk).
    rewrite fst_filter_combine by exact Hlen.
    rewrite <- (Hss Hlen).
    destruct (existsb _ _); [now left | now right].
Qed.

Lemma hideMainBoard_pairs (a : Projected) :
  aligned a ->
  let pairs :=
    filter (fun p => negb (isMainBoard (fst p)))
      (combine (Application.committees a) (Application.statuses a)) in
  hideMainBoard a = Application.with_arrays a (map fst pairs) (map snd pairs).
Proof.
  intros Hal. cbv zeta. unfold hideMainBoard.
  assert (Hl : List.length (Application.statuses a)
               = List.length (Application.committees a)).
  { unfold aligned in Hal. apply (f_equal (@List.length Z)) in Hal.
    now rewrite !length_map in Hal. }
  rewrite (fst_filter_combine (fun c => negb (isMainBoard c))) by exact Hl.
  now rewrite snd_filter_aligned.
Qed.

Lemma redactPairs_second {S : Type} (U : list Z)
    (c0 c1 c2 : Committee.populated) (s0 s1 s2 : S) :
  Committee.p_id c1 = MAIN_BOARD_ID ->
  Committee.p_id c0 <> MAIN_BOARD_ID ->
  Committee.p_id c2 <> MAIN_BOARD_ID ->
  redactPairs U [(c0, s0); (c1, s1); (c2, s2)] = [(c0, s0); (c2, s2)].
Proof.
  intros H1 H0 H2. unfold redactPairs.
  apply Z.eqb_eq in H1. apply Z.eqb_neq in H0, H2.
  destruct (JS.includes U MAIN_BOARD_ID); cbn; unfold isMainBoard;
    now rewrite ?H0, ?H1, ?H2.
Qed.

(** C2 (amended). For a caller outside the Election Committee, get-by-id
    removes the same positions from the committees array and from the
    statuses array of an application holding as many statuses as
    committees; the list endpoint removes the committees whose id is the
    Main Board's and the statuses whose committee is the Main Board, which
    are the same positions when the status at each index belongs to the
    committee at that index. In both cases the result is then the two
    columns of the redacted list of (committee, status) pairs: committees
    [c0, c1, c2], [c1] the Main Board, and statuses [s0, s1, s2] yield
    [c0, c2] with [s0, s2]. *)
Theorem redaction_index_synchronized (U : list Z) (S : Type)
    (application : Application.t Committee.populated S) (a : Projected) :
  JS.includes U ELECTION_COMMITTEE_ID = false ->
  List.length (Application.statuses application)
  = List.length (Application.committees application) ->
  aligned a ->
  (let pairs :=
     redactPairs U (combine (Application.committees application)
                            (Application.statuses application)) in
   respondWithApplication U application
   = Normal (200, Payload (Application.with_arrays application
                             (map fst pairs) (map snd pairs)))
   \/ httpStatus (respondWithApplication U application) = Some 403)
  /\ (let pairs :=
        filter (fun p => negb (isMainBoard (fst p)))
          (combine (Application.committees a) (Application.statuses a)) in
      hideMainBoard a = Application.with_arrays a (map fst pairs) (map snd pairs))
  /\ (forall res,
         redactResponse U res
         = mkResponse (map hideMainBoard (applications res)) (pagination res))
  /\ (forall (c0 c1 c2 : Committee.populated),
         Committee.p_id c1 = MAIN_BOARD_ID ->
         Committee.p_id c0 <> MAIN_BOARD_ID ->
         Committee.p_id c2 <> MAIN_BOARD_ID ->
         (forall s0 s1 s2 : S,
             Application.committees application = [c0; c1; c2] ->
             Application.statuses application = [s0; s1; s2] ->
             respondWithApplication U application
             = Normal (200, Payload (Application.with_arrays application
                                       [c0; c2] [s0; s2]))
             \/ httpStatus (respondWithApplication U application) = Some 403)
         /\ (forall s0 s1 s2 : Status.projected,
               Application.committees a = [c0; c1; c2] ->
               Application.statuses a = [s0; s1; s2] ->
               hideMainBoard a = Application.with_arrays a [c0; c2] [s0; s2])).
Proof.
  intros HE Hlen Hal. split; [| split; [| split]].
  - now apply getById_redaction.
  - now apply hideMainBoard_pairs.
  - intros res. unfold redactResponse. now rewrite HE.
  - intros c0 c1 c2 H1 H0 H2. split.
    + intros s0 s1 s2 Hc Hs.
      assert (H := getById_redaction U S application HE Hlen).
      cbv zeta in H. rewrite Hc, Hs in H. cbn [combine] in H.
      rewrite (redactPairs_second U c0 c1 c2 s0 s1 s2 H1 H0 H2) in H.
      exact H.
    + intros s0 s1 s2 Hc Hs.
      assert (H := hideMainBoard_pairs a Hal).
      cbv zeta in H. rewrite Hc, Hs in H. cbn [combine] in H.
      assert (Hp := redactPairs_second [] c0 c1 c2 s0 s1 s2 H1 H0 H2).
      unfold redactPairs in Hp. cbn [JS.includes existsb] in Hp.
      rewrite Hp in H. exact H.
Qed.

(** *** Filters of the list endpoint *)

Lemma in_values_spec (ids : list JS.number) (x : Z) :
  Mongo.in_values ids x = true <-> In (JS.Int x) ids.
Proof.
  unfold Mongo.in_values. rewrite existsb_exists. split.
  - intros [v [Hv Heq]]. destruct v as [| z | negative]; try discriminate.
    cbn in Heq. apply Z.eqb_eq in Heq. now subst.
  - intros H. exists (JS.Int x). split; [exact H | apply Z.eqb_refl].
Qed.

(** C3. When the query carries both a status and a committee, the filter
    stage keeps exactly the applications one of whose status entries has its
    committee among the parsed committee ids and, at the same time, the
    requested value. Statuses [(7, Pending), (9, Accepted)] do not match
    committee 7 with status Accepted, although the status filter alone and
    the committee filter alone each accept the application. *)
Theorem conjunctive_filter (q : Query.t) (docs : list WithStatuses)
    (a : WithStatuses) :
  JS.truthy_string (Query.status q) = true ->
  truthy_committee (Query.committee q) = true ->
  (In a (statusCommitteeStage q docs)
   <-> In a docs
       /\ exists s,
           In s (Application.statuses a)
           /\ In (JS.Int (Status.committee s)) (committeeIds (Query.committee q))
           /\ StatusTypes_value (Status.value s) = JS.text (Query.status q))
  /\ (forall (id : ObjectId) (name : string) (date : Z) (id7 id9 : ObjectId),
         let example :=
           Application.mk id name date [7; 9]
             [Status.mk id7 7 PENDING; Status.mk id9 9 ACCEPTED] in
         let query :=
           Query.mk None None (Some (QString "7")) (Some "Accepted") None in
         statusCommitteeStage query [example] = []
         /\ filterStatus "Accepted" example = true
         /\ filterCommittee (committeeIds (Some (QString "7"))) example = true).
Proof.
  intros Hs Hc. split.
  - unfold statusCommitteeStage. rewrite Hs, Hc. cbn [andb].
    rewrite filter_In. unfold statusForCommittee, Mongo.elemMatch.
    rewrite existsb_exists.
    split; intros [Hin [s [H1 H2]]]; (split; [exact Hin |]); exists s;
      (split; [exact H1 |]).
    + apply andb_true_iff in H2. destruct H2 as [H2 H3].
      split; [now apply in_values_spec | now apply String.eqb_eq].
    + destruct H2 as [H2 H3]. apply andb_true_iff.
      split; [now apply in_values_spec | now apply String.eqb_eq].
  - intros id name date id7 id9. cbv zeta. repeat split; reflexivity.
Qed.

(** *** Doubles *)

Lemma ofInteger_exact (z : Z) :
  Z.abs z <= 2 ^ 53 -> JS.ofInteger z = JS.Int z.
Proof.
  intros H. unfold JS.ofInteger, JS.roundToDouble.
  destruct (Z.leb_spec (Z.abs z) (2 ^ 53)) as [_ | H']; [| lia].
  assert (Hlt : Z.abs z < 2 ^ 1024).
  { apply Z.le_lt_trans with (2 ^ 53); [exact H |].
    apply Z.pow_lt_mono_r; lia. }
  apply Z.ltb_lt in Hlt. now rewrite Hlt.
Qed.

Lemma sgn_abs_times (z v : Z) : v = Z.abs z -> Z.sgn z * v = z.
Proof. intros ->. rewrite Z.mul_comm. apply Z.abs_sgn. Qed.

(** Four times an integer that is a double of at most 53 bits is a double:
    the product is exact. *)
Lemma roundToDouble_times4 (m : Z) :
  Z.abs m <= 2 ^ 53 -> JS.roundToDouble (m * 4) = m * 4.
Proof.
  clear caseFold. intros H. unfold JS.roundToDouble.
  set (v := Z.abs (m * 4)).
  assert (Hv : v = 4 * Z.abs m) by (unfold v; lia).
  assert (E53 : 2 ^ 53 = 9007199254740992) by reflexivity.
  destruct (Z.leb_spec v (2 ^ 53)) as [_ | Hbig]; [reflexivity |].
  rewrite E53 in H, Hbig.
  assert (Hcase : (2 ^ 53 <= v < 2 ^ (53 + 1))
                  \/ (2 ^ 54 <= v < 2 ^ (54 + 1))
                  \/ (2 ^ 55 <= v < 2 ^ (55 + 1))).
  { change (2 ^ 53) with 9007199254740992.
    change (2 ^ (53 + 1)) with 18014398509481984.
    change (2 ^ 54) with 18014398509481984.
    change (2 ^ (54 + 1)) with 36028797018963968.
    change (2 ^ 55) with 36028797018963968.
    change (2 ^ (55 + 1)) with 72057594037927936. lia. }
  destruct Hcase as [Hc | [Hc | Hc]].
  - rewrite (Z.log2_unique v 53) by (lia || exact Hc).
    change (2 ^ (53 - 52)) with 2.
    assert (Hr : v mod 2 = 0) by (rewrite Hv; Z.div_mod_to_equations; lia).
    rewrite Hr. cbn [Z.mul Z.ltb Z.eqb Z.compare orb andb].
    apply sgn_abs_times. fold v. Z.div_mod_to_equations. lia.
  - rewrite (Z.log2_unique v 54) by (lia || exact Hc).
    change (2 ^ (54 - 52)) with 4.
    assert (Hr : v mod 4 = 0) by (rewrite Hv; Z.div_mod_to_equations; lia).
    rewrite Hr. cbn [Z.mul Z.ltb Z.eqb Z.compare orb andb].
    apply sgn_abs_times. fold v. Z.div_mod_to_equations. lia.
  - rewrite (Z.log2_unique v 55) by (lia || exact Hc).
    change (2 ^ (55 - 52)) with 8.
    assert (Hmax : v = 36028797018963968).
    { change (2 ^ 55) with 36028797018963968 in Hc. lia. }
    assert (Hr : v mod 8 = 0) by (rewrite Hmax; reflexivity).
    rewrite Hr. cbn [Z.mul Z.ltb Z.eqb Z.compare orb andb].
    apply sgn_abs_times. fold v. Z.div_mod_to_equations. lia.
Qed.

Lemma ofInteger_times4 (m : Z) :
  Z.abs m <= 2 ^ 53 -> JS.ofInteger (m * 4) = JS.Int (m * 4).
Proof.
  intros H. unfold JS.ofInteger. rewrite (roundToDouble_times4 m H).
  assert (Hlt : Z.abs (m * 4) < 2 ^ 1024).
  { apply Z.le_lt_trans with (2 ^ 55).
    - change (2 ^ 53) with 9007199254740992 in H.
      change (2 ^ 55) with 36028797018963968. lia.
    - apply Z.pow_lt_mono_r; lia. }
  apply Z.ltb_lt in Hlt. now rewrite Hlt.
Qed.

Lemma digit_range (c d : Z) : JS.digit c = Some d -> 0 <= d <= 9.
Proof.
  unfold JS.digit.
  destruct (Z.leb_spec 48 c) as [Hl | Hl];
    destruct (Z.leb_spec c 57) as [Hu | Hu]; cbn [andb];
    intros H; try discriminate.
  injection H as <-. lia.
Qed.

Lemma digits_nonneg (s : list Z) :
  forall (seen : bool) (acc z : Z) (rest : list Z),
    0 <= acc -> JS.digits s seen acc = (Some z, rest) -> 0 <= z.
Proof.
  induction s as [| c s IH]; intros seen acc z rest Hacc; cbn [JS.digits].
  - destruct seen; intros H; [| discriminate]. injection H as <- _. exact Hacc.
  - destruct (JS.digit c) as [d |] eqn:Hd.
    + apply IH. apply digit_range in Hd. lia.
    + destruct seen; intros H; [| discriminate]. injection H as <- _. exact Hacc.
Qed.

Lemma signed_sign (s s1 : list Z) (sign : Z) :
  JS.signed s = (sign, s1) -> sign = 1 \/ sign = -1.
Proof.
  unfold JS.signed. destruct s as [| c s']; [intros H; injection H as <- _; now left |].
  destruct (c =? 45); [intros H; injection H as <- _; now right |].
  destruct (c =? 43); intros H; injection H as <- _; now left.
Qed.

(** Beyond 2^53 the start index is rounded: for the page 2^53 + 2, which is
    a double, it is 2^55, four items short of [(page - 1) * 4]. *)
Lemma startIndex_rounded :
  JS.mul (JS.sub (JS.Int (2 ^ 53 + 2)) (JS.Int 1)) (JS.Int LIMIT)
  = JS.Int (2 ^ 55)
  /\ (2 ^ 53 + 2 - 1) * 4 = 2 ^ 55 + 4.
Proof. split; reflexivity. Qed.

(** [Number] yields integers of at most 2^53 in magnitude only. *)
Lemma Number_safe (s : string) (n : Z) :
  JS.Number s = Normal (JS.Int n) -> Z.abs n <= 2 ^ 53.
Proof.
  unfold JS.Number.
  destruct (JS.skipWhiteSpace (JS.codePoints s)) as [| c t] eqn:Ht.
  - intros H. injection H as <-. cbn. lia.
  - destruct (JS.signed (c :: t)) as [sign s1] eqn:Hs.
    destruct (JS.digits s1 false 0) as [[z |] rest] eqn:Hd; [| discriminate].
    destruct (JS.skipWhiteSpace rest); [| discriminate].
    destruct (Z.leb_spec z (2 ^ 53)) as [Hz | _]; [| discriminate].
    intros H. injection H as <-.
    assert (H0 := digits_nonneg s1 false 0 z rest ltac:(lia) Hd).
    destruct (signed_sign _ _ _ Hs) as [-> | ->]; lia.
Qed.

(** On such a page number, the least one apart, the arithmetic of the start
    index is exact. *)
Lemma startIndex_exact (n : Z) :
  - 2 ^ 53 < n <= 2 ^ 53 ->
  JS.mul (JS.sub (JS.Int n) (JS.Int 1)) (JS.Int LIMIT) = JS.Int ((n - 1) * 4).
Proof.
  intros H.
  assert (E53 : 2 ^ 53 = 9007199254740992) by reflexivity.
  assert (H1 : Z.abs (n - 1) <= 2 ^ 53) by lia.
  cbn [JS.sub]. rewrite (ofInteger_exact _ H1). cbn [JS.mul]. unfold LIMIT.
  now apply ofInteger_times4.
Qed.

(** *** Pagination *)

(** Beyond 2^53 the total is rounded before it is divided: 2^53 + 1 matches
    are reported as 2^51 pages, which hold one match less. *)
Lemma numberOfPages_rounded :
  Mongo.ceil_divide (2 ^ 53 + 1) LIMIT = 2 ^ 51
  /\ 4 * 2 ^ 51 < 2 ^ 53 + 1.
Proof. split; reflexivity. Qed.

Lemma ceil_divide_spec (total : Z) :
  Z.abs total <= 2 ^ 53 ->
  4 * (Mongo.ceil_divide total LIMIT - 1) < total
  <= 4 * Mongo.ceil_divide total LIMIT.
Proof.
  intros Hb. unfold Mongo.ceil_divide, LIMIT, JS.roundToDouble.
  destruct (Z.leb_spec (Z.abs total) (2 ^ 53)) as [_ | H']; [| lia].
  assert (H := Z.div_mod (- total) 4).
  assert (B := Z.mod_pos_bound (- total) 4).
  lia.
Qed.

Lemma count_nonempty {A : Type} (docs : list A) :
  docs <> [] -> Mongo.count docs = [JS.length docs].
Proof. destruct docs; [intros H; now elim H | reflexivity]. Qed.

Lemma paginate_page (page : option string) (n : Z) (docs : list Joined) :
  docs <> [] ->
  JS.truthy_string page = true ->
  JS.Number (JS.text page) = Normal (JS.Int n) ->
  1 <= n ->
  paginate page docs
  = Normal
      (mkResponse
         (map projectApplication
              (firstn 4 (skipn (Z.to_nat ((n - 1) * 4)) docs)))
         (Pagination.mk (Some (JS.Int n))
            (Some (Mongo.ceil_divide (JS.length docs) 4)))).
Proof.
  intros Hne Ht Hn Hle.
  assert (Hsafe := Number_safe _ _ Hn).
  unfold paginate, paginationStage, startIndex, currentPageOf.
  rewrite Ht, Hn, (count_nonempty docs Hne).
  assert (E53 : 2 ^ 53 = 9007199254740992) by reflexivity.
  cbn [bind]. rewrite (startIndex_exact n) by lia. cbn [Mongo.skip].
  assert (E63 : 2 ^ 63 = 9223372036854775808) by reflexivity.
  destruct (Z.ltb_spec ((n - 1) * 4) 0) as [H | _]; [lia |].
  destruct (Z.leb_spec (2 ^ 63) ((n - 1) * 4)) as [H | _]; [lia |].
  reflexivity.
Qed.

Lemma paginate_no_page (page : option string) (docs : list Joined) :
  docs <> [] ->
  JS.truthy_string page = false ->
  paginate page docs
  = Normal
      (mkResponse
         (map projectApplication (firstn 4 docs))
         (Pagination.mk (Some (JS.Int 0))
            (Some (Mongo.ceil_divide (JS.length docs) 4)))).
Proof.
  intros Hne Ht.
  unfold paginate, paginationStage, startIndex, currentPageOf.
  rewrite Ht, (count_nonempty docs Hne). reflexivity.
Qed.

(** C4 (amended). On a non-empty set of matches the pagination stage uses
    pages of 4: it skips [(page - 1) * 4] items when a page from 1 to 2^53
    is supplied and none otherwise, keeps at most 4 items, reports as
    [numberOfPages] the ceiling of the total over 4, for a total of at most
    2^53, and as [currentPage] the requested page, or 0 when none is
    requested. With 10 matches, page 1 holds 4 items of 3 pages, page 3
    holds 2 items, and no page gives [currentPage] 0. The page and the
    total enter the computation as doubles: up to 2^53 they are exact,
    beyond they are rounded. *)
Theorem pagination_stage (page : option string) (docs : list Joined) :
  docs <> [] ->
  (JS.truthy_string page = false ->
   paginate page docs
   = Normal
       (mkResponse
          (map projectApplication (firstn 4 (skipn 0 docs)))
          (Pagination.mk (Some (JS.Int 0))
             (Some (Mongo.ceil_divide (JS.length docs) 4)))))
  /\ (forall n : Z,
         JS.truthy_string page = true ->
         JS.Number (JS.text page) = Normal (JS.Int n) ->
         1 <= n <= 2 ^ 53 ->
         paginate page docs
         = Normal
             (mkResponse
                (map projectApplication
                     (firstn 4 (skipn (Z.to_nat ((n - 1) * 4)) docs)))
                (Pagination.mk (Some (JS.Int n))
                   (Some (Mongo.ceil_divide (JS.length docs) 4)))))
  /\ (JS.length docs <= 2 ^ 53 ->
      4 * (Mongo.ceil_divide (JS.length docs) 4 - 1) < JS.length docs
      <= 4 * Mongo.ceil_divide (JS.length docs) 4)
  /\ (List.length docs = 10%nat ->
      (exists r, paginate (Some "1") docs = Normal r
                 /\ List.length (applications r) = 4%nat
                 /\ Pagination.numberOfPages (pagination r) = Some 3)
      /\ (exists r, paginate (Some "3") docs = Normal r
                    /\ List.length (applications r) = 2%nat)
      /\ (exists r, paginate None docs = Normal r
                    /\ Pagination.currentPage (pagination r) = Some (JS.Int 0))).
Proof.
  intros Hne. split; [| split; [| split]].
  - intros Ht. now apply paginate_no_page.
  - intros n Ht Hn [Hle _]. now apply paginate_page.
  - intros Hl. apply ceil_divide_spec. unfold JS.length in *. lia.
  - intros H10.
    assert (Hl : JS.length docs = 10) by (unfold JS.length; now rewrite H10).
    split; [| split].
    + eexists. split; [apply (paginate_page (Some "1") 1 docs Hne); easy |].
      cbn [applications pagination Pagination.numberOfPages].
      rewrite Hl, length_map, length_firstn, length_skipn, H10.
      split; reflexivity.
    + eexists. split; [apply (paginate_page (Some "3") 3 docs Hne); easy |].
      cbn [applications].
      rewrite length_map, length_firstn, length_skipn, H10. reflexivity.
    + eexists. split; [apply (paginate_no_page None docs Hne); easy |].
      reflexivity.
Qed.


(** *** The name filter *)

Lemma ordinary_not_dot (c : Z) : Regex.ordinary c = true -> (c =? 46) = false.
Proof.
  destruct (Z.eqb_spec c 46) as [-> | _]; [discriminate | reflexivity].
Qed.

Lemma compile_simple (pattern : list Z) :
  Regex.simple pattern = true ->
  Regex.compile pattern = Some (map Regex.atomOf pattern).
Proof.
  unfold Regex.simple.
  induction pattern as [| c rest IH]; cbn [forallb Regex.compile map].
  - reflexivity.
  - intros H. apply andb_true_iff in H. destruct H as [Hc Hrest].
    rewrite (IH Hrest). unfold Regex.atomOf.
    destruct (c =? 46); [reflexivity |].
    cbn [orb] in Hc. now rewrite Hc.
Qed.

Lemma literal_simple (pattern : list Z) :
  Regex.literal pattern = true ->
  Regex.simple pattern = true
  /\ map Regex.atomOf pattern = map Regex.Literal pattern.
Proof.
  unfold Regex.literal, Regex.simple.
  induction pattern as [| c rest IH]; cbn [forallb map]; [now split |].
  intros H. apply andb_true_iff in H. destruct H as [Hc Hrest].
  destruct (IH Hrest) as [-> ->]. unfold Regex.atomOf.
  now rewrite Hc, (ordinary_not_dot c Hc).
Qed.

Lemma matchAtom_stands (a : Regex.atom) (c : Z) :
  Regex.matchAtom caseFold a c = true <-> Regex.stands caseFold a c.
Proof.
  destruct a as [| l]; cbn [Regex.matchAtom Regex.stands].
  - rewrite negb_true_iff. apply Z.eqb_neq.
  - apply Z.eqb_eq.
Qed.

(** The atoms match at the start of a subject that begins with a run they
    stand for. *)
Lemma matchHere_run (atoms : list Regex.atom) :
  forall subject,
    Regex.matchHere caseFold atoms subject = true
    <-> exists run after,
        subject = run ++ after /\ Forall2 (Regex.stands caseFold) atoms run.
Proof.
  induction atoms as [| a atoms IH]; intros subject.
  - cbn [Regex.matchHere]. split; [intros _ | reflexivity].
    exists [], subject. split; [reflexivity | constructor].
  - destruct subject as [| c subject]; cbn [Regex.matchHere].
    + split; [discriminate |].
      intros [run [after [Hs Hrun]]]. inversion Hrun; subst. discriminate.
    + rewrite andb_true_iff, matchAtom_stands, IH. split.
      * intros [Hc [run [after [-> Hrun]]]].
        exists (c :: run), after. split; [reflexivity | now constructor].
      * intros [run [after [Hs Hrun]]].
        inversion Hrun as [| a' c' atoms' run' Hc Hrun' E1 E2]; subst.
        injection Hs as -> ->. split; [exact Hc |]. now exists run', after.
Qed.

Lemma search_run (atoms : list Regex.atom) :
  forall subject,
    Regex.search caseFold atoms subject = true
    <-> Regex.containsRun caseFold atoms subject.
Proof.
  unfold Regex.containsRun.
  induction subject as [| c subject IH]; cbn [Regex.search].
  - rewrite orb_false_r, matchHere_run. split.
    + intros [run [after [Hs Hrun]]]. now exists [], run, after.
    + intros [before [run [after [Hs Hrun]]]].
      destruct before; [now exists run, after | discriminate].
  - rewrite orb_true_iff, matchHere_run, IH. split.
    + intros [[run [after [Hs Hrun]]] | [before [run [after [Hs Hrun]]]]].
      * now exists [], run, after.
      * exists (c :: before), run, after. split; [| exact Hrun].
        cbn [app]. now rewrite Hs.
    + intros [before [run [after [Hs Hrun]]]]. destruct before as [| b before].
      * left. now exists run, after.
      * right. injection Hs as _ Hs. now exists before, run, after.
Qed.

(** Literal atoms stand for the runs equal to them up to case. *)
Lemma literal_run (needle : list Z) :
  forall run,
    Forall2 (Regex.stands caseFold) (map Regex.Literal needle) run
    <-> map caseFold needle = map caseFold run.
Proof.
  induction needle as [| l needle IH]; intros run; cbn [map].
  - split.
    + intros H. inversion H. reflexivity.
    + destruct run; [constructor | discriminate].
  - split.
    + intros H. inversion H as [| a c atoms run' Hc Hrun]; subst.
      cbn [map Regex.stands] in *. rewrite Hc. f_equal. now apply IH.
    + destruct run as [| c run]; [discriminate |]. cbn [map].
      intros H. injection H as Hc Hrun. constructor; [exact Hc | now apply IH].
Qed.

Lemma containsRun_literal (needle subject : list Z) :
  Regex.containsRun caseFold (map Regex.Literal needle) subject
  <-> Regex.containsIgnoringCase caseFold needle subject.
Proof.
  unfold Regex.containsRun, Regex.containsIgnoringCase. split.
  - intros [before [run [after [-> Hrun]]]]. apply literal_run in Hrun.
    exists (map caseFold before), (map caseFold after).
    now rewrite !map_app, Hrun.
  - intros [before' [after' H]].
    apply map_eq_app in H. destruct H as [before [rest [-> [_ H]]]].
    apply map_eq_app in H. destruct H as [run [after [-> [Hrun _]]]].
    exists before, run, after. split; [reflexivity |].
    apply literal_run. now symmetry.
Qed.

(** C9 (amended). A name holding no regular-expression metacharacter
    filters exactly the applications whose applicant name contains it,
    characters being compared up to the case folding of option [i]. More
    generally, in a name made of such characters and of dots, a dot is not
    taken for itself: the name filters the applications whose applicant
    name contains a run of characters equal to it up to case, any one
    character other than a line feed standing where the name has a dot.
    Without a name, or with the empty name, the stage is not applied. *)
Theorem name_filter (name : option string) (docs : list IApplication) :
  (JS.truthy_string name = false -> queryName name docs = Normal docs)
  /\ (JS.truthy_string name = true ->
      Regex.literal (JS.codePoints (JS.text name)) = true ->
      exists kept,
        queryName name docs = Normal kept
        /\ forall a,
            In a kept
            <-> In a docs
                /\ Regex.containsIgnoringCase caseFold
                     (JS.codePoints (JS.text name))
                     (JS.codePoints (Application.name a)))
  /\ (JS.truthy_string name = true ->
      Regex.simple (JS.codePoints (JS.text name)) = true ->
      exists kept,
        queryName name docs = Normal kept
        /\ forall a,
            In a kept
            <-> In a docs
                /\ Regex.containsRun caseFold
                     (map Regex.atomOf (JS.codePoints (JS.text name)))
                     (JS.codePoints (Application.name a))).
Proof.
  unfold queryName. split; [| split].
  - intros ->. reflexivity.
  - intros -> Hlit. destruct (literal_simple _ Hlit) as [Hs Hl].
    rewrite (compile_simple _ Hs), Hl.
    eexists. split; [reflexivity |].
    intros a. now rewrite filter_In, search_run, containsRun_literal.
  - intros -> Hs. rewrite (compile_simple _ Hs).
    eexists. split; [reflexivity |].
    intros a. now rewrite filter_In, search_run.
Qed.

(** *** Wiping *)

Lemma deleteMany_all {A : Type} (docs : list A) :
  Mongo.deleteMany (fun _ => true) docs = [].
Proof.
  unfold Mongo.deleteMany. induction docs as [| d docs IH]; [reflexivity | exact IH].
Qed.

(** C5. A caller outside the Main Board gets 403 and every collection stays
    as it was; a Main Board member gets 200, after which there is no
    application, status or admission period, the only users left are those
    with the caller's id, and every committee is closed to admissions. *)
Theorem wipe_authorization (db : Store) (userId : Z) :
  userId <> 0 ->
  (~ In MAIN_BOARD_ID (getUserCommitteeIdsByUserId db userId) ->
   httpStatus (fst (wipeAdmissionData db (Some userId))) = Some 403
   /\ snd (wipeAdmissionData db (Some userId)) = db)
  /\ (In MAIN_BOARD_ID (getUserCommitteeIdsByUserId db userId) ->
      let db' := snd (wipeAdmissionData db (Some userId)) in
      httpStatus (fst (wipeAdmissionData db (Some userId))) = Some 200
      /\ Applications db' = []
      /\ Statuses db' = []
      /\ AdmissionPeriods db' = []
      /\ (forall u, In u (Users db') <-> In u (Users db) /\ User._id u = userId)
      /\ Committees db' = map closeCommittee (Committees db)
      /\ (forall c, In c (Committees db') -> Committee.accepts_admissions c = false)).
Proof.
  intros H0. apply Z.eqb_neq in H0.
  unfold wipeAdmissionData. cbn [JS.truthy_number]. rewrite H0. cbn [negb].
  split.
  - intros HM. apply includes_false in HM. rewrite HM. cbn. now split.
  - intros HM. apply includes_In in HM. rewrite HM.
    cbn [negb fst snd httpStatus Applications Statuses AdmissionPeriods Users
         Committees].
    rewrite !deleteMany_all. unfold Mongo.updateMany, Mongo.deleteMany.
    do 4 (split; [reflexivity |]). split; [| split; [reflexivity |]].
    + intros u. rewrite filter_In, negb_involutive, Z.eqb_eq. reflexivity.
    + intros c Hc. apply in_map_iff in Hc. destruct Hc as [c' [<- _]].
      reflexivity.
Qed.

(** *** Submission *)

Lemma closedCommittees_found (db : Store) (committees : list Z)
    (c : Committee.t) :
  In c (Committees db) ->
  In (Committee._id c) committees ->
  Committee.accepts_admissions c = false ->
  exists closed, closedCommittees db committees = Some closed.
Proof.
  intros Hc Hid Hclosed. unfold closedCommittees.
  destruct (find _ (Committees db)) as [closed |] eqn:Hfind; [now exists closed |].
  apply (find_none _ _ Hfind) in Hc.
  rewrite Hclosed, (proj2 (in_values_Int _ _) Hid) in Hc. discriminate.
Qed.

(** C7 (amended). A submission addressed to a committee that does not
    accept admissions leaves the store as it was, creating neither statuses
    nor an application; while an admission period is active it is answered
    400 with the closed-committee message, and otherwise 403 as any
    submission outside an admission period. *)
Theorem closed_committee_rejection (driver : Driver) (db : Store)
    (body : Submission.t) (c : Committee.t) :
  In c (Committees db) ->
  In (Committee._id c) (Submission.committees body) ->
  Committee.accepts_admissions c = false ->
  snd (postApplication driver db body) = db
  /\ (isAdmissionPeriodActive (AdmissionPeriods db) = true ->
      fst (postApplication driver db body)
      = Normal (400, Message "A committee the application was sent to is closed"))
  /\ (isAdmissionPeriodActive (AdmissionPeriods db) = false ->
      fst (postApplication driver db body)
      = Throw (CustomError "Admission period is not active" 403)).
Proof.
  intros Hc Hid Hclosed.
  destruct (closedCommittees_found db _ c Hc Hid Hclosed) as [closed Hfind].
  unfold postApplication. rewrite Hfind.
  destruct (isAdmissionPeriodActive (AdmissionPeriods db)); cbn;
    repeat split; congruence.
Qed.

(** C8. When the bulk insert of the statuses is rejected, no application is
    created: the Applications collection is what it was, the answer is never
    a created application, and a submission that reached the insert ends
    with the error raised for it. *)
Theorem no_orphan_application (driver : Driver) (db : Store)
    (body : Submission.t) (written : nat) :
  insertManyRejectsAfter driver = Some written ->
  Applications (snd (postApplication driver db body)) = Applications db
  /\ (forall application,
         fst (postApplication driver db body)
         <> Normal (200, Payload application))
  /\ (isAdmissionPeriodActive (AdmissionPeriods db) = true ->
      closedCommittees db (Submission.committees body) = None ->
      fst (postApplication driver db body)
      = Throw (CustomError "Something went wrong creating statuses" 500)).
Proof.
  intros Hrej. unfold postApplication, insertMany. rewrite Hrej.
  destruct (isAdmissionPeriodActive (AdmissionPeriods db)); cbn.
  - destruct (closedCommittees db (Submission.committees body)); cbn;
      repeat split; congruence.
  - repeat split; congruence.
Qed.

(** *** Numbers written and read back *)

Ltac each_digit d H :=
  let E := fresh "E" in
  assert (E : d = 0 \/ d = 1 \/ d = 2 \/ d = 3 \/ d = 4 \/ d = 5 \/ d = 6
              \/ d = 7 \/ d = 8 \/ d = 9) by lia;
  clear H;
  repeat (destruct E as [-> | E]); [.. | subst d].

Lemma codePoints_digitChar (d : Z) (rest : string) :
  0 <= d < 10 ->
  JS.codePoints (String (JS.digitChar d) rest) = (48 + d) :: JS.codePoints rest.
Proof. intros H. each_digit d H; reflexivity. Qed.

Lemma digit_plain (d : Z) (t : list Z) :
  0 <= d < 10 ->
  JS.digit (48 + d) = Some d
  /\ JS.skipWhiteSpace ((48 + d) :: t) = (48 + d) :: t
  /\ JS.signed ((48 + d) :: t) = (1, (48 + d) :: t).
Proof. intros H. each_digit d H; repeat split; reflexivity. Qed.

Lemma decimalDigits_step (fuel : nat) (n : Z) (acc : string) :
  JS.decimalDigits (Datatypes.S fuel) n acc
  = if n / 10 =? 0 then String (JS.digitChar (n mod 10)) acc
    else JS.decimalDigits fuel (n / 10) (String (JS.digitChar (n mod 10)) acc).
Proof. reflexivity. Qed.

(** Reading the digits written for [n] yields [n] and leaves what follows
    them. *)
Lemma digits_decimalDigits (fuel : nat) :
  forall (n : Z) (acc : string) (seen : bool),
    0 <= n < 10 ^ Z.of_nat (Datatypes.S fuel) ->
    JS.digits (JS.codePoints (JS.decimalDigits (Datatypes.S fuel) n acc)) seen 0
    = JS.digits (JS.codePoints acc) true n.
Proof.
  induction fuel as [| fuel IH]; intros n acc seen Hn.
  - assert (Hlt : n < 10) by (change (10 ^ Z.of_nat 1) with 10 in Hn; lia).
    cbn [JS.decimalDigits].
    assert (Hq : n / 10 = 0) by (apply Z.div_small; lia).
    assert (Hm : n mod 10 = n) by (apply Z.mod_small; lia).
    rewrite Hq, Hm. cbn [Z.eqb].
    rewrite codePoints_digitChar by lia. cbn [JS.digits].
    destruct (digit_plain n [] ltac:(lia)) as [-> _]. f_equal; lia.
  - rewrite decimalDigits_step.
    assert (Hd := Z.div_mod n 10 ltac:(lia)).
    assert (Hb := Z.mod_pos_bound n 10 ltac:(lia)).
    destruct (Z.eqb_spec (n / 10) 0) as [Hq | Hq].
    + rewrite codePoints_digitChar by lia. cbn [JS.digits].
      destruct (digit_plain (n mod 10) [] ltac:(lia)) as [-> _]. f_equal; lia.
    + rewrite IH.
      * rewrite codePoints_digitChar by lia. cbn [JS.digits].
        destruct (digit_plain (n mod 10) [] ltac:(lia)) as [-> _]. f_equal; lia.
      * split; [apply Z.div_pos; lia |].
        apply Z.div_lt_upper_bound; [lia |].
        rewrite Nat2Z.inj_succ, Z.pow_succ_r in Hn by lia. lia.
Qed.

Lemma decimalDigits_head (fuel : nat) (n : Z) (acc : string) :
  0 <= n ->
  exists d rest,
    0 <= d < 10
    /\ JS.decimalDigits (Datatypes.S fuel) n acc = String (JS.digitChar d) rest.
Proof.
  revert n acc. induction fuel as [| fuel IH]; intros n acc Hn.
  - rewrite decimalDigits_step. exists (n mod 10), acc.
    split; [apply Z.mod_pos_bound; lia | now destruct (n / 10 =? 0)].
  - rewrite decimalDigits_step. destruct (n / 10 =? 0).
    + exists (n mod 10), acc. split; [apply Z.mod_pos_bound; lia | reflexivity].
    + apply IH. apply Z.div_pos; lia.
Qed.

(** What [toString] writes for an integer of at most 2^53 in magnitude,
    [parseInt] and [Number] read back as that integer. *)
Lemma parse_toString (n : Z) (s : string) :
  JS.toString n = Normal s ->
  JS.parseInt s = JS.Int n
  /\ JS.Number s = Normal (JS.Int n)
  /\ JS.truthy_string (Some s) = true.
Proof.
  unfold JS.toString.
  remember (JS.decimalDigits 16 (- n) "") as rn eqn:En.
  remember (JS.decimalDigits 16 n "") as rp eqn:Ep.
  assert (E53 : 2 ^ 53 = 9007199254740992) by reflexivity.
  assert (E16 : 10 ^ Z.of_nat 16 = 10000000000000000) by reflexivity.
  destruct (Z.leb_spec (Z.abs n) (2 ^ 53)) as [Hb | _];
    [| discriminate].
  assert (Hexact : JS.ofInteger n = JS.Int n)
    by (now apply ofInteger_exact).
  destruct (Z.ltb_spec n 0) as [Hneg | Hpos]; intros H; injection H as <-.
  - assert (Hr : 0 <= - n < 10 ^ Z.of_nat 16)
      by lia.
    assert (Hd := digits_decimalDigits 15 (- n) "" false Hr).
    rewrite <- En in Hd.
    assert (Hc : JS.skipWhiteSpace (JS.codePoints (String "-" rn))
                 = 45 :: JS.codePoints rn) by reflexivity.
    unfold JS.parseInt, JS.Number. rewrite Hc.
    change (JS.signed (45 :: JS.codePoints rn)) with (-1, JS.codePoints rn).
    cbv beta iota. rewrite Hd.
    change (JS.codePoints "") with (@nil Z).
    cbn [JS.digits fst JS.skipWhiteSpace].
    destruct (Z.leb_spec (- n) (2 ^ 53)) as [_ | Hbad]; [| lia].
    replace (-1 * - n) with n by lia. rewrite Hexact. repeat split.
  - assert (Hr : 0 <= n < 10 ^ Z.of_nat 16)
      by lia.
    assert (Hd := digits_decimalDigits 15 n "" false Hr).
    destruct (decimalDigits_head 15 n "" Hpos) as [d [rest [Hdig Hs]]].
    rewrite <- Ep in Hd, Hs.
    destruct (digit_plain d (JS.codePoints rest) Hdig) as [_ [Hw Hsg]].
    assert (Hc := codePoints_digitChar d rest Hdig). rewrite <- Hs in Hc.
    unfold JS.parseInt, JS.Number. rewrite Hc, Hw, Hsg, <- Hc, Hd.
    change (JS.codePoints "") with (@nil Z).
    cbn [JS.digits fst JS.skipWhiteSpace].
    destruct (Z.leb_spec n (2 ^ 53)) as [_ | Hbad]; [| lia].
    replace (1 * n) with n by lia. rewrite Hexact, Hs. repeat split.
Qed.

Lemma toString_safe (n : Z) :
  Z.abs n <= 2 ^ 53 -> exists s, JS.toString n = Normal s.
Proof.
  intros H. unfold JS.toString.
  destruct (Z.leb_spec (Z.abs n) (2 ^ 53)) as [_ | H']; [| lia].
  eexists. reflexivity.
Qed.

(** The entries of the committee select: one per committee, in order,
    labelled by name, with a non-empty value that [parseInt] reads back as
    the committee's id. *)
Lemma multiselect_entries (committees : list Committee.t) :
  (forall c, In c committees -> Z.abs (Committee._id c) <= 2 ^ 53) ->
  exists dataList,
    FilterSearch.mapCommitteesToMultiselectData committees = Normal dataList
    /\ map FilterSearch.label dataList = map Committee.name committees
    /\ map (fun d => JS.parseInt (FilterSearch.value d)) dataList
       = map (fun c => JS.Int (Committee._id c)) committees
    /\ (forall d, In d dataList ->
                  JS.truthy_string (Some (FilterSearch.value d)) = true)
    /\ (forall d, In d dataList <->
                  exists c, In c committees
                            /\ JS.toString (Committee._id c)
                               = Normal (FilterSearch.value d)
                            /\ FilterSearch.label d = Committee.name c).
Proof.
  intros Hb. induction committees as [| c committees IH].
  - exists []. do 3 (split; [reflexivity |]). split; [intros d [] |].
    intros d. split; [intros [] | intros [c [[] _]]].
  - destruct IH as [dataList [Hrun [Hl [Hp [Ht Hin]]]]].
    { intros c' Hc'. apply Hb. now right. }
    destruct (toString_safe (Committee._id c)) as [s Hs];
      [apply Hb; now left |].
    destruct (parse_toString _ _ Hs) as [Hparse [_ Htruthy]].
    exists (FilterSearch.mkSelectData s (Committee.name c) :: dataList).
    cbn [FilterSearch.mapCommitteesToMultiselectData]. rewrite Hs, Hrun.
    cbn [bind map FilterSearch.label FilterSearch.value].
    rewrite Hl, Hparse, Hp.
    split; [reflexivity |]. split; [reflexivity |]. split; [reflexivity |].
    split.
    + intros d [<- | Hd]; [exact Htruthy | now apply Ht].
    + intros d. split.
      * intros [<- | Hd].
        -- exists c. split; [now left | now split].
        -- apply Hin in Hd. destruct Hd as [c' [Hc' H]].
           exists c'. split; [now right | exact H].
      * intros [c' [[<- | Hc'] [H1 H2]]].
        -- left. destruct d as [v l]. cbn in H1, H2.
           rewrite Hs in H1. injection H1 as <-. now rewrite H2.
        -- right. apply Hin. now exists c'.
Qed.

(** X15. The committee select of the frontend and the committee filter of
    the list endpoint agree. For committees whose ids are integers of at
    most 2^53 in magnitude, the select has one entry per committee, in
    order, labelled by name; and when the [committee] parameter of a query
    without status carries the values of the entries of some of these
    committees, as an array or, for one entry, as a string, the filter stage
    keeps exactly the applications addressed to one of those committees. *)
Theorem committee_select_filters (committees chosen : list Committee.t)
    (docs : list WithStatuses) :
  (forall c, In c committees -> Z.abs (Committee._id c) <= 2 ^ 53) ->
  incl chosen committees ->
  exists dataList selected,
    FilterSearch.mapCommitteesToMultiselectData committees = Normal dataList
    /\ map FilterSearch.label dataList = map Committee.name committees
    /\ FilterSearch.mapCommitteesToMultiselectData chosen = Normal selected
    /\ incl selected dataList
    /\ forall (q : Query.t) (a : WithStatuses),
        JS.truthy_string (Query.status q) = false ->
        Query.committee q = Some (QArray (map FilterSearch.value selected))
        \/ (exists d, selected = [d]
                      /\ Query.committee q
                         = Some (QString (FilterSearch.value d))) ->
        (In a (statusCommitteeStage q docs)
         <-> In a docs
             /\ exists c, In c chosen
                          /\ In (Committee._id c) (Application.committees a)).
Proof.
  intros Hb Hincl.
  destruct (multiselect_entries committees Hb)
    as [dataList [Hrun [Hl [_ [_ Hin]]]]].
  destruct (multiselect_entries chosen) as [selected [Hrun' [_ [Hp [Ht Hin']]]]].
  { intros c Hc. apply Hb. now apply Hincl. }
  exists dataList, selected.
  split; [exact Hrun |]. split; [exact Hl |]. split; [exact Hrun' |].
  split.
  { intros d Hd. apply Hin' in Hd. destruct Hd as [c [Hc H]].
    apply Hin. exists c. split; [now apply Hincl | exact H]. }
  intros q a Hstatus Hq.
  assert (Hids : truthy_committee (Query.committee q) = true
                 /\ committeeIds (Query.committee q)
                    = map (fun c => JS.Int (Committee._id c)) chosen).
  { unfold committeeIds. destruct Hq as [-> | [d [-> ->]]].
    - split; [reflexivity |]. cbn [truthy_committee JS.truthy_array].
      now rewrite map_map.
    - cbn [truthy_committee]. rewrite (Ht d) by now left.
      split; [reflexivity |]. exact Hp. }
  destruct Hids as [Htc Hids].
  unfold statusCommitteeStage. rewrite Hstatus, Htc, Hids. cbn [andb].
  rewrite filter_In. unfold filterCommittee, Mongo.in_.
  rewrite existsb_exists. split.
  - intros [Ha [x [Hx Hv]]]. split; [exact Ha |].
    apply in_values_spec, in_map_iff in Hv. destruct Hv as [c [Hc Hchosen]].
    injection Hc as <-. now exists c.
  - intros [Ha [c [Hc Hx]]]. split; [exact Ha |].
    exists (Committee._id c). split; [exact Hx |].
    apply in_values_spec, in_map_iff. now exists c.
Qed.

(** *** The list endpoint as a whole *)

(** A listing is answered only to an identified caller whose query passed
    validation, and is the redacted outcome of the aggregation. *)
Lemma getApplications_listing (db : Store) (req : ListRequest) (status : Z)
    (r : IApplicationResponse) :
  getApplications db req = Normal (status, Listing r) ->
  exists userId appRes0,
    ntnuiNo req = Some userId
    /\ userId <> 0
    /\ validationErrors req = []
    /\ status = 200
    /\ aggregate db (getUserCommitteeIdsByUserId db userId) (query req)
       = Normal appRes0
    /\ r = redactResponse (getUserCommitteeIdsByUserId db userId)
             (orEmptyResponse appRes0).
Proof.
  unfold getApplications.
  destruct (ntnuiNo req) as [userId |] eqn:Hu; [| discriminate].
  cbn [JS.truthy_number JS.truthy_array].
  destruct (Z.eqb_spec userId 0) as [_ | H0]; cbn [negb]; [discriminate |].
  destruct (validationErrors req) eqn:Hv; [| discriminate].
  destruct (aggregate db (getUserCommitteeIdsByUserId db userId) (query req))
    as [appRes0 | e | |] eqn:Hagg; cbn [bind catch]; try discriminate.
  intros H. injection H as <- <-.
  exists userId, appRes0.
  split; [reflexivity |]. split; [exact H0 |]. split; [reflexivity |].
  split; [reflexivity |]. split; [exact Hagg | reflexivity].
Qed.

Lemma In_window {A : Type} (n m : nat) (l : list A) (x : A) :
  In x (firstn n (skipn m l)) -> In x l.
Proof.
  intros H.
  rewrite <- (firstn_skipn m l). apply in_or_app. right.
  rewrite <- (firstn_skipn n (skipn m l)). apply in_or_app. now left.
Qed.

(** A completed aggregation holds a window of at most [LIMIT] of the
    matches, projected. *)
Lemma aggregate_normal (db : Store) (U : list Z) (q : Query.t)
    (appRes0 : IApplicationResponse) :
  aggregate db U q = Normal appRes0 ->
  exists matched z,
    matchedApplications db U q = Normal matched
    /\ 0 <= z
    /\ startIndex (Query.page q) = Normal (JS.Int z)
    /\ applications appRes0
       = map projectApplication (firstn 4 (skipn (Z.to_nat z) matched)).
Proof.
  unfold aggregate, paginate, paginationStage.
  destruct (matchedApplications db U q) as [matched | | |]; try discriminate.
  cbn [bind].
  destruct (startIndex (Query.page q)) as [[| z | negative] | | |]; cbn [bind];
    try discriminate.
  - destruct (currentPageOf (Query.page q)); discriminate.
  - destruct (currentPageOf (Query.page q)) as [current | | |]; cbn [bind];
      try discriminate.
    unfold Mongo.skip.
    destruct (Z.ltb_spec z 0) as [Hz | Hz]; cbn [orb bind]; [discriminate |].
    destruct (2 ^ 63 <=? z); cbn [bind]; [discriminate |].
    intros H. injection H as <-.
    exists matched, z. repeat split; auto.
  - destruct (currentPageOf (Query.page q)); discriminate.
Qed.

Lemma matchedApplications_from_scope (db : Store) (U : list Z) (q : Query.t)
    (matched : list Joined) :
  (forall s docs j, In j (sortStage s docs) -> In j docs) ->
  matchedApplications db U q = Normal matched ->
  forall j,
    In j matched ->
    exists stored,
      In stored (userAuthorizedCommittees U (Applications db))
      /\ j = joinApplication db stored.
Proof.
  intros Hsort. unfold matchedApplications.
  destruct (queryName (Query.name q)
              (userAuthorizedCommittees U (Applications db)))
    as [named | | |] eqn:Hnamed; cbn [bind]; try discriminate.
  intros H j Hj. injection H as <-.
  assert (Hsub : forall a, In a named ->
                           In a (userAuthorizedCommittees U (Applications db))).
  { unfold queryName in Hnamed.
    destruct (JS.truthy_string (Query.name q)).
    - destruct (Regex.compile (JS.codePoints (JS.text (Query.name q))));
        [| discriminate].
      injection Hnamed as <-. intros a Ha. now apply filter_In in Ha.
    - injection Hnamed as <-. auto. }
  assert (Hj' : In j (populateCommittees db
                        (statusCommitteeStage q (populateStatusStage db named)))).
  { unfold sort in Hj. destruct (Query.sort q); [now apply Hsort in Hj | exact Hj]. }
  unfold populateCommittees in Hj'. apply in_map_iff in Hj'.
  destruct Hj' as [ws [<- Hws]].
  assert (Hws' : In ws (populateStatusStage db named)).
  { unfold statusCommitteeStage in Hws.
    destruct (JS.truthy_string (Query.status q) && truthy_committee (Query.committee q));
      [now apply filter_In in Hws |].
    destruct (JS.truthy_string (Query.status q)); [now apply filter_In in Hws |].
    destruct (truthy_committee (Query.committee q));
      [now apply filter_In in Hws | exact Hws]. }
  unfold populateStatusStage in Hws'. apply in_map_iff in Hws'.
  destruct Hws' as [a [<- Ha]].
  exists a. split; [now apply Hsub | reflexivity].
Qed.

(** X3. Whatever the filters, sort and page, every application of a listing
    is a stored application that the scope stage admits for the caller,
    joined with its committees and statuses, projected, and, unless the
    caller is in the Election Committee, redacted; the sort stage is only
    assumed to output documents of its input. *)
Theorem listing_within_scope (db : Store) (req : ListRequest) (status : Z)
    (r : IApplicationResponse) :
  (forall s docs j, In j (sortStage s docs) -> In j docs) ->
  getApplications db req = Normal (status, Listing r) ->
  exists userId,
    ntnuiNo req = Some userId
    /\ forall a,
        In a (applications r) ->
        exists stored,
          In stored (Applications db)
          /\ In stored (userAuthorizedCommittees
                          (getUserCommitteeIdsByUserId db userId)
                          (Applications db))
          /\ a = (if JS.includes (getUserCommitteeIdsByUserId db userId)
                       ELECTION_COMMITTEE_ID
                  then projectApplication (joinApplication db stored)
                  else hideMainBoard
                         (projectApplication (joinApplication db stored))).
Proof.
  intros Hsort Hr.
  destruct (getApplications_listing db req status r Hr)
    as [userId [appRes0 [Hu [_ [_ [_ [Hagg ->]]]]]]].
  exists userId. split; [exact Hu |].
  set (U := getUserCommitteeIdsByUserId db userId) in *.
  destruct (aggregate_normal db U (query req) appRes0 Hagg)
    as [matched [z [Hm [_ [_ Happs]]]]].
  assert (Hfrom : forall p, In p (applications (orEmptyResponse appRes0)) ->
            exists stored,
              In stored (userAuthorizedCommittees U (Applications db))
              /\ p = projectApplication (joinApplication db stored)).
  { intros p Hp. unfold orEmptyResponse in Hp.
    destruct (negb (JS.length (applications appRes0) =? 0)); [| destruct Hp].
    rewrite Happs in Hp. apply in_map_iff in Hp. destruct Hp as [j [<- Hj]].
    apply In_window in Hj.
    destruct (matchedApplications_from_scope db U (query req) matched
                Hsort Hm j Hj) as [stored [Hs ->]].
    now exists stored. }
  assert (Hstored : forall stored,
            In stored (userAuthorizedCommittees U (Applications db)) ->
            In stored (Applications db)).
  { intros stored. unfold userAuthorizedCommittees.
    destruct (JS.includes U ELECTION_COMMITTEE_ID); [auto |].
    destruct (JS.includes U MAIN_BOARD_ID); intros H; now apply filter_In in H. }
  intros a Ha. unfold redactResponse in Ha. cbn [JS.truthy_array andb] in Ha.
  destruct (JS.includes U ELECTION_COMMITTEE_ID); cbn [negb] in Ha.
  - destruct (Hfrom a Ha) as [stored [Hs ->]]. exists stored. auto.
  - cbn [applications] in Ha. apply in_map_iff in Ha.
    destruct Ha as [p [<- Hp]].
    destruct (Hfrom p Hp) as [stored [Hs ->]]. exists stored. auto.
Qed.

(** X2. A listing never holds more than four applications. *)
Theorem listing_at_most_four (db : Store) (req : ListRequest) (status : Z)
    (r : IApplicationResponse) :
  getApplications db req = Normal (status, Listing r) ->
  (List.length (applications r) <= 4)%nat.
Proof.
  intros Hr.
  destruct (getApplications_listing db req status r Hr)
    as [userId [appRes0 [_ [_ [_ [_ [Hagg ->]]]]]]].
  destruct (aggregate_normal db _ (query req) appRes0 Hagg)
    as [matched [z [_ [_ [_ Happs]]]]].
  assert (H0 : (List.length (applications (orEmptyResponse appRes0)) <= 4)%nat).
  { unfold orEmptyResponse.
    destruct (negb (JS.length (applications appRes0) =? 0)); [| cbn; lia].
    rewrite Happs, length_map. apply firstn_le_length. }
  unfold redactResponse. destruct (_ && _); [| exact H0].
  cbn [applications]. now rewrite length_map.
Qed.

(** X1. A listing answered to a caller outside the Election Committee shows
    the Main Board neither among the committees nor among the statuses of
    any application. *)
Theorem listing_hides_main_board (db : Store) (req : ListRequest)
    (userId status : Z) (r : IApplicationResponse) :
  ntnuiNo req = Some userId ->
  JS.includes (getUserCommitteeIdsByUserId db userId) ELECTION_COMMITTEE_ID
  = false ->
  getApplications db req = Normal (status, Listing r) ->
  forall a,
    In a (applications r) ->
    (forall c, In c (Application.committees a) ->
               Committee.p_id c <> MAIN_BOARD_ID)
    /\ (forall s, In s (Application.statuses a) ->
                  Status.pr_committee s <> MAIN_BOARD_ID).
Proof.
  intros Hu HE Hr.
  destruct (getApplications_listing db req status r Hr)
    as [userId' [appRes0 [Hu' [_ [_ [_ [_ ->]]]]]]].
  rewrite Hu in Hu'. injection Hu' as <-.
  unfold redactResponse. rewrite HE. cbn [JS.truthy_array andb negb applications].
  intros a Ha. apply in_map_iff in Ha. destruct Ha as [p [<- _]].
  unfold hideMainBoard. cbn [Application.with_arrays Application.committees
                               Application.statuses].
  split.
  - intros c Hc. apply filter_In in Hc. destruct Hc as [_ Hc].
    apply negb_true_iff in Hc. now apply Z.eqb_neq.
  - intros s Hs. apply filter_In in Hs. destruct Hs as [_ Hs].
    apply negb_true_iff in Hs. now apply Z.eqb_neq.
Qed.

(** X4. A page number of zero or less makes the aggregation fail on a
    negative [$skip]: whatever matches, the list endpoint passes on the
    error 500 of a failed retrieval. *)
Theorem nonpositive_page_fails (db : Store) (req : ListRequest)
    (userId n : Z) (docs : list Joined) :
  ntnuiNo req = Some userId ->
  userId <> 0 ->
  validationErrors req = [] ->
  matchedApplications db (getUserCommitteeIdsByUserId db userId) (query req)
  = Normal docs ->
  JS.truthy_string (Query.page (query req)) = true ->
  JS.Number (JS.text (Query.page (query req))) = Normal (JS.Int n) ->
  n <= 0 ->
  getApplications db req
  = Throw (CustomError "Something went wrong retrieving applications" 500).
Proof.
  intros Hu H0 Hv Hm Ht Hn Hle.
  unfold getApplications. rewrite Hu, Hv. cbn [JS.truthy_number].
  apply Z.eqb_neq in H0. rewrite H0. cbn [negb JS.truthy_array].
  unfold aggregate. rewrite Hm. cbn [bind].
  unfold paginate, paginationStage, startIndex, currentPageOf.
  rewrite Ht, Hn. cbn [bind].
  assert (Hsafe := Number_safe _ _ Hn).
  assert (E53 : 2 ^ 53 = 9007199254740992) by reflexivity.
  destruct (Z.eq_dec n (- 2 ^ 53)) as [-> | Hmin]; [reflexivity |].
  rewrite (startIndex_exact n) by lia. cbn [Mongo.skip].
  destruct (Z.ltb_spec ((n - 1) * 4) 0) as [_ | H]; [reflexivity | lia].
Qed.

(** X5. The filter stage outside the case of C3: with a status only, it
    keeps the applications one of whose statuses has that value; with
    committees only, those addressed to one of the parsed ids; with neither,
    every application. *)
Theorem single_filters (q : Query.t) (docs : list WithStatuses)
    (a : WithStatuses) :
  (JS.truthy_string (Query.status q) = true ->
   truthy_committee (Query.committee q) = false ->
   (In a (statusCommitteeStage q docs)
    <-> In a docs
        /\ exists s,
            In s (Application.statuses a)
            /\ StatusTypes_value (Status.value s) = JS.text (Query.status q)))
  /\ (JS.truthy_string (Query.status q) = false ->
      truthy_committee (Query.committee q) = true ->
      (In a (statusCommitteeStage q docs)
       <-> In a docs
           /\ exists c,
               In c (Application.committees a)
               /\ In (JS.Int c) (committeeIds (Query.committee q))))
  /\ (JS.truthy_string (Query.status q) = false ->
      truthy_committee (Query.committee q) = false ->
      statusCommitteeStage q docs = docs).
Proof.
  unfold statusCommitteeStage. split; [| split].
  - intros -> ->. cbn [andb]. rewrite filter_In.
    unfold filterStatus, Mongo.elemMatch. rewrite existsb_exists.
    split; intros [Hin [s [H1 H2]]]; (split; [exact Hin |]); exists s;
      (split; [exact H1 |]); now apply String.eqb_eq.
  - intros -> ->. cbn [andb]. rewrite filter_In.
    unfold filterCommittee, Mongo.in_. rewrite existsb_exists.
    split; intros [Hin [c [H1 H2]]]; (split; [exact Hin |]); exists c;
      (split; [exact H1 |]); now apply in_values_spec.
  - intros -> ->. reflexivity.
Qed.

(** *** Pages *)

Lemma firstn_plus {A : Type} (n m : nat) :
  forall l : list A, firstn (n + m) l = firstn n l ++ firstn m (skipn n l).
Proof.
  induction n as [| n IH]; intros l; [reflexivity |].
  destruct l as [| x l]; cbn [Nat.add firstn skipn app].
  - now rewrite firstn_nil.
  - now rewrite IH.
Qed.

Lemma windows_concat {A B : Type} (p : A -> B) (f : nat -> list B)
    (l : list A) (k : nat) :
  (forall i, (1 <= i <= k)%nat ->
             f i = map p (firstn 4 (skipn (4 * (i - 1)) l))) ->
  flat_map f (seq 1 k) = map p (firstn (4 * k) l).
Proof.
  induction k as [| k IH]; intros Hf; [reflexivity |].
  rewrite seq_S, flat_map_app, IH by (intros i Hi; apply Hf; lia).
  cbn [flat_map Nat.add]. rewrite app_nil_r, Hf by lia.
  replace (4 * Datatypes.S k)%nat with (4 * k + 4)%nat by lia.
  rewrite firstn_plus, map_app.
  now replace (Datatypes.S k - 1)%nat with k by lia.
Qed.

Lemma pageNumbered_spec (n : Z) (docs : list Joined) :
  1 <= n <= 2 ^ 53 ->
  exists page r,
    JS.toString n = Normal page
    /\ paginate (Some page) docs = Normal r
    /\ applications r = pageNumbered n docs
    /\ pageNumbered n docs
       = map projectApplication
           (firstn 4 (skipn (Z.to_nat ((n - 1) * 4)) docs)).
Proof.
  intros Hn. unfold pageNumbered.
  destruct (toString_safe n) as [page Hs]; [lia |]. rewrite Hs.
  destruct (parse_toString n page Hs) as [_ [Hnum Ht]].
  exists page.
  unfold paginate, paginationStage, startIndex, currentPageOf.
  cbn [JS.text]. rewrite Ht, Hnum. cbn [bind].
  assert (E53 : 2 ^ 53 = 9007199254740992) by reflexivity.
  rewrite (startIndex_exact n) by lia. cbn [Mongo.skip].
  assert (E63 : 2 ^ 63 = 9223372036854775808) by reflexivity.
  destruct (Z.ltb_spec ((n - 1) * 4) 0) as [H | _]; [lia |].
  destruct (Z.leb_spec (2 ^ 63) ((n - 1) * 4)) as [H | _]; [lia |].
  cbn [orb bind]. eexists. repeat split.
Qed.

(** X6. Pages do not overlap and leave nothing out, as far as page numbers
    and totals do not exceed 2^53, up to which they are exact as doubles:
    for [k] at most 2^53, the pages numbered 1 to [k], one after the other,
    are the first [4 * k] matches in order; for at most 2^53 matches, the
    pages numbered 1 to [numberOfPages] are all the matches; and the request
    of each page numbered from 1 to 2^53 completes. *)
Theorem pages_partition (docs : list Joined) (k : nat) :
  Z.of_nat k <= 2 ^ 53 ->
  JS.length docs <= 2 ^ 53 ->
  flat_map (fun i => pageNumbered (Z.of_nat i) docs) (seq 1 k)
  = map projectApplication (firstn (4 * k) docs)
  /\ flat_map (fun i => pageNumbered (Z.of_nat i) docs)
       (seq 1 (Z.to_nat (Mongo.ceil_divide (JS.length docs) LIMIT)))
     = map projectApplication docs
  /\ (forall n, 1 <= n <= 2 ^ 53 ->
                exists page r,
                  JS.toString n = Normal page
                  /\ paginate (Some page) docs = Normal r
                  /\ applications r = pageNumbered n docs).
Proof.
  intros Hk Hl.
  assert (Hok : forall n, 1 <= n <= 2 ^ 53 ->
                exists page r,
                  JS.toString n = Normal page
                  /\ paginate (Some page) docs = Normal r
                  /\ applications r = pageNumbered n docs).
  { intros n Hn.
    destruct (pageNumbered_spec n docs Hn) as [page [r [H1 [H2 [H3 _]]]]].
    now exists page, r. }
  assert (Hw : forall k', Z.of_nat k' <= 2 ^ 53 ->
             flat_map (fun i => pageNumbered (Z.of_nat i) docs) (seq 1 k')
             = map projectApplication (firstn (4 * k') docs)).
  { intros k' Hk'. apply windows_concat. intros i Hi.
    destruct (pageNumbered_spec (Z.of_nat i) docs) as [_ [_ [_ [_ [_ ->]]]]];
      [lia |].
    do 3 f_equal. lia. }
  split; [now apply Hw |]. split; [| exact Hok].
  assert (Hpos : 0 <= JS.length docs) by (unfold JS.length; lia).
  assert (Hc := ceil_divide_spec (JS.length docs) ltac:(lia)).
  assert (E53 : 2 ^ 53 = 9007199254740992) by reflexivity.
  rewrite Hw by lia.
  rewrite firstn_all2; [reflexivity |].
  unfold JS.length in *. lia.
Qed.

(** *** The guard on an empty membership *)

(** X8. Neither endpoint ever answers that the user is not member of any
    committee: the guard that would say so tests an array, which is never
    falsy. The list endpoint answers no 403 of its own at all. *)
Theorem not_member_answer_unreachable (db : Store) :
  (forall req body, getApplications db req <> Normal (403, body))
  /\ (forall ntnuiNo application_id,
         getApplicationById db ntnuiNo application_id
         <> Normal (403, Message "The user is not member of any committee")).
Proof.
  split.
  - intros req body. unfold getApplications.
    destruct (ntnuiNo req) as [userId |]; [| discriminate].
    destruct (negb (JS.truthy_number (Some userId))); [discriminate |].
    cbn [JS.truthy_array negb].
    destruct (validationErrors req); [| discriminate].
    destruct (catch _ _); cbn [bind]; discriminate.
  - intros ntnuiNo application_id. unfold getApplicationById.
    destruct ntnuiNo as [userId |]; [| discriminate].
    destruct (negb (JS.truthy_number (Some userId))); [discriminate |].
    cbn [JS.truthy_array negb].
    destruct (findApplicationById db application_id) as [application |];
      [| discriminate].
    set (U := getUserCommitteeIdsByUserId db userId).
    destruct (JS.includes U ELECTION_COMMITTEE_ID) eqn:HE.
    + unfold respondWithApplication. rewrite HE. discriminate.
    + destruct (JS.includes U MAIN_BOARD_ID) eqn:HM.
      * destruct (respondWithApplication_mainBoard U application HE HM)
          as [ss' [-> _]].
        cbv zeta. destruct (JS.length _ >? 0); discriminate.
      * destruct (respondWithApplication_ordinary U application HE HM)
          as [ss' [-> _]].
        destruct (existsb _ _); discriminate.
Qed.

(** *** What get-by-id shows *)

Lemma filter_all {A : Type} (p : A -> bool) (l : list A) :
  (forall x, In x l -> p x = true) -> filter p l = l.
Proof.
  induction l as [| x l IH]; intros H; [reflexivity |].
  cbn [filter]. rewrite (H x) by now left.
  f_equal. apply IH. intros y Hy. apply H. now right.
Qed.

Lemma removeFirst_NoDup (cs : list Committee.populated) :
  NoDup (map Committee.p_id cs) ->
  removeFirst isMainBoard cs = filter (fun c => negb (isMainBoard c)) cs.
Proof.
  induction cs as [| c cs IH]; intros Hnd; [reflexivity |].
  cbn [map] in Hnd. apply NoDup_cons_iff in Hnd. destruct Hnd as [Hc Hnd].
  cbn [removeFirst filter]. destruct (isMainBoard c) eqn:Hmb; cbn [negb].
  - symmetry. apply filter_all. intros c' Hc'.
    apply negb_true_iff. unfold isMainBoard in *.
    apply Z.eqb_eq in Hmb. apply Z.eqb_neq. intros E.
    apply Hc. rewrite Hmb, <- E. now apply in_map.
  - f_equal. now apply IH.
Qed.

(** X7. To a caller outside the Election Committee, get-by-id shows, when
    it answers 200, the committees of the application other than the Main
    Board, in their order, and so no Main Board entry; for a Main Board
    member this supposes the application addressed to no committee twice,
    since only the first Main Board entry is removed for them. *)
Theorem getById_shows_no_main_board (U : list Z) (S : Type)
    (application application' : Application.t Committee.populated S) :
  JS.includes U ELECTION_COMMITTEE_ID = false ->
  (JS.includes U MAIN_BOARD_ID = true -> NoDup (addressed application)) ->
  respondWithApplication U application = Normal (200, Payload application') ->
  Application.committees application'
  = filter (fun c => negb (isMainBoard c)) (Application.committees application)
  /\ (forall c, In c (Application.committees application') ->
                Committee.p_id c <> MAIN_BOARD_ID)
  /\ Application._id application' = Application._id application
  /\ Application.name application' = Application.name application.
Proof.
  intros HE Hnd Hr.
  assert (Hcs : Application.committees application'
                = filter (fun c => negb (isMainBoard c))
                    (Application.committees application)
                /\ Application._id application' = Application._id application
                /\ Application.name application' = Application.name application).
  { destruct (JS.includes U MAIN_BOARD_ID) eqn:HM.
    - destruct (respondWithApplication_mainBoard U application HE HM)
        as [ss' [Hrun _]].
      rewrite Hrun in Hr. cbv zeta in Hr.
      destruct (JS.length _ >? 0); [| discriminate].
      injection Hr as <-. cbn. split; [| split; reflexivity].
      now apply removeFirst_NoDup, Hnd.
    - destruct (respondWithApplication_ordinary U application HE HM)
        as [ss' [Hrun _]].
      rewrite Hrun in Hr. destruct (existsb _ _); [| discriminate].
      injection Hr as <-. cbn. split; [| split; reflexivity].
      apply filter_ext. intros c. now apply keeps_ordinary. }
  destruct Hcs as [Hcs [Hid Hname]].
  split; [exact Hcs |]. split; [| split; assumption].
  intros c Hc. rewrite Hcs in Hc. apply filter_In in Hc. destruct Hc as [_ Hc].
  apply negb_true_iff in Hc. now apply Z.eqb_neq.
Qed.

(** *** Population *)

Lemma find_existsb {A : Type} (f : A -> bool) (l : list A) :
  find f l = None -> existsb f l = false.
Proof.
  intros H. destruct (existsb f l) eqn:E; [| reflexivity].
  apply existsb_exists in E. destruct E as [x [Hx Hf]].
  now rewrite (find_none _ _ H x Hx) in Hf.
Qed.

Lemma populateCommitteesById_ids (db : Store) (ids : list Z) :
  map Committee.p_id (populateCommitteesById db ids)
  = filter (fun id => existsb (fun c => Committee._id c =? id) (Committees db))
           ids.
Proof.
  unfold populateCommitteesById.
  induction ids as [| id ids IH]; [reflexivity |].
  cbn [flat_map filter]. rewrite map_app, IH.
  destruct (find _ (Committees db)) as [c |] eqn:Hf.
  - destruct (find_some _ _ Hf) as [Hin Heq].
    assert (He : existsb (fun c => Committee._id c =? id) (Committees db) = true)
      by (apply existsb_exists; now exists c).
    rewrite He. cbn. apply Z.eqb_eq in Heq. now rewrite Heq.
  - now rewrite (find_existsb _ _ Hf).
Qed.

Lemma populateStatusesById_ids (db : Store) (ids : list ObjectId) :
  map Status.p_id (populateStatusesById db ids)
  = filter (fun id => existsb (fun s => String.eqb (Status._id s) id)
                        (Statuses db))
           ids.
Proof.
  unfold populateStatusesById.
  induction ids as [| id ids IH]; [reflexivity |].
  cbn [flat_map filter]. rewrite map_app, IH.
  destruct (find _ (Statuses db)) as [s |] eqn:Hf.
  - destruct (find_some _ _ Hf) as [Hin Heq].
    assert (He : existsb (fun s => String.eqb (Status._id s) id) (Statuses db)
                 = true)
      by (apply existsb_exists; now exists s).
    rewrite He. cbn. apply String.eqb_eq in Heq. now rewrite Heq.
  - now rewrite (find_existsb _ _ Hf).
Qed.

(** X9. Looking an application up by id fails exactly when no stored
    application has that id; otherwise it yields a stored application of that
    id whose committees and statuses are its references in their order,
    less the dangling ones, so that the two arrays are as long as the
    stored ones when every reference resolves. *)
Theorem findApplicationById_populates (db : Store) (application_id : ObjectId) :
  (findApplicationById db application_id = None
   <-> forall a, In a (Applications db) -> Application._id a <> application_id)
  /\ (forall application,
         findApplicationById db application_id = Some application ->
         exists stored,
           In stored (Applications db)
           /\ Application._id stored = application_id
           /\ Application._id application = application_id
           /\ Application.name application = Application.name stored
           /\ addressed application
              = filter (fun id => existsb (fun c => Committee._id c =? id)
                                    (Committees db))
                       (Application.committees stored)
           /\ map Status.p_id (Application.statuses application)
              = filter (fun id => existsb (fun s => String.eqb (Status._id s) id)
                                    (Statuses db))
                       (Application.statuses stored)
           /\ ((forall id, In id (Application.committees stored) ->
                           exists c, In c (Committees db) /\ Committee._id c = id) ->
               (forall id, In id (Application.statuses stored) ->
                           exists s, In s (Statuses db) /\ Status._id s = id) ->
               List.length (Application.committees application)
               = List.length (Application.committees stored)
               /\ List.length (Application.statuses application)
                  = List.length (Application.statuses stored))).
Proof.
  unfold findApplicationById. split.
  - destruct (find (fun a => String.eqb (Application._id a) application_id)
                (Applications db)) as [a |] eqn:Hf.
    + split; [discriminate |]. intros H.
      destruct (find_some _ _ Hf) as [Hin Heq]. apply String.eqb_eq in Heq.
      now elim (H a Hin).
    + split; [| reflexivity]. intros _ a Ha E.
      apply (find_none _ _ Hf) in Ha. apply String.eqb_neq in Ha. contradiction.
  - intros application.
    destruct (find (fun a => String.eqb (Application._id a) application_id)
                (Applications db)) as [stored |] eqn:Hf; [| discriminate].
    intros H. injection H as <-.
    destruct (find_some _ _ Hf) as [Hin Heq]. apply String.eqb_eq in Heq.
    exists stored. unfold addressed.
    cbn [Application.with_arrays Application._id Application.name
         Application.committees Application.statuses].
    split; [exact Hin |]. split; [exact Heq |]. split; [exact Heq |].
    split; [reflexivity |].
    split; [apply populateCommitteesById_ids |].
    split; [apply populateStatusesById_ids |].
    intros Hcs Hss.
    rewrite <- (length_map Committee.p_id), <- (length_map Status.p_id).
    rewrite populateCommitteesById_ids, populateStatusesById_ids.
    rewrite !filter_all; [split; reflexivity | |].
    + intros id Hid. destruct (Hss id Hid) as [s [Hs <-]].
      apply existsb_exists. exists s. split; [exact Hs | apply String.eqb_refl].
    + intros id Hid. destruct (Hcs id Hid) as [c [Hc <-]].
      apply existsb_exists. exists c. split; [exact Hc | apply Z.eqb_refl].
Qed.

(** *** Submissions that go through *)

Lemma newStatuses_spec (driver : Driver) (committees : list Z) :
  map Status.committee (newStatuses driver committees) = committees
  /\ map Status._id (newStatuses driver committees)
     = map (statusId driver) (seq 0 (List.length committees))
  /\ (forall s, In s (newStatuses driver committees) -> Status.value s = PENDING)
  /\ List.length (newStatuses driver committees) = List.length committees.
Proof.
  unfold newStatuses. rewrite !map_map. cbn [Status.committee Status._id].
  assert (Hl : List.length (seq 0 (List.length committees))
               = List.length committees) by apply length_seq.
  split; [| split; [| split]].
  - exact (map_snd_combine _ _ Hl).
  - rewrite <- (map_map fst (statusId driver)).
    now rewrite (map_fst_combine _ _ Hl).
  - intros s Hs. apply in_map_iff in Hs. now destruct Hs as [ic [<- _]].
  - rewrite length_map, length_combine, Hl. apply Nat.min_id.
Qed.

Lemma closedCommittees_none (db : Store) (committees : list Z) :
  (forall c, In c (Committees db) -> In (Committee._id c) committees ->
             Committee.accepts_admissions c = true) ->
  closedCommittees db committees = None.
Proof.
  intros H. unfold closedCommittees.
  destruct (find _ (Committees db)) as [c |] eqn:Hf; [| reflexivity].
  destruct (find_some _ _ Hf) as [Hin Hc].
  apply andb_true_iff in Hc. destruct Hc as [Hid Hclosed].
  apply in_values_Int in Hid. rewrite (H c Hin Hid) in Hclosed. discriminate.
Qed.

(** X10. A submission made during an admission period to committees that
    all accept admissions, written without failure, is answered 200 with the
    new application. The application is appended to the stored ones; one
    status per addressed committee is appended to the stored ones, each
    [Pending], the status at each index belonging to the committee at that
    index; the application refers to exactly these statuses, in order, so
    that its two arrays have the same length; nothing else changes. *)
Theorem submission_creates_aligned_application (driver : Driver) (db : Store)
    (body : Submission.t) :
  isAdmissionPeriodActive (AdmissionPeriods db) = true ->
  (forall c, In c (Committees db) ->
             In (Committee._id c) (Submission.committees body) ->
             Committee.accepts_admissions c = true) ->
  insertManyRejectsAfter driver = None ->
  saveOutcome driver = Saved ->
  exists application created,
    postApplication driver db body
    = (Normal (200, Payload application),
       mkStore (Applications db ++ [application]) (Statuses db ++ created)
               (Users db) (AdmissionPeriods db) (Committees db))
    /\ Application.name application = Submission.name body
    /\ Application.committees application = Submission.committees body
    /\ Application.statuses application = map Status._id created
    /\ map Status.committee created = Submission.committees body
    /\ (forall s, In s created -> Status.value s = PENDING)
    /\ List.length (Application.statuses application)
       = List.length (Application.committees application).
Proof.
  intros Hactive Hopen Hins Hsave.
  destruct (newStatuses_spec driver (Submission.committees body))
    as [Hc [_ [Hv Hl]]].
  eexists. exists (newStatuses driver (Submission.committees body)).
  unfold postApplication, insertMany.
  rewrite Hactive, (closedCommittees_none db _ Hopen), Hins, Hsave.
  cbn [negb]. split; [reflexivity |].
  cbn [Application.name Application.committees Application.statuses].
  split; [reflexivity |]. split; [reflexivity |]. split; [reflexivity |].
  split; [exact Hc |]. split; [exact Hv |].
  now rewrite length_map.
Qed.

(** X11. When the application cannot be saved, the statuses written for it
    stay: the answer is 400 with the validation message, or 500, no
    application is added, and one status per addressed committee has been. *)
Theorem failed_save_leaves_statuses (driver : Driver) (db : Store)
    (body : Submission.t) :
  isAdmissionPeriodActive (AdmissionPeriods db) = true ->
  (forall c, In c (Committees db) ->
             In (Committee._id c) (Submission.committees body) ->
             Committee.accepts_admissions c = true) ->
  insertManyRejectsAfter driver = None ->
  saveOutcome driver <> Saved ->
  fst (postApplication driver db body)
  = match saveOutcome driver with
    | ValidationError message => Normal (400, Message message)
    | _ => Normal (500, Message "Unable to save application")
    end
  /\ Applications (snd (postApplication driver db body)) = Applications db
  /\ Statuses (snd (postApplication driver db body))
     = Statuses db ++ newStatuses driver (Submission.committees body)
  /\ List.length (Statuses (snd (postApplication driver db body)))
     = (List.length (Statuses db)
        + List.length (Submission.committees body))%nat.
Proof.
  intros Hactive Hopen Hins Hsave.
  destruct (newStatuses_spec driver (Submission.committees body))
    as [_ [_ [_ Hl]]].
  unfold postApplication, insertMany.
  rewrite Hactive, (closedCommittees_none db _ Hopen), Hins. cbn [negb].
  destruct (saveOutcome driver); [now elim Hsave | |];
    cbn [fst snd Applications Statuses setStatuses];
    rewrite length_app, Hl; repeat split.
Qed.

(** X12. A submission, whatever its outcome, leaves users, admission
    periods and committees as they were and removes nothing: statuses are
    only appended, and an application is appended exactly when the answer
    is 200, in which case it is the application of the answer. *)
Theorem submission_only_appends (driver : Driver) (db : Store)
    (body : Submission.t) :
  Users (snd (postApplication driver db body)) = Users db
  /\ AdmissionPeriods (snd (postApplication driver db body)) = AdmissionPeriods db
  /\ Committees (snd (postApplication driver db body)) = Committees db
  /\ (exists added,
         Statuses (snd (postApplication driver db body)) = Statuses db ++ added)
  /\ ((exists application,
          fst (postApplication driver db body) = Normal (200, Payload application)
          /\ Applications (snd (postApplication driver db body))
             = Applications db ++ [application])
      \/ ((forall application,
              fst (postApplication driver db body)
              <> Normal (200, Payload application))
          /\ Applications (snd (postApplication driver db body))
             = Applications db)).
Proof.
  unfold postApplication, insertMany.
  destruct (isAdmissionPeriodActive (AdmissionPeriods db)); cbn [negb].
  2:{ cbn. repeat split; try (exists []; now rewrite app_nil_r).
      right. split; [discriminate | reflexivity]. }
  destruct (closedCommittees db (Submission.committees body)).
  { cbn. repeat split; try (exists []; now rewrite app_nil_r).
    right. split; [discriminate | reflexivity]. }
  destruct (insertManyRejectsAfter driver).
  { cbn. repeat split; try (eexists; reflexivity).
    right. split; [discriminate | reflexivity]. }
  destruct (saveOutcome driver); cbn; repeat split;
    try (eexists; reflexivity).
  - left. eexists. split; reflexivity.
  - right. split; [discriminate | reflexivity].
  - right. split; [discriminate | reflexivity].
Qed.

(** *** Wiping again, and submitting after a wipe *)

Lemma find_filter {A : Type} (f g : A -> bool) (l : list A) :
  (forall x, f x = true -> g x = true) -> find f (filter g l) = find f l.
Proof.
  intros H. induction l as [| x l IH]; [reflexivity |].
  cbn [filter find]. destruct (f x) eqn:Hf.
  - rewrite (H x Hf). cbn [find]. now rewrite Hf.
  - destruct (g x); cbn [find]; now rewrite ?Hf.
Qed.

Lemma filter_idem {A : Type} (g : A -> bool) (l : list A) :
  filter g (filter g l) = filter g l.
Proof.
  apply filter_all. intros x Hx. now apply filter_In in Hx.
Qed.

Lemma wiped_store (db : Store) (userId : Z) :
  userId <> 0 ->
  In MAIN_BOARD_ID (getUserCommitteeIdsByUserId db userId) ->
  wipeAdmissionData db (Some userId)
  = (Normal (200, Message "Admission data successfully wiped"),
     mkStore [] []
       (filter (fun u => User._id u =? userId) (Users db))
       []
       (map closeCommittee (Committees db))).
Proof.
  intros H0 HM. apply Z.eqb_neq in H0. apply includes_In in HM.
  unfold wipeAdmissionData. cbn [JS.truthy_number]. rewrite H0, HM.
  cbn [negb]. rewrite !deleteMany_all. unfold Mongo.deleteMany, Mongo.updateMany.
  do 2 f_equal. apply filter_ext. intros u. apply negb_involutive.
Qed.

(** X13. Wiping is idempotent for the Main Board member who wiped: the
    caller is still a user with the same committees, and wiping again is
    answered 200 and changes nothing. *)
Theorem wipe_twice (db : Store) (userId : Z) :
  userId <> 0 ->
  In MAIN_BOARD_ID (getUserCommitteeIdsByUserId db userId) ->
  getUserCommitteeIdsByUserId (snd (wipeAdmissionData db (Some userId))) userId
  = getUserCommitteeIdsByUserId db userId
  /\ wipeAdmissionData (snd (wipeAdmissionData db (Some userId))) (Some userId)
     = (Normal (200, Message "Admission data successfully wiped"),
        snd (wipeAdmissionData db (Some userId))).
Proof.
  intros H0 HM. rewrite (wiped_store db userId H0 HM). cbn [snd].
  assert (HU : getUserCommitteeIdsByUserId
                 (mkStore [] []
                    (filter (fun u => User._id u =? userId) (Users db))
                    [] (map closeCommittee (Committees db))) userId
               = getUserCommitteeIdsByUserId db userId).
  { unfold getUserCommitteeIdsByUserId. cbn [Users].
    now rewrite find_filter by auto. }
  split; [exact HU |].
  rewrite wiped_store by (auto; now rewrite HU).
  cbn [Users Committees]. rewrite filter_idem, map_map.
  reflexivity.
Qed.

(** X14. After a wipe no submission addressed to a committee of the store
    goes through, every committee being closed: the store stays as the wipe
    left it, whatever the driver, and the answer is 400 for the closed
    committee, or 403 when no admission period is active. *)
Theorem no_submission_after_wipe (driver : Driver) (db : Store) (userId : Z)
    (body : Submission.t) (c : Committee.t) :
  userId <> 0 ->
  In MAIN_BOARD_ID (getUserCommitteeIdsByUserId db userId) ->
  In c (Committees db) ->
  In (Committee._id c) (Submission.committees body) ->
  snd (postApplication driver (snd (wipeAdmissionData db (Some userId))) body)
  = snd (wipeAdmissionData db (Some userId))
  /\ (httpStatus
        (fst (postApplication driver
                (snd (wipeAdmissionData db (Some userId))) body)) = Some 400
      \/ httpStatus
           (fst (postApplication driver
                   (snd (wipeAdmissionData db (Some userId))) body)) = Some 403).
Proof.
  intros H0 HM Hc Hid. rewrite (wiped_store db userId H0 HM). cbn [snd].
  set (db' := mkStore [] [] _ [] _).
  destruct (closedCommittees_found db' (Submission.committees body)
              (closeCommittee c)) as [closed Hfind].
  - cbn [db' Committees]. now apply in_map.
  - exact Hid.
  - reflexivity.
  - unfold postApplication. rewrite Hfind.
    destruct (isAdmissionPeriodActive (AdmissionPeriods db')); cbn;
      split; auto.
Qed.

(** *** Statuses and committees of a listed application *)

(** X16. In a listed application, redacted or not, every status shown
    belongs to a committee shown, provided the statuses the stored
    application refers to are those of its committees and these committees
    exist. *)
Theorem listed_statuses_have_listed_committees (db : Store)
    (stored : IApplication) (a : Projected) :
  (forall s, In s (Statuses db) ->
             In (Status._id s) (Application.statuses stored) ->
             In (Status.committee s) (Application.committees stored)) ->
  (forall id, In id (Application.committees stored) ->
              exists c, In c (Committees db) /\ Committee._id c = id) ->
  a = projectApplication (joinApplication db stored)
  \/ a = hideMainBoard (projectApplication (joinApplication db stored)) ->
  forall s,
    In s (Application.statuses a) ->
    exists c, In c (Application.committees a)
              /\ Committee.p_id c = Status.pr_committee s.
Proof.
  intros Hown Hexist Ha s Hs.
  assert (Hjoined : forall s,
             In s (Application.statuses
                     (projectApplication (joinApplication db stored))) ->
             exists c,
               In c (Application.committees
                       (projectApplication (joinApplication db stored)))
               /\ Committee.p_id c = Status.pr_committee s).
  { clear s Hs. intros s Hs.
    cbn [projectApplication joinApplication Application.with_arrays
         Application.statuses Application.committees] in *.
    apply in_map_iff in Hs. destruct Hs as [s0 [<- Hs0]].
    unfold Mongo.lookup in *. apply filter_In in Hs0. destruct Hs0 as [Hin Href].
    apply existsb_exists in Href. destruct Href as [id [Hid Heq]].
    apply String.eqb_eq in Heq. subst id.
    destruct (Hexist _ (Hown s0 Hin Hid)) as [c0 [Hc0 Hc0id]].
    exists (Committee.populate c0). split; [| exact Hc0id].
    apply in_map. apply filter_In. split; [exact Hc0 |].
    apply existsb_exists. exists (Committee._id c0).
    split; [rewrite Hc0id; now apply Hown | apply Z.eqb_refl]. }
  destruct Ha as [-> | ->]; [now apply Hjoined |].
  unfold hideMainBoard in *.
  cbn [Application.with_arrays Application.statuses Application.committees] in *.
  apply filter_In in Hs. destruct Hs as [Hs Hmb].
  destruct (Hjoined s Hs) as [c [Hc Hid]].
  exists c. split; [| exact Hid].
  apply filter_In. split; [exact Hc | now rewrite Hid].
Qed.

(** *** Filters that match nothing, and the status enumeration *)

Lemma filter_none {A : Type} (f : A -> bool) (l : list A) :
  (forall x, In x l -> f x = false) -> filter f l = [].
Proof.
  induction l as [| x l IH]; intros H; [reflexivity |].
  cbn [filter]. rewrite (H x) by now left.
  apply IH. intros y Hy. apply H. now right.
Qed.

(** X17. A status that is the value of no member of [StatusTypes] matches
    no application, with or without committees; and committees none of
    which parses to a number match no application. *)
Theorem unmatched_filters (q : Query.t) (docs : list WithStatuses) :
  (JS.truthy_string (Query.status q) = true ->
   (forall v, StatusTypes_value v <> JS.text (Query.status q)) ->
   statusCommitteeStage q docs = [])
  /\ (JS.truthy_string (Query.status q) = false ->
      truthy_committee (Query.committee q) = true ->
      (forall id, In id (committeeIds (Query.committee q)) -> id = JS.NaN) ->
      statusCommitteeStage q docs = []).
Proof.
  unfold statusCommitteeStage. split.
  - intros -> Hv.
    assert (Hno : forall s : Status.t,
               String.eqb (StatusTypes_value (Status.value s))
                          (JS.text (Query.status q)) = false)
      by (intros s; apply String.eqb_neq, Hv).
    destruct (truthy_committee (Query.committee q)); cbn [andb];
      apply filter_none; intros a _;
      unfold statusForCommittee, filterStatus, Mongo.elemMatch;
      destruct (existsb _ (Application.statuses a)) eqn:E; try reflexivity;
      apply existsb_exists in E; destruct E as [s [_ E]];
      rewrite Hno, ?andb_false_r in E; discriminate.
  - intros -> -> Hnan. cbn [andb]. apply filter_none. intros a _.
    unfold filterCommittee, Mongo.in_.
    destruct (existsb _ (Application.committees a)) eqn:E; [| reflexivity].
    apply existsb_exists in E. destruct E as [c [_ E]].
    apply in_values_spec in E. apply Hnan in E. discriminate.
Qed.

(** X18. The members of [StatusTypes] have non-empty, pairwise distinct
    values: a status filter set to the value of a member is applied, and
    accepts exactly the applications holding a status of that member. *)
Theorem status_filter_selects_member (v : StatusTypes) (a : WithStatuses) :
  JS.truthy_string (Some (StatusTypes_value v)) = true
  /\ (forall v', StatusTypes_value v = StatusTypes_value v' -> v = v')
  /\ (filterStatus (StatusTypes_value v) a = true
      <-> exists s, In s (Application.statuses a) /\ Status.value s = v).
Proof.
  assert (Hinj : forall v1 v2,
             StatusTypes_value v1 = StatusTypes_value v2 -> v1 = v2)
    by (intros [] []; cbn; intros H; try reflexivity; discriminate).
  split; [now destruct v |]. split; [apply Hinj |].
  unfold filterStatus, Mongo.elemMatch. rewrite existsb_exists.
  split; intros [s [Hs H]]; exists s; (split; [exact Hs |]).
  - apply String.eqb_eq in H. now apply Hinj.
  - subst v. apply String.eqb_refl.
Qed.

(** *** The loops of get-by-id *)

(** X19. Lines 70-110, given the caller's committee ids and the application
    found: the two loops, which splice the arrays they run over, the second
    one stepping its index back, end within one more step than the
    application has committees and never read outside the array; and the
    outcome is the application with status 200, the refusal with status
    403, which only a Main Board member gets, or the error 403 of a refusal
    passed on. *)
Theorem getById_loops_end {S : Type} (U : list Z)
    (application : Application.t Committee.populated S) :
  respondWithApplication U application <> OutOfFuel
  /\ respondWithApplication U application <> Unmodelled
  /\ respondWithApplication U application <> Throw TypeError
  /\ (forall e,
         respondWithApplication U application = Throw e ->
         e = CustomError "You do not have access to this application" 403)
  /\ (forall status body,
         respondWithApplication U application = Normal (status, body) ->
         (status = 200 /\ exists shown, body = Payload shown)
         \/ (status = 403
             /\ body = Message "You do not have access to this application"
             /\ In MAIN_BOARD_ID U)).
Proof.
  destruct (JS.includes U ELECTION_COMMITTEE_ID) eqn:HE.
  - unfold respondWithApplication. rewrite HE.
    repeat split; try discriminate.
    intros status body H. injection H as <- <-. left.
    split; [reflexivity | now eexists].
  - destruct (JS.includes U MAIN_BOARD_ID) eqn:HM.
    + destruct (respondWithApplication_mainBoard U application HE HM)
        as [ss' [-> _]].
      cbv zeta. destruct (JS.length _ >? 0); repeat split; try discriminate;
        intros status body H; injection H as <- <-.
      * left. split; [reflexivity | now eexists].
      * right. split; [reflexivity |]. split; [reflexivity |].
        now apply includes_In.
    + destruct (respondWithApplication_ordinary U application HE HM)
        as [ss' [-> _]].
      destruct (existsb _ _); repeat split; try discriminate.
      * intros status body H. injection H as <- <-. left.
        split; [reflexivity | now eexists].
      * intros e H. now injection H as <-.
Qed.

End Controller.

(* ------------------------------------------------------------------ *)
(** ** The statements on the example organisation *)

Import Example.

(** The rule of C1 as the specification words it fails for a Main Board
    member and an application addressed to the Main Board alone: the caller
    belongs to an addressed committee, yet get-by-id answers 403 and the
    scope stage leaves the application out. It also fails, for get-by-id
    only, on an application addressed to no committee. *)
Lemma main_board_alone_is_hidden_from_main_board :
  ~ (httpStatus (respondWithApplication electionCommittee mainBoard
                   [mainBoard] boardOnly) = Some 200
     <-> seesAsStated electionCommittee mainBoard [mainBoard]
           (addressed boardOnly))
  /\ ~ (In alan (userAuthorizedCommittees electionCommittee mainBoard
                   [mainBoard] [alan])
        <-> In alan [alan]
            /\ seesAsStated electionCommittee mainBoard [mainBoard]
                 (Application.committees alan))
  /\ ~ (httpStatus (respondWithApplication electionCommittee mainBoard
                      [mainBoard] nobody) = Some 200
        <-> seesAsStated electionCommittee mainBoard [mainBoard]
              (addressed nobody)).
Proof.
  split; [| split].
  - intros [_ H].
    assert (Hs : seesAsStated electionCommittee mainBoard [mainBoard]
                   (addressed boardOnly)).
    { right. right. exists mainBoard. split; left; reflexivity. }
    apply H in Hs. vm_compute in Hs. discriminate.
  - intros [_ H].
    assert (Hs : In alan [alan]
                 /\ seesAsStated electionCommittee mainBoard [mainBoard]
                      (Application.committees alan)).
    { split; [now left |]. right. right. exists mainBoard.
      split; left; reflexivity. }
    apply H in Hs. vm_compute in Hs. exact Hs.
  - intros [_ H].
    assert (Hs : seesAsStated electionCommittee mainBoard [mainBoard]
                   (addressed nobody)).
    { right. left. split; [now left | discriminate]. }
    apply H in Hs. vm_compute in Hs. discriminate.
Qed.

Lemma visibility_policy_witness :
  httpStatus (respondWithApplication electionCommittee mainBoard
                [7] populatedThree) = Some 200
  /\ In ada (userAuthorizedCommittees electionCommittee mainBoard
               [mainBoard] [ada; alan]).
Proof.
  destruct (visibility_policy electionCommittee mainBoard [7]) as [Hid _].
  destruct (visibility_policy electionCommittee mainBoard [mainBoard])
    as [_ Hlist].
  split.
  - apply (Hid StatusTypes populatedThree). right. right. split.
    + intros [H | []]. discriminate.
    + exists 7. split; left; reflexivity.
  - apply Hlist. split; [now left |]. right. left.
    split; [now left | discriminate].
Defined.

(** The list endpoint of C2 does not remove by position. The joins list the
    committees and the statuses of an application each in the order of its
    own collection, so that Ada's application, addressed to Swimming and to
    the Main Board, reaches redaction as committees [Main board, Swimming]
    with the statuses of [Swimming, Main board]: the committee at position
    0 is removed, and the status at position 1. *)
Lemma list_redaction_goes_by_key :
  let joined : Projected :=
    Application.mk "a1" "Ada Lovelace" 10 [board; swimming]
      [Status.mkProjected 7; Status.mkProjected 2] in
  aggregate electionCommittee mainBoard storageOrder lowerCase db
    (getUserCommitteeIdsByUserId db 11) noFilter
  = Normal (mkResponse
              [joined;
               Application.mk "a3" "abc" 30 [swimming; dance]
                 [Status.mkProjected 7; Status.mkProjected 9]]
              (Pagination.mk (Some (JS.Int 0)) (Some 1)))
  /\ JS.includes (getUserCommitteeIdsByUserId db 11) electionCommittee = false
  /\ Application.committees (hideMainBoard mainBoard joined)
     = JS.splice 0 1 (Application.committees joined)
  /\ Application.statuses (hideMainBoard mainBoard joined)
     = JS.splice 1 1 (Application.statuses joined)
  /\ Application.statuses (hideMainBoard mainBoard joined)
     <> JS.splice 0 1 (Application.statuses joined).
Proof.
  cbv zeta. repeat split; try reflexivity. discriminate.
Qed.

Lemma redaction_index_synchronized_witness :
  JS.includes [7] electionCommittee = false
  /\ List.length (Application.statuses populatedThree)
     = List.length (Application.committees populatedThree)
  /\ aligned projectedThree
  /\ (respondWithApplication electionCommittee mainBoard [7] populatedThree
      = Normal (200, Payload (Application.with_arrays populatedThree
                                [swimming; dance] [PENDING; REJECTED]))
      \/ httpStatus (respondWithApplication electionCommittee mainBoard
                       [7] populatedThree) = Some 403)
  /\ hideMainBoard mainBoard projectedThree
     = Application.with_arrays projectedThree [swimming; dance]
         [Status.mkProjected 7; Status.mkProjected 9].
Proof.
  assert (H1 : JS.includes [7] electionCommittee = false) by reflexivity.
  assert (H2 : List.length (Application.statuses populatedThree)
               = List.length (Application.committees populatedThree))
    by reflexivity.
  assert (H3 : aligned projectedThree) by reflexivity.
  destruct (redaction_index_synchronized electionCommittee mainBoard [7]
              StatusTypes populatedThree projectedThree H1 H2 H3)
    as [_ [_ [_ Hex]]].
  assert (H0 : Committee.p_id swimming <> mainBoard) by discriminate.
  assert (H9 : Committee.p_id dance <> mainBoard) by discriminate.
  destruct (Hex swimming board dance eq_refl H0 H9) as [Hid Hlist].
  split; [exact H1 |]. split; [exact H2 |]. split; [exact H3 |]. split.
  - apply (Hid PENDING ACCEPTED REJECTED); reflexivity.
  - apply (Hlist (Status.mkProjected 7) (Status.mkProjected 2)
             (Status.mkProjected 9)); reflexivity.
Defined.

Lemma conjunctive_filter_witness :
  let q := Query.mk None None (Some (QString "9")) (Some "Accepted") None in
  let a : WithStatuses :=
    Application.mk "a3" "abc" 30 [7; 9]
      [Status.mk "s4" 7 PENDING; Status.mk "s5" 9 ACCEPTED] in
  JS.truthy_string (Query.status q) = true
  /\ truthy_committee (Query.committee q) = true
  /\ In a (statusCommitteeStage q [a]).
Proof.
  intros q a.
  assert (H1 : JS.truthy_string (Query.status q) = true) by reflexivity.
  assert (H2 : truthy_committee (Query.committee q) = true) by reflexivity.
  split; [exact H1 |]. split; [exact H2 |].
  apply (proj1 (conjunctive_filter q [a] a H1 H2)).
  split; [now left |].
  exists (Status.mk "s5" 9 ACCEPTED).
  split; [right; now left |]. split; [now left | reflexivity].
Defined.

(** The pagination stage of C4 reports nothing when nothing matches: no
    document leaves the count, so neither [numberOfPages] nor [currentPage]
    is set, and the endpoint then answers with [currentPage] 1 although no
    page was requested. *)
Lemma no_match_no_pagination :
  ~ (exists r,
        paginate None [] = Normal r
        /\ Pagination.numberOfPages (pagination r)
           = Some (Mongo.ceil_divide (JS.length (@nil Joined)) LIMIT)
        /\ Pagination.currentPage (pagination r) = Some (JS.Int 0))
  /\ getApplications electionCommittee mainBoard storageOrder lowerCase
       (mkStore [] [] users [] committees)
       (mkListRequest (Some 13) [] noFilter)
     = Normal (200, Listing (mkResponse []
                               (Pagination.mk (Some (JS.Int 1)) (Some 0)))).
Proof.
  split.
  - intros [r [Hr [Hn _]]]. vm_compute in Hr. injection Hr as <-.
    vm_compute in Hn. discriminate.
  - reflexivity.
Qed.

Lemma pagination_stage_witness :
  tenJoined <> []
  /\ JS.Number "3" = Normal (JS.Int 3)
  /\ 1 <= 3 <= 2 ^ 53
  /\ paginate (Some "3") tenJoined
     = Normal
         (mkResponse (map projectApplication [joined 8; joined 9])
            (Pagination.mk (Some (JS.Int 3)) (Some 3)))
  /\ (exists r, paginate (Some "1") tenJoined = Normal r
                /\ List.length (applications r) = 4%nat
                /\ Pagination.numberOfPages (pagination r) = Some 3)
  /\ (exists r, paginate (Some "3") tenJoined = Normal r
                /\ List.length (applications r) = 2%nat)
  /\ (exists r, paginate None tenJoined = Normal r
                /\ Pagination.currentPage (pagination r) = Some (JS.Int 0)).
Proof.
  assert (Hne : tenJoined <> []) by discriminate.
  assert (Hb : 1 <= 3 <= 2 ^ 53) by (split; vm_compute; discriminate).
  split; [exact Hne |]. split; [reflexivity |]. split; [exact Hb |].
  destruct (pagination_stage (Some "3") tenJoined Hne) as [_ [Hpage [_ H10]]].
  split; [exact (Hpage 3 eq_refl eq_refl Hb) |].
  apply H10. reflexivity.
Defined.


(** The name filter of C9 reads its argument as a regular expression: the
    name [a.c] selects the applicant [abc], whose name does not contain it. *)
Lemma dot_matches_any_character :
  queryName lowerCase (Some "a.c") [abc] = Normal [abc]
  /\ ~ Regex.containsIgnoringCase lowerCase
         (JS.codePoints "a.c") (JS.codePoints (Application.name abc)).
Proof.
  split; [reflexivity |].
  rewrite <- containsRun_literal, <- search_run. vm_compute. discriminate.
Qed.

Lemma name_filter_witness :
  JS.truthy_string (Some "LOVE") = true
  /\ Regex.literal (JS.codePoints "LOVE") = true
  /\ (exists kept,
         queryName lowerCase (Some "LOVE") [ada; alan; abc] = Normal kept
         /\ In ada kept)
  /\ Regex.literal (JS.codePoints "JøRN") = true
  /\ (exists kept,
         queryName lowerCase (Some "JøRN") [ada; bjorn] = Normal kept
         /\ In bjorn kept)
  /\ Regex.simple (JS.codePoints "bj.rn") = true
  /\ (exists kept,
         queryName lowerCase (Some "bj.rn") [ada; bjorn] = Normal kept
         /\ In bjorn kept)
  /\ queryName lowerCase (Some "") [ada; alan; abc] = Normal [ada; alan; abc].
Proof.
  destruct (name_filter lowerCase (Some "LOVE") [ada; alan; abc])
    as [_ [H _]].
  destruct (H eq_refl eq_refl) as [kept [Hq Hk]].
  destruct (name_filter lowerCase (Some "JøRN") [ada; bjorn]) as [_ [H' _]].
  destruct (H' eq_refl eq_refl) as [kept' [Hq' Hk']].
  destruct (name_filter lowerCase (Some "bj.rn") [ada; bjorn]) as [_ [_ Hdot]].
  destruct (Hdot eq_refl eq_refl) as [keptDot [HqDot HkDot]].
  split; [reflexivity |]. split; [reflexivity |]. split.
  { exists kept. split; [exact Hq |]. apply Hk. split; [now left |].
    exists (map lowerCase (JS.codePoints "Ada ")),
           (map lowerCase (JS.codePoints "lace")).
    reflexivity. }
  split; [reflexivity |]. split.
  { exists kept'. split; [exact Hq' |]. apply Hk'.
    split; [right; now left |].
    exists (map lowerCase (JS.codePoints "B")),
           (map lowerCase (JS.codePoints " Dæhlie")).
    reflexivity. }
  split; [reflexivity |]. split.
  { exists keptDot. split; [exact HqDot |]. apply HkDot.
    split; [right; now left |].
    exists [], (JS.codePoints "Bjørn"), (JS.codePoints " Dæhlie").
    split; [reflexivity |].
    repeat constructor; vm_compute; discriminate. }
  apply (proj1 (name_filter lowerCase (Some "") [ada; alan; abc])).
  reflexivity.
Defined.

Lemma wipe_authorization_witness :
  10 <> 0
  /\ In mainBoard (getUserCommitteeIdsByUserId db 10)
  /\ (let db' := snd (wipeAdmissionData mainBoard db (Some 10)) in
      httpStatus (fst (wipeAdmissionData mainBoard db (Some 10))) = Some 200
      /\ Applications db' = []
      /\ Statuses db' = []
      /\ AdmissionPeriods db' = []
      /\ Users db' = [User.mk 10 [User.mkMembership 2 leader]])
  /\ ~ In mainBoard (getUserCommitteeIdsByUserId db 11)
  /\ httpStatus (fst (wipeAdmissionData mainBoard db (Some 11))) = Some 403
  /\ snd (wipeAdmissionData mainBoard db (Some 11)) = db.
Proof.
  assert (H10 : 10 <> 0) by discriminate.
  assert (H11 : 11 <> 0) by discriminate.
  assert (Hin : In mainBoard (getUserCommitteeIdsByUserId db 10))
    by (left; reflexivity).
  assert (Hout : ~ In mainBoard (getUserCommitteeIdsByUserId db 11)).
  { intros [H | []]. discriminate. }
  destruct (wipe_authorization mainBoard db 10 H10) as [_ Hyes].
  destruct (wipe_authorization mainBoard db 11 H11) as [Hno _].
  destruct (Hyes Hin) as [Hs [Ha [Hst [Hp _]]]].
  destruct (Hno Hout) as [Hs' Hdb].
  split; [exact H10 |]. split; [exact Hin |]. split.
  - cbv zeta. split; [exact Hs |]. split; [exact Ha |]. split; [exact Hst |].
    split; [exact Hp | reflexivity].
  - split; [exact Hout |]. split; [exact Hs' | exact Hdb].
Defined.

(** The submission of C7 made outside an admission period is answered 403,
    not 400, whatever the committees it is addressed to. *)
Lemma closed_committee_outside_admission_period :
  let body := Submission.mk "Barbara Liskov" [9] in
  (exists c, In c (Committees closedSeason)
             /\ In (Committee._id c) (Submission.committees body)
             /\ Committee.accepts_admissions c = false)
  /\ fst (postApplication activeOnDay100 driver closedSeason body)
     = Throw (CustomError "Admission period is not active" 403)
  /\ httpStatus (fst (postApplication activeOnDay100 driver closedSeason body))
     <> Some 400.
Proof.
  intros body. split; [| split].
  - exists (Committee.mk 9 "Dance" "dans" false).
    split; [| split; [now left | reflexivity]].
    right. right. right. now left.
  - reflexivity.
  - discriminate.
Qed.

Lemma closed_committee_rejection_witness :
  let body := Submission.mk "Barbara Liskov" [7; 9] in
  let closed := Committee.mk 9 "Dance" "dans" false in
  In closed (Committees db)
  /\ In (Committee._id closed) (Submission.committees body)
  /\ Committee.accepts_admissions closed = false
  /\ activeOnDay100 (AdmissionPeriods db) = true
  /\ snd (postApplication activeOnDay100 driver db body) = db
  /\ fst (postApplication activeOnDay100 driver db body)
     = Normal (400, Message "A committee the application was sent to is closed").
Proof.
  intros body closed.
  assert (H1 : In closed (Committees db))
    by (right; right; right; now left).
  assert (H2 : In (Committee._id closed) (Submission.committees body))
    by (right; now left).
  assert (H3 : Committee.accepts_admissions closed = false) by reflexivity.
  destruct (closed_committee_rejection activeOnDay100 driver db body closed
              H1 H2 H3) as [Hdb [Hactive _]].
  split; [exact H1 |]. split; [exact H2 |]. split; [exact H3 |].
  split; [reflexivity |]. split; [exact Hdb |].
  apply Hactive. reflexivity.
Defined.

Lemma no_orphan_application_witness :
  let body := Submission.mk "Barbara Liskov" [7; 2] in
  insertManyRejectsAfter rejectingDriver = Some 1%nat
  /\ Applications (snd (postApplication activeOnDay100 rejectingDriver db body))
     = Applications db
  /\ fst (postApplication activeOnDay100 rejectingDriver db body)
     = Throw (CustomError "Something went wrong creating statuses" 500).
Proof.
  intros body.
  assert (H : insertManyRejectsAfter rejectingDriver = Some 1%nat)
    by reflexivity.
  destruct (no_orphan_application activeOnDay100 rejectingDriver db body
              1%nat H) as [Happs [_ Hthrow]].
  split; [exact H |]. split; [exact Happs |].
  apply Hthrow; reflexivity.
Defined.

(** C6 on the example organisation. User 12 belongs to no committee. The
    guard on the caller's committee ids tests the array itself, which is
    never falsy, so it is passed: the list endpoint goes on with an empty
    scope and answers 200 with an empty page; get-by-id goes on to load the
    application and answers 403 with the message of a caller lacking access
    to it, or 404 when there is no such application. *)
Theorem empty_membership_passes_the_guard :
  getUserCommitteeIdsByUserId db 12 = []
  /\ getApplications electionCommittee mainBoard storageOrder lowerCase db
       (mkListRequest (Some 12) [] noFilter)
     = Normal (200, Listing (mkResponse []
                               (Pagination.mk (Some (JS.Int 1)) (Some 0))))
  /\ getApplicationById electionCommittee mainBoard db (Some 12) "a1"
     = Throw (CustomError "You do not have access to this application" 403)
  /\ getApplicationById electionCommittee mainBoard db (Some 12) "a0"
     = Throw (CustomError "Could not find application" 404).
Proof.
  repeat split; reflexivity.
Qed.

(* ------------------------------------------------------------------ *)
(** ** Further statements on the example organisation *)

Lemma committee_select_filters_witness :
  let chosen := [Committee.mk 7 "Swimming" "svomming" true] in
  let docs := populateStatusStage db (Applications db) in
  let q := Query.mk None None (Some (QString "7")) None None in
  (forall c, In c committees -> Z.abs (Committee._id c) <= 2 ^ 53)
  /\ incl chosen committees
  /\ exists dataList selected,
      FilterSearch.mapCommitteesToMultiselectData committees = Normal dataList
      /\ map FilterSearch.value dataList = ["1"; "2"; "7"; "9"]
      /\ FilterSearch.mapCommitteesToMultiselectData chosen = Normal selected
      /\ map FilterSearch.value selected = ["7"]
      /\ forall a,
          In a (statusCommitteeStage q docs)
          <-> In a docs
              /\ exists c, In c chosen
                           /\ In (Committee._id c) (Application.committees a).
Proof.
  intros chosen docs q.
  assert (Hb : forall c, In c committees -> Z.abs (Committee._id c) <= 2 ^ 53).
  { intros c [<- | [<- | [<- | [<- | []]]]]; vm_compute; discriminate. }
  assert (Hincl : incl chosen committees).
  { intros c [<- | []]. right. right. now left. }
  split; [exact Hb |]. split; [exact Hincl |].
  destruct (committee_select_filters committees chosen docs Hb Hincl)
    as [dataList [selected [Hrun [_ [Hrun' [_ Hf]]]]]].
  exists dataList, selected.
  split; [exact Hrun |].
  split; [vm_compute in Hrun; now injection Hrun as <- |].
  split; [exact Hrun' |].
  vm_compute in Hrun'. injection Hrun' as <-.
  split; [reflexivity |].
  intros a. apply Hf; [reflexivity |].
  right. eexists. split; reflexivity.
Defined.

Lemma listing_hides_main_board_witness :
  let req := mkListRequest (Some 11) [] noFilter in
  exists r,
    ntnuiNo req = Some 11
    /\ JS.includes (getUserCommitteeIdsByUserId db 11) electionCommittee = false
    /\ getApplications electionCommittee mainBoard storageOrder lowerCase db req
       = Normal (200, Listing r)
    /\ forall a,
        In a (applications r) ->
        (forall c, In c (Application.committees a) ->
                   Committee.p_id c <> mainBoard)
        /\ (forall s, In s (Application.statuses a) ->
                      Status.pr_committee s <> mainBoard).
Proof.
  intros req.
  assert (H : exists r,
             getApplications electionCommittee mainBoard storageOrder lowerCase db req
             = Normal (200, Listing r)) by (eexists; reflexivity).
  destruct H as [r Hr]. exists r.
  split; [reflexivity |]. split; [reflexivity |]. split; [exact Hr |].
  apply (listing_hides_main_board electionCommittee mainBoard storageOrder lowerCase
           db req 11 200 r); [reflexivity | reflexivity | exact Hr].
Defined.

Lemma listing_at_most_four_witness :
  let req := mkListRequest (Some 13) [] noFilter in
  exists r,
    getApplications electionCommittee mainBoard storageOrder lowerCase db req
    = Normal (200, Listing r)
    /\ (List.length (applications r) <= 4)%nat.
Proof.
  intros req.
  assert (H : exists r,
             getApplications electionCommittee mainBoard storageOrder lowerCase db req
             = Normal (200, Listing r)) by (eexists; reflexivity).
  destruct H as [r Hr]. exists r. split; [exact Hr |].
  exact (listing_at_most_four electionCommittee mainBoard storageOrder lowerCase
           db req 200 r Hr).
Defined.

Lemma listing_within_scope_witness :
  let req := mkListRequest (Some 10) [] noFilter in
  (forall s docs j, In j (storageOrder s docs) -> In j docs)
  /\ exists r,
      getApplications electionCommittee mainBoard storageOrder lowerCase db req
      = Normal (200, Listing r)
      /\ forall a,
          In a (applications r) ->
          exists stored,
            In stored (Applications db)
            /\ In stored (userAuthorizedCommittees electionCommittee mainBoard
                            (getUserCommitteeIdsByUserId db 10)
                            (Applications db))
            /\ a = hideMainBoard mainBoard
                     (projectApplication (joinApplication db stored)).
Proof.
  intros req.
  assert (Hsort : forall s docs j, In j (storageOrder s docs) -> In j docs)
    by (intros s docs j H; exact H).
  split; [exact Hsort |].
  assert (H : exists r,
             getApplications electionCommittee mainBoard storageOrder lowerCase db req
             = Normal (200, Listing r)) by (eexists; reflexivity).
  destruct H as [r Hr]. exists r. split; [exact Hr |].
  destruct (listing_within_scope electionCommittee mainBoard storageOrder lowerCase
              db req 200 r Hsort Hr) as [userId [Hu Hall]].
  assert (E : userId = 10) by (cbn in Hu; now injection Hu).
  subst userId. exact Hall.
Defined.

Lemma nonpositive_page_fails_witness :
  let req :=
    mkListRequest (Some 13) [] (Query.mk (Some "0") None None None None) in
  JS.truthy_string (Query.page (query req)) = true
  /\ JS.Number (JS.text (Query.page (query req))) = Normal (JS.Int 0)
  /\ getApplications electionCommittee mainBoard storageOrder lowerCase db req
     = Throw (CustomError "Something went wrong retrieving applications" 500).
Proof.
  intros req. split; [reflexivity |]. split; [reflexivity |].
  apply (nonpositive_page_fails electionCommittee mainBoard storageOrder lowerCase db req
           13 0
           (populateCommittees db
              (statusCommitteeStage (query req)
                 (populateStatusStage db (Applications db)))));
    try reflexivity; discriminate.
Defined.

Lemma single_filters_witness :
  let a : WithStatuses :=
    Application.mk "a3" "abc" 30 [7; 9]
      [Status.mk "s4" 7 PENDING; Status.mk "s5" 9 ACCEPTED] in
  let byStatus := Query.mk None None None (Some "Accepted") None in
  let byCommittee := Query.mk None None (Some (QArray ["9"; "4"])) None None in
  In a (statusCommitteeStage byStatus [a])
  /\ In a (statusCommitteeStage byCommittee [a])
  /\ statusCommitteeStage noFilter [a] = [a].
Proof.
  intros a byStatus byCommittee.
  destruct (single_filters byStatus [a] a) as [Hs _].
  destruct (single_filters byCommittee [a] a) as [_ [Hc _]].
  destruct (single_filters noFilter [a] a) as [_ [_ Hn]].
  split; [| split].
  - apply (Hs eq_refl eq_refl). split; [now left |].
    exists (Status.mk "s5" 9 ACCEPTED). split; [right; now left | reflexivity].
  - apply (Hc eq_refl eq_refl). split; [now left |].
    exists 9. split; [right; now left | now left].
  - exact (Hn eq_refl eq_refl).
Defined.

Lemma pages_partition_witness :
  Z.of_nat 2 <= 2 ^ 53
  /\ JS.length tenJoined <= 2 ^ 53
  /\ flat_map (fun i => pageNumbered (Z.of_nat i) tenJoined) (seq 1 2)
     = map projectApplication (firstn 8 tenJoined)
  /\ flat_map (fun i => pageNumbered (Z.of_nat i) tenJoined) (seq 1 3)
     = map projectApplication tenJoined.
Proof.
  assert (H2 : Z.of_nat 2 <= 2 ^ 53) by (vm_compute; discriminate).
  assert (Hl : JS.length tenJoined <= 2 ^ 53) by (vm_compute; discriminate).
  destruct (pages_partition tenJoined 2 H2 Hl) as [Hk [Hall _]].
  split; [exact H2 |]. split; [exact Hl |]. split; [exact Hk | exact Hall].
Defined.

Lemma getById_shows_no_main_board_witness :
  let shown :=
    Application.with_arrays populatedThree [swimming; dance]
      [PENDING; REJECTED] in
  JS.includes [mainBoard] electionCommittee = false
  /\ NoDup (addressed populatedThree)
  /\ respondWithApplication electionCommittee mainBoard [mainBoard]
       populatedThree
     = Normal (200, Payload shown)
  /\ Application.committees shown
     = filter (fun c => negb (isMainBoard mainBoard c))
         (Application.committees populatedThree).
Proof.
  intros shown.
  assert (HE : JS.includes [mainBoard] electionCommittee = false) by reflexivity.
  assert (Hnd : NoDup (addressed populatedThree)).
  { repeat constructor; cbn; intros H;
      repeat (destruct H as [H | H]; [discriminate |]); exact H. }
  assert (Hr : respondWithApplication electionCommittee mainBoard [mainBoard]
                 populatedThree = Normal (200, Payload shown)) by reflexivity.
  split; [exact HE |]. split; [exact Hnd |]. split; [exact Hr |].
  exact (proj1 (getById_shows_no_main_board electionCommittee mainBoard
                  [mainBoard] StatusTypes populatedThree shown HE
                  (fun _ => Hnd) Hr)).
Defined.

Lemma findApplicationById_populates_witness :
  exists application stored,
    findApplicationById db "a1" = Some application
    /\ In stored (Applications db)
    /\ Application._id stored = "a1"
    /\ addressed application = [7; 2]
    /\ findApplicationById db "a0" = None.
Proof.
  destruct (findApplicationById_populates db "a1") as [_ Hsome].
  destruct (findApplicationById_populates db "a0") as [Hnone _].
  assert (H : exists application, findApplicationById db "a1" = Some application)
    by (eexists; reflexivity).
  destruct H as [application Hfound].
  destruct (Hsome application Hfound)
    as [stored [Hin [Hid [_ [_ [Haddr _]]]]]].
  exists application, stored.
  split; [exact Hfound |]. split; [exact Hin |]. split; [exact Hid |].
  split.
  - rewrite Haddr.
    assert (E : stored = ada).
    { destruct Hin as [<- | [<- | [<- | []]]];
        [reflexivity | discriminate | discriminate]. }
    now rewrite E.
  - apply Hnone. intros a [<- | [<- | [<- | []]]]; discriminate.
Defined.

Lemma submission_creates_aligned_application_witness :
  let body := Submission.mk "Barbara Liskov" [7; 2] in
  activeOnDay100 (AdmissionPeriods db) = true
  /\ insertManyRejectsAfter driver = None
  /\ saveOutcome driver = Saved
  /\ exists application created,
      postApplication activeOnDay100 driver db body
      = (Normal (200, Payload application),
         mkStore (Applications db ++ [application]) (Statuses db ++ created)
                 (Users db) (AdmissionPeriods db) (Committees db))
      /\ map Status.committee created = [7; 2]
      /\ List.length (Application.statuses application) = 2%nat.
Proof.
  intros body.
  assert (Hopen : forall c, In c (Committees db) ->
                            In (Committee._id c) (Submission.committees body) ->
                            Committee.accepts_admissions c = true).
  { intros c [<- | [<- | [<- | [<- | []]]]] Hc; try reflexivity.
    destruct Hc as [Hc | [Hc | []]]; discriminate. }
  destruct (submission_creates_aligned_application activeOnDay100 driver db
              body eq_refl Hopen eq_refl eq_refl)
    as [application [created [Hrun [_ [Hcs [_ [Hcom [_ Hlen]]]]]]]].
  split; [reflexivity |]. split; [reflexivity |]. split; [reflexivity |].
  exists application, created.
  split; [exact Hrun |]. split; [exact Hcom |].
  rewrite Hlen, Hcs. reflexivity.
Defined.

Lemma failed_save_leaves_statuses_witness :
  let body := Submission.mk "" [7; 2] in
  let failing :=
    mkDriver (statusId driver) None "a4" 40
             (ValidationError "Path `name` is required.") in
  saveOutcome failing <> Saved
  /\ fst (postApplication activeOnDay100 failing db body)
     = Normal (400, Message "Path `name` is required.")
  /\ Applications (snd (postApplication activeOnDay100 failing db body))
     = Applications db
  /\ List.length (Statuses (snd (postApplication activeOnDay100 failing db body)))
     = 7%nat.
Proof.
  intros body failing.
  assert (Hopen : forall c, In c (Committees db) ->
                            In (Committee._id c) (Submission.committees body) ->
                            Committee.accepts_admissions c = true).
  { intros c [<- | [<- | [<- | [<- | []]]]] Hc; try reflexivity.
    destruct Hc as [Hc | [Hc | []]]; discriminate. }
  assert (Hsave : saveOutcome failing <> Saved) by discriminate.
  destruct (failed_save_leaves_statuses activeOnDay100 failing db body
              eq_refl Hopen eq_refl Hsave) as [Hfst [Happs [_ Hlen]]].
  split; [exact Hsave |]. split; [exact Hfst |]. split; [exact Happs |].
  exact Hlen.
Defined.

Lemma wipe_twice_witness :
  10 <> 0
  /\ In mainBoard (getUserCommitteeIdsByUserId db 10)
  /\ wipeAdmissionData mainBoard
       (snd (wipeAdmissionData mainBoard db (Some 10))) (Some 10)
     = (Normal (200, Message "Admission data successfully wiped"),
        snd (wipeAdmissionData mainBoard db (Some 10))).
Proof.
  assert (H10 : 10 <> 0) by discriminate.
  assert (Hin : In mainBoard (getUserCommitteeIdsByUserId db 10))
    by (left; reflexivity).
  split; [exact H10 |]. split; [exact Hin |].
  exact (proj2 (wipe_twice mainBoard db 10 H10 Hin)).
Defined.

Lemma no_submission_after_wipe_witness :
  let body := Submission.mk "Barbara Liskov" [7] in
  let addressedTo := Committee.mk 7 "Swimming" "svomming" true in
  10 <> 0
  /\ In mainBoard (getUserCommitteeIdsByUserId db 10)
  /\ In addressedTo (Committees db)
  /\ In (Committee._id addressedTo) (Submission.committees body)
  /\ snd (postApplication activeOnDay100 driver
            (snd (wipeAdmissionData mainBoard db (Some 10))) body)
     = snd (wipeAdmissionData mainBoard db (Some 10)).
Proof.
  intros body addressedTo.
  assert (H10 : 10 <> 0) by discriminate.
  assert (Hin : In mainBoard (getUserCommitteeIdsByUserId db 10))
    by (left; reflexivity).
  assert (Hc : In addressedTo (Committees db)) by (right; right; now left).
  assert (Hid : In (Committee._id addressedTo) (Submission.committees body))
    by now left.
  split; [exact H10 |]. split; [exact Hin |]. split; [exact Hc |].
  split; [exact Hid |].
  exact (proj1 (no_submission_after_wipe mainBoard activeOnDay100 driver db 10
                  body addressedTo H10 Hin Hc Hid)).
Defined.

Lemma listed_statuses_have_listed_committees_witness :
  let a := hideMainBoard mainBoard (projectApplication (joinApplication db ada)) in
  (forall s, In s (Statuses db) ->
             In (Status._id s) (Application.statuses ada) ->
             In (Status.committee s) (Application.committees ada))
  /\ (forall id, In id (Application.committees ada) ->
                 exists c, In c (Committees db) /\ Committee._id c = id)
  /\ Application.statuses a = [Status.mkProjected 7]
  /\ forall s, In s (Application.statuses a) ->
               exists c, In c (Application.committees a)
                         /\ Committee.p_id c = Status.pr_committee s.
Proof.
  intros a.
  assert (Hown : forall s, In s (Statuses db) ->
                           In (Status._id s) (Application.statuses ada) ->
                           In (Status.committee s) (Application.committees ada)).
  { intros s [<- | [<- | [<- | [<- | [<- | []]]]]] Hs;
      try (now left); try (right; now left);
      destruct Hs as [Hs | [Hs | []]]; discriminate. }
  assert (Hexist : forall id, In id (Application.committees ada) ->
                              exists c, In c (Committees db)
                                        /\ Committee._id c = id).
  { intros id [<- | [<- | []]].
    - exists (Committee.mk 7 "Swimming" "svomming" true).
      split; [right; right; now left | reflexivity].
    - exists (Committee.mk 2 "Main board" "hovedstyret" true).
      split; [right; now left | reflexivity]. }
  split; [exact Hown |]. split; [exact Hexist |]. split; [reflexivity |].
  apply (listed_statuses_have_listed_committees mainBoard db ada a Hown Hexist).
  right. reflexivity.
Defined.

Lemma unmatched_filters_witness :
  let a : WithStatuses :=
    Application.mk "a3" "abc" 30 [7; 9]
      [Status.mk "s4" 7 PENDING; Status.mk "s5" 9 ACCEPTED] in
  let unknownStatus := Query.mk None None None (Some "Waiting") None in
  let noNumber := Query.mk None None (Some (QString "seven")) None None in
  (forall v, StatusTypes_value v <> "Waiting")
  /\ statusCommitteeStage unknownStatus [a] = []
  /\ (forall id, In id (committeeIds (Query.committee noNumber)) -> id = JS.NaN)
  /\ statusCommitteeStage noNumber [a] = [].
Proof.
  intros a unknownStatus noNumber.
  assert (Hv : forall v, StatusTypes_value v <> "Waiting")
    by (intros []; discriminate).
  assert (Hn : forall id, In id (committeeIds (Query.committee noNumber)) ->
                          id = JS.NaN).
  { intros id [<- | []]. reflexivity. }
  destruct (unmatched_filters unknownStatus [a]) as [Hs _].
  destruct (unmatched_filters noNumber [a]) as [_ Hc].
  split; [exact Hv |]. split; [exact (Hs eq_refl Hv) |].
  split; [exact Hn | exact (Hc eq_refl eq_refl Hn)].
Defined.
